(** * County land-cover proportions from the NLCD raster

    A shallow embedding of [process_county_landcover.py]: the
    reclassification table, the fold of raw pixel counts into semantic
    classes, the normalisation into proportions, the per-county loop with
    its [try]/[except], and the validation pass over the results table.

    Python integers are [Z].  Python floats are kept behind the interface
    [PyFloat], which has two instances: exact rationals ([Q], for the
    algebraic properties) and IEEE-754 binary64 (through [SpecFloat], for
    the values the interpreter really computes).  A dictionary with a
    fixed set of keys is a record; a dictionary that is only iterated over
    is the list of its items; exceptions are values of [Py]; printing,
    appending to [results], sampling the raster and writing the file are
    steps of a state monad.  The loading and the reprojection of the
    inputs, before the loop, and the summary printed after the file is
    written are not part of the model. *)

From Stdlib Require Import ZArith QArith Lia List SpecFloat.
From stdpp Require Import gmap strings list pretty.

Local Open Scope Z_scope.

(** ** Exceptions *)

(** The exceptions that can occur in the modelled code.  [OtherError] stands
    for whatever the raster sampling library raises (I/O errors, invalid
    geometries, ...); all of them derive from Python's [Exception]. *)
Inductive Exception :=
| ZeroDivisionError
| OverflowError
| KeyError (key : string)
| OtherError (msg : string).

(** [str(e)]; the text of a [KeyError] is the [repr] of its key, which
    puts a key without quotes or escapes between single quotes. *)
Definition str (e : Exception) : string :=
  match e with
  | ZeroDivisionError => "division by zero"
  | OverflowError => "integer division result too large for a float"
  | KeyError key => "'" +:+ key +:+ "'"
  | OtherError msg => msg
  end.

(** A computation that returns a value or raises. *)
Inductive Py (A : Type) :=
| Ok (a : A)
| Raise (e : Exception).
Arguments Ok {A} a.
Arguments Raise {A} e.

#[global] Instance Py_ret : MRet Py := fun _ a => Ok a.
#[global] Instance Py_bind : MBind Py := fun _ _ f c =>
  match c with
  | Ok a => f a
  | Raise e => Raise e
  end.
#[global] Instance Py_fmap : FMap Py := fun _ _ f c =>
  match c with
  | Ok a => Ok (f a)
  | Raise e => Raise e
  end.

(** ** Floating-point interface *)

(** What the program does with floats: decimal literals ([0.0], [0.99],
    [1.01]), true division of two integers, addition, strict comparison
    and the NaN test behind pandas' [skipna].  [of_decimal m k] is the
    literal [m * 10^-k]; [truediv a b] is [a / b] on integers, which
    raises [ZeroDivisionError] when [b] is 0. *)
Class PyFloat (F : Type) := {
  of_decimal : Z -> nat -> F;
  truediv : Z -> Z -> Py F;
  fadd : F -> F -> F;
  flt : F -> F -> bool;
  is_nan : F -> bool
}.

(** *** Exact rationals *)

Definition Q_truediv (a b : Z) : Py Q :=
  if b =? 0 then Raise ZeroDivisionError
  else Ok (Qred (inject_Z a / inject_Z b)).

Definition Q_lt (x y : Q) : bool := negb (Qle_bool y x).

#[global] Instance ExactQ : PyFloat Q := {|
  of_decimal m k := Qred (inject_Z m / inject_Z (10 ^ Z.of_nat k));
  truediv := Q_truediv;
  fadd x y := Qred (x + y);
  flt := Q_lt;
  is_nan _ := false
|}.

(** *** IEEE-754 binary64 *)

Module Binary64.

Definition prec : Z := 53.
Definition emax : Z := 1024.

(** The correctly rounded (to nearest, ties to even) quotient of two
    integers, which is what CPython's [int.__truediv__] returns.  The
    quotient of the magnitudes is computed with enough bits for one
    rounding, as the division of two floats is. *)
Definition round_quotient (a b : Z) : spec_float :=
  match a with
  | Z0 => S754_zero (b <? 0)
  | _ =>
    let '(q, e, l) := SFdiv_core_binary prec emax (Z.abs a) 0 (Z.abs b) 0 in
    binary_round_aux prec emax (xorb (a <? 0) (b <? 0)) q e l
  end.

Definition int_truediv (a b : Z) : Py spec_float :=
  if b =? 0 then Raise ZeroDivisionError
  else
    match round_quotient a b with
    | S754_infinity _ => Raise OverflowError
    | x => Ok x
    end.

#[global] Instance ops : PyFloat spec_float := {|
  of_decimal m k := round_quotient m (10 ^ Z.of_nat k);
  truediv := int_truediv;
  fadd := SFadd prec emax;
  flt := SFltb;
  is_nan x := match x with S754_nan => true | _ => false end
|}.

End Binary64.

(** ** The reclassification table *)

Inductive SemanticClass :=
| forest | agriculture | developed | wetland | other | nodata.

#[global] Instance SemanticClass_eq_dec : EqDecision SemanticClass.
Proof. solve_decision. Defined.

Definition NLCD_RECLASSIFICATION : gmap Z SemanticClass :=
  list_to_map [
    (* Forest *)
    (41, forest); (42, forest); (43, forest);
    (* Agriculture *)
    (81, agriculture); (82, agriculture);
    (* Developed *)
    (21, developed); (22, developed); (23, developed); (24, developed);
    (* Wetland *)
    (90, wetland); (95, wetland);
    (* Other *)
    (11, other); (12, other); (31, other); (52, other); (71, other);
    (* NoData (exclude from calculations) *)
    (250, nodata)
  ].

(** ** Class counts *)

(** The [class_counts] dictionary: always built from the same literal with
    the six class names as keys, so it is a record of six integers. *)
Record ClassCounts := {
  forest_count : Z;
  agriculture_count : Z;
  developed_count : Z;
  wetland_count : Z;
  other_count : Z;
  nodata_count : Z
}.

(** [class_counts[class_name]] *)
Definition get_count (cc : ClassCounts) (class_name : SemanticClass) : Z :=
  match class_name with
  | forest => forest_count cc
  | agriculture => agriculture_count cc
  | developed => developed_count cc
  | wetland => wetland_count cc
  | other => other_count cc
  | nodata => nodata_count cc
  end.

(** [class_counts[class_name] += count] *)
Definition add_count (cc : ClassCounts) (class_name : SemanticClass) (count : Z)
  : ClassCounts :=
  match class_name with
  | forest =>
    {| forest_count := forest_count cc + count;
       agriculture_count := agriculture_count cc;
       developed_count := developed_count cc;
       wetland_count := wetland_count cc;
       other_count := other_count cc;
       nodata_count := nodata_count cc |}
  | agriculture =>
    {| forest_count := forest_count cc;
       agriculture_count := agriculture_count cc + count;
       developed_count := developed_count cc;
       wetland_count := wetland_count cc;
       other_count := other_count cc;
       nodata_count := nodata_count cc |}
  | developed =>
    {| forest_count := forest_count cc;
       agriculture_count := agriculture_count cc;
       developed_count := developed_count cc + count;
       wetland_count := wetland_count cc;
       other_count := other_count cc;
       nodata_count := nodata_count cc |}
  | wetland =>
    {| forest_count := forest_count cc;
       agriculture_count := agriculture_count cc;
       developed_count := developed_count cc;
       wetland_count := wetland_count cc + count;
       other_count := other_count cc;
       nodata_count := nodata_count cc |}
  | other =>
    {| forest_count := forest_count cc;
       agriculture_count := agriculture_count cc;
       developed_count := developed_count cc;
       wetland_count := wetland_count cc;
       other_count := other_count cc + count;
       nodata_count := nodata_count cc |}
  | nodata =>
    {| forest_count := forest_count cc;
       agriculture_count := agriculture_count cc;
       developed_count := developed_count cc;
       wetland_count := wetland_count cc;
       other_count := other_count cc;
       nodata_count := nodata_count cc + count |}
  end.

(** [class_counts.items()], in insertion order. *)
Definition items (cc : ClassCounts) : list (SemanticClass * Z) :=
  [ (forest, forest_count cc); (agriculture, agriculture_count cc);
    (developed, developed_count cc); (wetland, wetland_count cc);
    (other, other_count cc); (nodata, nodata_count cc) ].

(** The dictionary literal with every class at 0. *)
Definition empty_counts : ClassCounts :=
  {| forest_count := 0; agriculture_count := 0; developed_count := 0;
     wetland_count := 0; other_count := 0; nodata_count := 0 |}.

(** Python's [sum] over integers. *)
Definition sum (l : list Z) : Z := fold_left Z.add l 0.

(** ** Folding raw counts through the table *)

(** The body of the loop
    [for value, count in ...: if value in map: class_counts[map[value]] += count]. *)
Definition tally_step (reclassification_map : gmap Z SemanticClass)
  (class_counts : ClassCounts) (item : Z * Z) : ClassCounts :=
  let '(value, count) := item in
  match reclassification_map !! value with
  | Some class_name => add_count class_counts class_name count
  | None => class_counts
  end.

(** The whole loop, from the all-zero dictionary; [pixel_counts] is the
    sequence of [(code, count)] pairs the loop iterates over. *)
Definition tally (reclassification_map : gmap Z SemanticClass)
  (pixel_counts : list (Z * Z)) : ClassCounts :=
  fold_left (tally_step reclassification_map) pixel_counts empty_counts.

(** [np.unique(values, return_counts=True)]: the sorted distinct values,
    each with its number of occurrences. *)
Fixpoint count_value (v : Z) (uniq : list (Z * Z)) : list (Z * Z) :=
  match uniq with
  | [] => [(v, 1)]
  | (u, c) :: rest =>
    if v <? u then (v, 1) :: uniq
    else if v =? u then (u, c + 1) :: rest
    else (u, c) :: count_value v rest
  end.

Definition np_unique_counts (values : list Z) : list (Z * Z) :=
  fold_right count_value [] values.

(** [reclassify_array]: [array] is the flattened array; cells equal to 0
    are masked out before counting. *)
Definition reclassify_array (array : list Z)
  (reclassification_map : gmap Z SemanticClass) : ClassCounts :=
  let unique_counts :=
    np_unique_counts (List.filter (fun v => negb (v =? 0)) array) in
  tally reclassification_map unique_counts.

(** ** Proportions *)

Section Proportions.
Context {F : Type} `{PyFloat F}.

Record Proportions := {
  forest_proportion : F;
  agriculture_proportion : F;
  developed_proportion : F;
  wetland_proportion : F;
  other_proportion : F
}.

(** The literal [0.0]. *)
Definition zero : F := of_decimal 0 1.

Definition total_valid_pixels (class_counts : ClassCounts) : Z :=
  sum (map snd
         (List.filter (fun '(class_name, _) =>
                         negb (bool_decide (class_name = nodata)))
            (items class_counts))).

Definition calculate_proportions (class_counts : ClassCounts)
  : Py Proportions :=
  if total_valid_pixels class_counts =? 0 then
    (* Handle case where all pixels are NoData *)
    mret {| forest_proportion := zero;
            agriculture_proportion := zero;
            developed_proportion := zero;
            wetland_proportion := zero;
            other_proportion := zero |}
  else
    f ← truediv (forest_count class_counts) (total_valid_pixels class_counts);
    a ← truediv (agriculture_count class_counts) (total_valid_pixels class_counts);
    d ← truediv (developed_count class_counts) (total_valid_pixels class_counts);
    w ← truediv (wetland_count class_counts) (total_valid_pixels class_counts);
    o ← truediv (other_count class_counts) (total_valid_pixels class_counts);
    mret {| forest_proportion := f;
            agriculture_proportion := a;
            developed_proportion := d;
            wetland_proportion := w;
            other_proportion := o |}.

End Proportions.
Arguments Proportions F : clear implicits.

(** ** Data frames *)

(** A pandas [DataFrame] as the program uses it: an ordered dictionary of
    named columns, each holding strings or floats.  A missing column name
    raises [KeyError]. *)
Section Frames.
Context {F : Type} `{PyFloat F}.

Inductive Column :=
| StrCol (values : list string)
| NumCol (values : list F).

Definition DataFrame := list (string * Column).

Definition column_length (c : Column) : nat :=
  match c with
  | StrCol values => length values
  | NumCol values => length values
  end.

(** [len(df)] *)
Definition len (df : DataFrame) : nat :=
  match df with
  | [] => O
  | (_, c) :: _ => column_length c
  end.

(** [df[name]] *)
Fixpoint getitem (df : DataFrame) (name : string) : Py Column :=
  match df with
  | [] => Raise (KeyError name)
  | (n, c) :: df' => if String.eqb n name then Ok c else getitem df' name
  end.

(** [df[[name1; name2; ...]]]; the [KeyError] carries the first missing
    name, where the message of pandas lists the names asked for. *)
Fixpoint getitems (df : DataFrame) (names : list string) : Py DataFrame :=
  match names with
  | [] => Ok []
  | name :: names' =>
    c ← getitem df name;
    rest ← getitems df names';
    mret ((name, c) :: rest)
  end.

(** [df[name] = c]: replaces the column when it exists, appends it
    otherwise. *)
Fixpoint setitem (df : DataFrame) (name : string) (c : Column) : DataFrame :=
  match df with
  | [] => [(name, c)]
  | (n, c') :: df' =>
    if String.eqb n name then (n, c) :: df' else (n, c') :: setitem df' name c
  end.

(** [df.drop(name, axis=1)] *)
Fixpoint drop (df : DataFrame) (name : string) : Py DataFrame :=
  match df with
  | [] => Raise (KeyError name)
  | (n, c) :: df' =>
    if String.eqb n name then Ok df'
    else df'' ← drop df' name; mret ((n, c) :: df'')
  end.

(** The numeric columns of a frame, or [TypeError] when one holds
    strings. *)
Fixpoint numeric_columns (df : DataFrame) : Py (list (list F)) :=
  match df with
  | [] => Ok []
  | (_, NumCol values) :: df' => cols ← numeric_columns df'; mret (values :: cols)
  | (n, StrCol _) :: _ => Raise (OtherError "TypeError")
  end.

(** One step of a sum that skips NaN ([skipna=True], the default). *)
Definition nan_add (acc x : F) : F := if is_nan x then acc else fadd acc x.

(** [df.sum(axis=1)]: for every row, the sum of its cells from left to
    right, starting from [0.0]. *)
Definition sum_axis1 (df : DataFrame) : Py (list F) :=
  cols ← numeric_columns df;
  mret (fold_left (zip_with nan_add) cols (replicate (len df) zero)).

(** [series < c] and [series > c] *)
Definition series_lt (c : Column) (x : F) : Py (list bool) :=
  match c with
  | NumCol values => Ok (map (fun v => flt v x) values)
  | StrCol _ => Raise (OtherError "TypeError")
  end.

Definition series_gt (c : Column) (x : F) : Py (list bool) :=
  match c with
  | NumCol values => Ok (map (fun v => flt x v) values)
  | StrCol _ => Raise (OtherError "TypeError")
  end.

(** [mask1 | mask2] *)
Definition series_or (m1 m2 : list bool) : list bool := zip_with orb m1 m2.

(** The entries of [l] whose mask bit is set. *)
Definition select {A} (mask : list bool) (l : list A) : list A :=
  map snd (List.filter fst (zip mask l)).

Definition column_select (mask : list bool) (c : Column) : Column :=
  match c with
  | StrCol values => StrCol (select mask values)
  | NumCol values => NumCol (select mask values)
  end.

(** [df[mask]] *)
Definition getitem_mask (df : DataFrame) (mask : list bool) : DataFrame :=
  map (fun '(n, c) => (n, column_select mask c)) df.

Definition column_take (n : nat) (c : Column) : Column :=
  match c with
  | StrCol values => StrCol (take n values)
  | NumCol values => NumCol (take n values)
  end.

(** [df.head()] *)
Definition head (df : DataFrame) : DataFrame :=
  map (fun '(n, c) => (n, column_take 5 c)) df.

End Frames.
Arguments Column F : clear implicits.
Arguments DataFrame F : clear implicits.

(** ** The run *)

Definition OUTPUT_CSV_PATH : string :=
  "/home/mihiarc/repos/nlcd-county/county_landcover_proportions.csv".

Section Run.
Context {F : Type} `{PyFloat F}.
Context {Geometry : Type}.

(** A row of the (reprojected) county shapefile. *)
Record County := { GEOID : string; geometry : Geometry }.

(** The [result] dictionary: the identifier and, spread into it, the five
    proportions. *)
Record CountyRecord := {
  county_fips : string;
  proportions : Proportions F
}.

(** What the program prints: lines of text and rendered frames. *)
Inductive Output :=
| Line (text : string)
| Table (df : DataFrame F).

(** The mutable state of a run: the [results] list, the standard output,
    the number of raster samplings made so far and the files written. *)
Record World := {
  results : list CountyRecord;
  stdout : list Output;
  samplings : nat;
  files : gmap string (DataFrame F)
}.

(** The raster sampling capability,
    [zonal_stats(geometry, NLCD_RASTER_PATH, categorical=True, nodata=0)].
    It reads the raster file on every call, so its outcome may differ from
    one call to the next: the model gives it the number of earlier calls.
    It returns one dictionary of per-code pixel counts per feature, or
    raises. *)
Variable zonal_stats : nat -> Geometry -> Py (list (list (Z * Z))).

(** Effectful computations: the state survives an exception. *)
Definition M (A : Type) : Type := World -> Py A * World.

#[local] Instance M_ret : MRet M := fun _ a w => (Ok a, w).
#[local] Instance M_bind : MBind M := fun _ _ f c w =>
  match c w with
  | (Ok a, w') => f a w'
  | (Raise e, w') => (Raise e, w')
  end.

Definition lift {A} (c : Py A) : M A := fun w => (c, w).

(** [try: body / except Exception as e: handler e] *)
Definition try_except {A} (body : M A) (handler : Exception -> M A) : M A :=
  fun w =>
    match body w with
    | (Ok a, w') => (Ok a, w')
    | (Raise e, w') => handler e w'
    end.

Definition print (o : Output) : M unit := fun w =>
  (Ok tt, {| results := results w; stdout := stdout w ++ [o];
             samplings := samplings w; files := files w |}).

(** [results = []] *)
Definition results_init : M unit := fun w =>
  (Ok tt, {| results := []; stdout := stdout w;
             samplings := samplings w; files := files w |}).

(** [results.append(result)] *)
Definition results_append (result : CountyRecord) : M unit := fun w =>
  (Ok tt, {| results := results w ++ [result]; stdout := stdout w;
             samplings := samplings w; files := files w |}).

Definition results_get : M (list CountyRecord) := fun w => (Ok (results w), w).

Definition call_zonal_stats (g : Geometry) : M (list (list (Z * Z))) := fun w =>
  (zonal_stats (samplings w) g,
   {| results := results w; stdout := stdout w;
      samplings := S (samplings w); files := files w |}).

(** [df.to_csv(path, index=False)] *)
Definition to_csv (df : DataFrame F) (path : string) : M unit := fun w =>
  (Ok tt, {| results := results w; stdout := stdout w;
             samplings := samplings w; files := <[path := df]> (files w) |}).

(** [for x in l: body x] *)
Fixpoint for_each {A} (l : list A) (body : A -> M unit) : M unit :=
  match l with
  | [] => mret tt
  | x :: l' => body x;; for_each l' body
  end.

(** [not stats or not stats[0]] *)
Definition no_raster_data (stats : list (list (Z * Z))) : bool :=
  match stats with
  | [] => true
  | [] :: _ => true
  | _ => false
  end.

(** The body of the loop over the counties. *)
Definition process_county (county : County) : M unit :=
  let county_fips := GEOID county in
  try_except
    (stats ← call_zonal_stats (geometry county);
     result ←
       (if no_raster_data stats then
          (* Handle case where no raster data intersects with county *)
          print (Line ("Warning: No raster data found for county " +:+ county_fips));;
          mret {| county_fips := county_fips;
                  proportions :=
                    {| forest_proportion := zero;
                       agriculture_proportion := zero;
                       developed_proportion := zero;
                       wetland_proportion := zero;
                       other_proportion := zero |} |}
        else
          (* Get pixel counts for each NLCD class *)
          let pixel_counts := hd [] stats in
          (* Convert to class counts using reclassification mapping *)
          let class_counts := tally NLCD_RECLASSIFICATION pixel_counts in
          (* Calculate proportions *)
          proportions ← lift (calculate_proportions class_counts);
          mret {| county_fips := county_fips; proportions := proportions |});
     results_append result)
    (fun e =>
       print (Line ("Error processing county " +:+ county_fips +:+ ": " +:+ str e));;
       (* Add default values for failed counties *)
       results_append
         {| county_fips := county_fips;
            proportions :=
              {| forest_proportion := zero;
                 agriculture_proportion := zero;
                 developed_proportion := zero;
                 wetland_proportion := zero;
                 other_proportion := zero |} |}).

(** The keys of a [result] dictionary, in insertion order. *)
Definition result_keys : list string :=
  [ "county_fips"; "forest_proportion"; "agriculture_proportion";
    "developed_proportion"; "wetland_proportion"; "other_proportion" ].

(** [pd.DataFrame(results)]: the columns are the keys of the dictionaries
    (every [result] has the same six), so a frame built from no
    dictionary at all has no column. *)
Definition pd_DataFrame (results : list CountyRecord) : DataFrame F :=
  match results with
  | [] => []
  | _ :: _ =>
    [ ("county_fips", StrCol (map county_fips results));
      ("forest_proportion",
       NumCol (map (fun r => forest_proportion (proportions r)) results));
      ("agriculture_proportion",
       NumCol (map (fun r => agriculture_proportion (proportions r)) results));
      ("developed_proportion",
       NumCol (map (fun r => developed_proportion (proportions r)) results));
      ("wetland_proportion",
       NumCol (map (fun r => wetland_proportion (proportions r)) results));
      ("other_proportion",
       NumCol (map (fun r => other_proportion (proportions r)) results)) ]
  end.

Definition proportion_cols : list string :=
  [ "forest_proportion"; "agriculture_proportion"; "developed_proportion";
    "wetland_proportion"; "other_proportion" ].

(** The validation of the frame: the [total_proportion] column is added
    and the rows whose total is below 0.99 or above 1.01 are selected.
    Returns [results_df] (with the new column) and [invalid_counties]. *)
Definition validate (results_df : DataFrame F)
  : Py (DataFrame F * DataFrame F) :=
  total_proportion ← (sub ← getitems results_df proportion_cols;
                      sum_axis1 sub);
  let results_df := setitem results_df "total_proportion" (NumCol total_proportion) in
  (* Check for counties with invalid proportions *)
  below ← (total ← getitem results_df "total_proportion";
           series_lt total (of_decimal 99 2));
  above ← (total ← getitem results_df "total_proportion";
           series_gt total (of_decimal 101 2));
  let invalid_counties := getitem_mask results_df (series_or below above) in
  mret (results_df, invalid_counties).

(** The program from the initialisation of [results] to the writing of
    the CSV file; [counties] is [counties_reprojected]. *)
Definition process_county_landcover (counties : list County) : M unit :=
  (* Initialize results list *)
  results_init;;
  print (Line "Processing counties...");;
  (* Process each county *)
  for_each counties process_county;;
  (* Convert results to DataFrame *)
  print (Line "Creating results DataFrame...");;
  results ← results_get;
  let results_df := pd_DataFrame results in
  (* Verify proportions sum to approximately 1.0 *)
  print (Line "Validating results...");;
  validated ← lift (validate results_df);
  let results_df := fst validated in
  let invalid_counties := snd validated in
  (if bool_decide (0 < len invalid_counties)%nat then
     print (Line ("Warning: " +:+ pretty (len invalid_counties)
                    +:+ " counties have proportions that don't sum to ~1.0"));;
     print (Line "Sample invalid counties:");;
     sample ← lift (getitems invalid_counties ["county_fips"; "total_proportion"]);
     print (Table (head sample))
   else mret tt);;
  (* Drop the validation column before saving *)
  results_df ← lift (drop results_df "total_proportion");
  (* Save results to CSV *)
  print (Line ("Saving results to " +:+ OUTPUT_CSV_PATH +:+ "..."));;
  to_csv results_df OUTPUT_CSV_PATH.

Definition initial_world : World :=
  {| results := []; stdout := []; samplings := 0; files := ∅ |}.

End Run.
Arguments County Geometry : clear implicits.
Arguments CountyRecord F : clear implicits.
Arguments Output F : clear implicits.
Arguments World F : clear implicits.

(** ** Vocabulary of the properties *)

(** The number of pixels in a tally, all six classes together. *)
Definition total_pixels (cc : ClassCounts) : Z := sum (map snd (items cc)).

(** The invariant of a pixel tally: no count is negative. *)
Definition is_tally (cc : ClassCounts) : Prop :=
  forall class_name, 0 <= get_count cc class_name.

Section Vocabulary.
Context {F : Type} `{PyFloat F}.
Context {Geometry : Type}.

Definition zero_proportions : Proportions F :=
  {| forest_proportion := zero;
     agriculture_proportion := zero;
     developed_proportion := zero;
     wetland_proportion := zero;
     other_proportion := zero |}.

(** The record of a county without data. *)
Definition degenerate (fips : string) : CountyRecord F :=
  {| county_fips := fips; proportions := zero_proportions |}.

(** The sum of the five proportions of one row, as [sum(axis=1)] takes
    it. *)
Definition total_proportion (p : Proportions F) : F :=
  fold_left nan_add
    [ forest_proportion p; agriculture_proportion p; developed_proportion p;
      wetland_proportion p; other_proportion p ]
    zero.

(** The validator's test on one row. *)
Definition flagged (p : Proportions F) : bool :=
  flt (total_proportion p) (of_decimal 99 2)
  || flt (of_decimal 101 2) (total_proportion p).

(** The frame after [results_df['total_proportion'] = ...]. *)
Definition with_total (results : list (CountyRecord F)) : DataFrame F :=
  pd_DataFrame results
  ++ [ ("total_proportion",
        NumCol (map (fun r => total_proportion (proportions r)) results)) ].

(** What the validation prints for the records [results]. *)
Definition validation_report (results : list (CountyRecord F)) : list (Output F) :=
  let invalid := List.filter (fun r => flagged (proportions r)) results in
  if bool_decide (0 < length invalid)%nat then
    [ Line ("Warning: " +:+ pretty (length invalid)
              +:+ " counties have proportions that don't sum to ~1.0");
      Line "Sample invalid counties:";
      Table
        [ ("county_fips", StrCol (take 5 (map county_fips invalid)));
          ("total_proportion",
           NumCol (take 5 (map (fun r => total_proportion (proportions r))
                             invalid))) ] ]
  else [].

(** The record that the loop body appends for a county, given what the
    sampling of its geometry did. *)
Definition aggregate (sampled : Py (list (list (Z * Z)))) (fips : string)
  : CountyRecord F :=
  match sampled with
  | Ok stats =>
    if no_raster_data stats then degenerate fips
    else
      match calculate_proportions (tally NLCD_RECLASSIFICATION (hd [] stats)) with
      | Ok p => {| county_fips := fips; proportions := p |}
      | Raise _ => degenerate fips
      end
  | Raise _ => degenerate fips
  end.

Definition error_line (fips : string) (e : Exception) : Output F :=
  Line ("Error processing county " +:+ fips +:+ ": " +:+ str e).

(** What the loop body prints for a county. *)
Definition county_log (sampled : Py (list (list (Z * Z)))) (fips : string)
  : list (Output F) :=
  match sampled with
  | Ok stats =>
    if no_raster_data stats then
      [ Line ("Warning: No raster data found for county " +:+ fips) ]
    else
      match calculate_proportions (F:=F) (tally NLCD_RECLASSIFICATION (hd [] stats)) with
      | Ok _ => []
      | Raise e => [ error_line fips e ]
      end
  | Raise e => [ error_line fips e ]
  end.

Variable zonal_stats : nat -> Geometry -> Py (list (list (Z * Z))).

(** The records and the output of the loop over [counties], when [n]
    samplings were made before it. *)
Fixpoint loop_results (n : nat) (counties : list (County Geometry))
  : list (CountyRecord F) :=
  match counties with
  | [] => []
  | county :: rest =>
    aggregate (zonal_stats n (geometry county)) (GEOID county)
    :: loop_results (S n) rest
  end.

Fixpoint loop_log (n : nat) (counties : list (County Geometry))
  : list (Output F) :=
  match counties with
  | [] => []
  | county :: rest =>
    county_log (zonal_stats n (geometry county)) (GEOID county)
    ++ loop_log (S n) rest
  end.

End Vocabulary.

(** ** Vocabulary of the binary64 properties *)

(** The value of a non-negative float, as an integer multiple of 2^-1200;
    0 for the other floats. *)
Definition scaled_value (x : spec_float) : Z :=
  match x with
  | S754_finite false m e => Z.pos m * 2 ^ (e + 1200)
  | _ => 0
  end.

(** The weight of the last bit of its mantissa, at the same scale. *)
Definition scaled_ulp (x : spec_float) : Z :=
  match x with
  | S754_finite false m e => 2 ^ (e + 1200)
  | _ => 0
  end.

(** The floats that the normalisation meets: [+0.0] and the positive
    normal numbers with an exponent between -1060 and [b]. *)
Definition regular (b : Z) (x : spec_float) : Prop :=
  x = S754_zero false
  \/ exists (m : positive) (e : Z),
       x = S754_finite false m e
       /\ 2 ^ 52 <= Z.pos m < 2 ^ 53
       /\ -1060 <= e <= b.

(** A float [x] that is the quotient [a/t] up to one unit in the last
    place, and at most 1. *)
Definition near (x : spec_float) (a t : Z) : Prop :=
  (a = 0 /\ x = S754_zero false)
  \/ exists (m : positive) (e : Z),
       x = S754_finite false m e
       /\ 2 ^ 52 <= Z.pos m < 2 ^ 53
       /\ -1060 <= e <= -52
       /\ (Z.pos m - 1) * 2 ^ (e + 1200) * t <= a * 2 ^ 1200
       /\ a * 2 ^ 1200 <= (Z.pos m + 1) * 2 ^ (e + 1200) * t
       /\ Z.pos m * 2 ^ (e + 1200) <= 2 ^ 1200.

(** ** Vocabulary of the further properties *)

(** Whether a sampling gave the county at least one valid pixel: it
    returned, with raster data, and some pixel falls in a real class. *)
Definition has_valid_pixels (sampled : Py (list (list (Z * Z)))) : bool :=
  match sampled with
  | Ok stats =>
    negb (no_raster_data stats)
    && (0 <? total_valid_pixels (tally NLCD_RECLASSIFICATION (hd [] stats)))
  | Raise _ => false
  end.

(** A sampling that returns pixel counts, as the raster library does: none
    of them is negative. *)
Definition counts_nonnegative (sampled : Py (list (list (Z * Z)))) : Prop :=
  forall stats, sampled = Ok stats -> Forall (fun item => 0 <= item.2) (hd [] stats).

(** A sampling whose number of valid pixels stays below [bound]. *)
Definition counts_below (bound : Z) (sampled : Py (list (list (Z * Z)))) : Prop :=
  forall stats,
    sampled = Ok stats ->
    total_valid_pixels (tally NLCD_RECLASSIFICATION (hd [] stats)) < bound.

(** The outcomes of the samplings that the loop over [counties] makes, in
    order, when [n] samplings were made before it. *)
Fixpoint loop_samplings {Geometry : Type}
  (zonal_stats : nat -> Geometry -> Py (list (list (Z * Z))))
  (n : nat) (counties : list (County Geometry))
  : list (Py (list (list (Z * Z)))) :=
  match counties with
  | [] => []
  | county :: rest =>
    zonal_stats n (geometry county) :: loop_samplings zonal_stats (S n) rest
  end.

(** The identifiers of the counties of a batch that the samplings give no
    valid pixel, in order. *)
Fixpoint fips_without_data {Geometry : Type}
  (zonal_stats : nat -> Geometry -> Py (list (list (Z * Z))))
  (n : nat) (counties : list (County Geometry)) : list string :=
  match counties with
  | [] => []
  | county :: rest =>
    if has_valid_pixels (zonal_stats n (geometry county))
    then fips_without_data zonal_stats (S n) rest
    else GEOID county :: fips_without_data zonal_stats (S n) rest
  end.

(** What the validation prints when the counties [fips] have no data:
    nothing when there is none, else their number and the first five of
    them, each with the total 0.0. *)
Definition missing_data_report {F : Type} `{PyFloat F} (fips : list string)
  : list (Output F) :=
  if bool_decide (0 < length fips)%nat then
    [ Line ("Warning: " +:+ pretty (length fips)
              +:+ " counties have proportions that don't sum to ~1.0");
      Line "Sample invalid counties:";
      Table
        [ ("county_fips", StrCol (take 5 fips));
          ("total_proportion", NumCol (replicate (length (take 5 fips)) zero)) ] ]
  else [].

(** ** The summary of the run *)

(** The line feed that opens the summary's heading. *)
Definition newline : string := String (Ascii.ascii_of_nat 10) "".

Section Summary.
Context {F : Type} `{PyFloat F}.
#[local] Existing Instance M_ret.
#[local] Existing Instance M_bind.

(** The first lines of the summary that ends the run (the mean
    proportions that follow them are not modelled): the number of rows of
    [results_df] and the number of its rows whose proportions have a
    positive sum. *)
Definition print_summary_statistics (results_df : DataFrame F) : M (F:=F) unit :=
  print (Line (newline +:+ "Summary Statistics:"));;
  print (Line ("Total counties processed: " +:+ pretty (len results_df)));;
  with_data ← lift (sub ← getitems results_df proportion_cols;
                     total ← sum_axis1 sub;
                     mask ← series_gt (NumCol total) (of_decimal 0 0);
                     mret (getitem_mask results_df mask));
  print (Line ("Counties with data: " +:+ pretty (len with_data))).

End Summary.

(** The tally of a county whose every pixel count is multiplied by [k]. *)
Definition scale_counts (k : Z) (cc : ClassCounts) : ClassCounts :=
  {| forest_count := k * forest_count cc;
     agriculture_count := k * agriculture_count cc;
     developed_count := k * developed_count cc;
     wetland_count := k * wetland_count cc;
     other_count := k * other_count cc;
     nodata_count := k * nodata_count cc |}.

(** The proportions of a county that lies in one class: [1.0] for this
    class and [0.0] for the others. *)
Definition pure_proportions {F : Type} `{PyFloat F} (class_name : SemanticClass)
  : Proportions F :=
  let share c := if bool_decide (c = class_name) then of_decimal 10 1 else zero in
  {| forest_proportion := share forest;
     agriculture_proportion := share agriculture;
     developed_proportion := share developed;
     wetland_proportion := share wetland;
     other_proportion := share other |}.

(** The pixels that raw counts give to a class, and to the five real
    classes together. *)
Definition class_pixels (pixel_counts : list (Z * Z)) (class_name : SemanticClass) : Z :=
  sum (map snd
         (List.filter
            (fun item =>
               bool_decide (NLCD_RECLASSIFICATION !! item.1 = Some class_name))
            pixel_counts)).

Definition valid_pixels (pixel_counts : list (Z * Z)) : Z :=
  sum (map snd
         (List.filter
            (fun item =>
               match NLCD_RECLASSIFICATION !! item.1 with
               | Some class_name => negb (bool_decide (class_name = nodata))
               | None => false
               end)
            pixel_counts)).

(** ** The verification script *)

(** The non-strict comparison of floats, which [verify_results.py] uses
    where the run uses the strict one. *)
Class PyFloatOrder (F : Type) := { fle : F -> F -> bool }.

#[global] Instance ExactQ_order : PyFloatOrder Q := {| fle := Qle_bool |}.

#[global] Instance Binary64_order : PyFloatOrder spec_float := {| fle := SFleb |}.

Section Verify.
Context {F : Type} `{PyFloat F} `{PyFloatOrder F}.

(** [series >= c] and [series <= c] *)
Definition series_ge (c : Column F) (x : F) : Py (list bool) :=
  match c with
  | NumCol values => Ok (map (fun v => fle x v) values)
  | StrCol _ => Raise (OtherError "TypeError")
  end.

Definition series_le (c : Column F) (x : F) : Py (list bool) :=
  match c with
  | NumCol values => Ok (map (fun v => fle v x) values)
  | StrCol _ => Raise (OtherError "TypeError")
  end.

(** [mask1 & mask2] *)
Definition series_and (m1 m2 : list bool) : list bool := zip_with andb m1 m2.

(** The data quality check of [verify_results.py]: the [total_proportion]
    column is added to [results] and the rows whose total is at least 0.99
    and at most 1.01 are selected.  Returns [results] (with the new
    column) and [valid_counties]. *)
Definition valid_counties (results : DataFrame F)
  : Py (DataFrame F * DataFrame F) :=
  total_proportion ← (sub ← getitems results proportion_cols;
                      sum_axis1 sub);
  let results := setitem results "total_proportion" (NumCol total_proportion) in
  lower ← (total ← getitem results "total_proportion";
           series_ge total (of_decimal 99 2));
  upper ← (total ← getitem results "total_proportion";
           series_le total (of_decimal 101 2));
  let valid_counties := getitem_mask results (series_and lower upper) in
  mret (results, valid_counties).

End Verify.

(** ** County identifiers in the scripts *)

(** [read_csv] reads the [county_fips] column as numbers, which loses the
    leading zero of an identifier such as [01001]; every script that
    loads the table restores the text with
    [df['county_fips'].astype(str).str.zfill(5)]. *)

(** [astype(str)] on an integer cell: Python's [str(n)]. *)
Definition astype_str (n : Z) : string := pretty n.

Fixpoint zeros (k : nat) : string :=
  match k with
  | O => ""
  | S k' => "0" +:+ zeros k'
  end.

(** [s.zfill(width)]: zeros are added on the left, after a leading sign,
    until the text has [width] characters. *)
Definition zfill (width : nat) (s : string) : string :=
  let fill := zeros (width - String.length s) in
  if String.prefix "+" s || String.prefix "-" s then
    String.substring 0 1 s +:+ fill
    +:+ String.substring 1 (String.length s - 1) s
  else fill +:+ s.

(** [s[:stop]] *)
Definition str_slice_to (stop : nat) (s : string) : string :=
  String.substring 0 stop s.

(** [df['county_fips'].astype(str).str.zfill(5).str[:2]] on one cell. *)
Definition state_fips (county_fips : Z) : string :=
  str_slice_to 2 (zfill 5 (astype_str county_fips)).

(** The number that a text of decimal digits denotes, which is what
    [read_csv] makes of such a cell. *)
Definition digit_value (c : Ascii.ascii) : option Z :=
  let code := Z.of_nat (Ascii.nat_of_ascii c) in
  if (48 <=? code) && (code <=? 57) then Some (code - 48) else None.

Fixpoint digits_value (acc : Z) (s : string) : option Z :=
  match s with
  | EmptyString => Some acc
  | String c rest =>
    match digit_value c with
    | Some d => digits_value (10 * acc + d) rest
    | None => None
    end
  end.

Definition int_of_digits (s : string) : option Z :=
  match s with
  | EmptyString => None
  | _ => digits_value 0 s
  end.

(** A test on every number from [n], [k] of them. *)
Fixpoint all_from (k : nat) (n : Z) (f : Z -> bool) : bool :=
  match k with
  | O => true
  | S k' => f n && all_from k' (n + 1) f
  end.

(** ** Regions in the analysis scripts *)

(** The [regions] dictionary, in the order of its literal. *)
Definition regions : list (string * list string) :=
  [ ("Northeast", ["09"; "23"; "25"; "33"; "44"; "50"; "34"; "36"; "42"]);
    ("Southeast", ["10"; "11"; "12"; "13"; "24"; "37"; "45"; "51"; "54"; "01";
                   "21"; "28"; "47"]);
    ("Midwest", ["17"; "18"; "26"; "39"; "55"; "19"; "20"; "27"; "29"; "31";
                 "38"; "46"]);
    ("Southwest", ["04"; "35"; "40"; "48"]);
    ("West", ["02"; "06"; "08"; "15"; "16"; "30"; "32"; "41"; "49"; "53"; "56"]) ].

(** The loop
    [for region, states in regions.items(): for state in states: region_map[state] = region]. *)
Definition region_map : gmap string string :=
  fold_left
    (fun region_map '(region, states) =>
       fold_left (fun region_map state => <[state := region]> region_map)
         states region_map)
    regions ∅.

(** [df_valid['state_fips'].map(region_map).fillna('Other')] on one cell. *)
Definition region (state_fips : string) : string :=
  default "Other" (region_map !! state_fips).

(** The [state_names] dictionary of [analyze_landcover.py]. *)
Definition state_names : gmap string string :=
  list_to_map
    [ ("01", "Alabama"); ("02", "Alaska"); ("04", "Arizona"); ("05", "Arkansas");
      ("06", "California"); ("08", "Colorado"); ("09", "Connecticut");
      ("10", "Delaware"); ("11", "DC"); ("12", "Florida"); ("13", "Georgia");
      ("15", "Hawaii"); ("16", "Idaho"); ("17", "Illinois"); ("18", "Indiana");
      ("19", "Iowa"); ("20", "Kansas"); ("21", "Kentucky"); ("22", "Louisiana");
      ("23", "Maine"); ("24", "Maryland"); ("25", "Massachusetts");
      ("26", "Michigan"); ("27", "Minnesota"); ("28", "Mississippi");
      ("29", "Missouri"); ("30", "Montana"); ("31", "Nebraska"); ("32", "Nevada");
      ("33", "New Hampshire"); ("34", "New Jersey"); ("35", "New Mexico");
      ("36", "New York"); ("37", "North Carolina"); ("38", "North Dakota");
      ("39", "Ohio"); ("40", "Oklahoma"); ("41", "Oregon"); ("42", "Pennsylvania");
      ("44", "Rhode Island"); ("45", "South Carolina"); ("46", "South Dakota");
      ("47", "Tennessee"); ("48", "Texas"); ("49", "Utah"); ("50", "Vermont");
      ("51", "Virginia"); ("53", "Washington"); ("54", "West Virginia");
      ("55", "Wisconsin"); ("56", "Wyoming") ].

(** ** Sample inputs *)

(** Three counties, their geometries named by a number. *)
Definition sample_counties : list (County nat) :=
  [ {| GEOID := "01001"; geometry := 1%nat |};
    {| GEOID := "01003"; geometry := 2%nat |};
    {| GEOID := "01005"; geometry := 3%nat |} ].

(** A raster that gives the first geometry a mixed tally, the second only
    no-data pixels and the third a tally with an unmapped code. *)
Definition sample_raster (n : nat) (g : nat) : Py (list (list (Z * Z))) :=
  match g with
  | 1%nat => Ok [[(41, 120); (82, 30); (21, 50); (250, 10)]]
  | 2%nat => Ok [[(250, 500)]]
  | _ => Ok [[(41, 100); (999, 50)]]
  end.

(** The same raster with an I/O error at the second sampling. *)
Definition failing_raster (n : nat) (g : nat) : Py (list (list (Z * Z))) :=
  if Nat.eqb n 1 then Raise (OtherError "Read failed") else sample_raster n g.

(** * Properties *)

(** ** Integer sums *)

Lemma sum_from (l : list Z) (acc : Z) : fold_left Z.add l acc = acc + sum l.
Proof.
  unfold sum. revert acc.
  induction l as [|x l IH]; intros acc; simpl; [lia|].
  rewrite (IH (acc + x)), (IH (0 + x)). lia.
Qed.

Lemma sum_cons (x : Z) (l : list Z) : sum (x :: l) = x + sum l.
Proof. unfold sum at 1. simpl. apply sum_from. Qed.

Lemma sum_nil : sum [] = 0.
Proof. reflexivity. Qed.

Lemma sum_nonneg (l : list Z) : Forall (fun x => 0 <= x) l -> 0 <= sum l.
Proof.
  induction 1 as [|x l Hx _ IH]; [rewrite sum_nil; lia|].
  rewrite sum_cons. lia.
Qed.

Lemma Forall_filtered {A} (P Q : A -> Prop) `{!forall x, Decision (Q x)}
  (l : list A) : Forall P l -> Forall P (filter Q l).
Proof.
  induction 1 as [|x l Hx _ IH]; [constructor|].
  rewrite filter_cons. destruct (decide (Q x)); [constructor|]; assumption.
Qed.

(** ** Class counts *)

Lemma total_valid_pixels_eq (cc : ClassCounts) :
  total_valid_pixels cc =
  forest_count cc + agriculture_count cc + developed_count cc
  + wetland_count cc + other_count cc.
Proof. unfold total_valid_pixels, sum. simpl. lia. Qed.

Lemma total_pixels_eq (cc : ClassCounts) :
  total_pixels cc = total_valid_pixels cc + nodata_count cc.
Proof. rewrite total_valid_pixels_eq. unfold total_pixels, sum. simpl. lia. Qed.

Lemma total_pixels_classes (cc : ClassCounts) :
  total_pixels cc =
  sum (map (get_count cc) [forest; agriculture; developed; wetland; other; nodata]).
Proof. reflexivity. Qed.

Lemma get_count_add_same cc class_name count :
  get_count (add_count cc class_name count) class_name
  = get_count cc class_name + count.
Proof. destruct class_name; reflexivity. Qed.

Lemma get_count_add_other cc class_name class_name' count :
  class_name <> class_name' ->
  get_count (add_count cc class_name count) class_name'
  = get_count cc class_name'.
Proof. destruct class_name, class_name'; intros Hne; try reflexivity; congruence. Qed.

(** ** The fold through the table *)

Section Tally.
Variable table : gmap Z SemanticClass.

(** An unmapped code leaves the tally as it is. *)
Lemma tally_step_unmapped cc value count :
  table !! value = None -> tally_step table cc (value, count) = cc.
Proof. intros Hnone. unfold tally_step. rewrite Hnone. reflexivity. Qed.

(** A mapped code adds its count to its class and to no other. *)
Lemma tally_step_mapped cc value count class_name :
  table !! value = Some class_name ->
  get_count (tally_step table cc (value, count)) class_name
  = get_count cc class_name + count
  /\ forall class_name', class_name' <> class_name ->
       get_count (tally_step table cc (value, count)) class_name'
       = get_count cc class_name'.
Proof.
  intros Hsome. unfold tally_step. rewrite Hsome. split.
  - apply get_count_add_same.
  - intros c' Hne. apply get_count_add_other. congruence.
Qed.

Lemma tally_step_class cc item class_name :
  get_count (tally_step table cc item) class_name
  = get_count cc class_name
    + (if decide (table !! item.1 = Some class_name) then item.2 else 0).
Proof.
  destruct item as [value count]. unfold tally_step. simpl.
  destruct (table !! value) as [c|].
  - destruct (decide (Some c = Some class_name)) as [Heq|Hne].
    + injection Heq as <-. apply get_count_add_same.
    + rewrite get_count_add_other; [lia|congruence].
  - destruct (decide (None = Some class_name)); [discriminate|lia].
Qed.

(** The count of a class after the loop: what it was before plus the
    counts of the codes that the table sends to this class. *)
Lemma fold_tally_class pixel_counts cc class_name :
  get_count (fold_left (tally_step table) pixel_counts cc) class_name
  = get_count cc class_name
    + sum (map snd (filter (fun item => table !! item.1 = Some class_name)
                      pixel_counts)).
Proof.
  revert cc. induction pixel_counts as [|item rest IH]; intros cc; simpl.
  - rewrite ?filter_nil. simpl. rewrite ?sum_nil. lia.
  - rewrite IH, tally_step_class, filter_cons.
    destruct (decide (table !! item.1 = Some class_name)); simpl.
    + rewrite sum_cons. lia.
    + lia.
Qed.

Lemma tally_class pixel_counts class_name :
  get_count (tally table pixel_counts) class_name
  = sum (map snd (filter (fun item => table !! item.1 = Some class_name)
                    pixel_counts)).
Proof. unfold tally. rewrite fold_tally_class. destruct class_name; reflexivity. Qed.

(** Two tallies with the same six counts are the same tally. *)
Lemma counts_ext cc cc' :
  (forall class_name, get_count cc class_name = get_count cc' class_name) ->
  cc = cc'.
Proof.
  intros Hext. destruct cc, cc'.
  pose proof (Hext forest). pose proof (Hext agriculture).
  pose proof (Hext developed). pose proof (Hext wetland).
  pose proof (Hext other). pose proof (Hext nodata).
  simpl in *. congruence.
Qed.

(** Removing the unmapped codes from the input does not change the
    tally. *)
Lemma tally_filter_mapped pixel_counts :
  tally table pixel_counts
  = tally table (filter (fun item => is_Some (table !! item.1)) pixel_counts).
Proof.
  apply counts_ext. intros class_name. rewrite !tally_class.
  f_equal. f_equal.
  induction pixel_counts as [|item rest IH]; [reflexivity|].
  rewrite !filter_cons.
  destruct (decide (is_Some (table !! item.1))) as [Hm|Hm].
  - rewrite filter_cons. rewrite IH. reflexivity.
  - destruct (decide (table !! item.1 = Some class_name)) as [Heq|_].
    + exfalso. apply Hm. rewrite Heq. eauto.
    + exact IH.
Qed.

(** The six counts add up to the counts of the mapped codes. *)
Lemma tally_total pixel_counts :
  total_pixels (tally table pixel_counts)
  = sum (map snd (filter (fun item => is_Some (table !! item.1)) pixel_counts)).
Proof.
  rewrite total_pixels_classes. cbn [map].
  rewrite !sum_cons, sum_nil, !tally_class.
  induction pixel_counts as [|item rest IH].
  - rewrite !filter_nil. simpl. rewrite !sum_nil. lia.
  - rewrite !filter_cons.
    destruct (table !! item.1) as [c|] eqn:Hlook.
    + destruct (decide (is_Some (Some c))) as [_|Hn]; [|exfalso; eauto].
      simpl map. rewrite (sum_cons item.2).
      destruct c;
        repeat match goal with
               | |- context [decide (Some ?a = Some ?b)] =>
                 destruct (decide (Some a = Some b)); try discriminate
               end; simpl map; rewrite ?sum_cons; try lia; congruence.
    + destruct (decide (is_Some None)) as [Hs|_]; [destruct Hs; discriminate|].
      repeat match goal with
             | |- context [decide (None = Some ?b)] =>
               destruct (decide (None = Some b)); try discriminate
             end. exact IH.
Qed.

Lemma tally_nonneg pixel_counts :
  Forall (fun item => 0 <= item.2) pixel_counts ->
  is_tally (tally table pixel_counts).
Proof.
  intros Hall class_name. rewrite tally_class. apply sum_nonneg.
  rewrite Forall_map. apply Forall_filtered. exact Hall.
Qed.

End Tally.

(** ** The loop over the counties *)

Section Loop.
Context {F : Type} `{PyFloat F}.
Context {Geometry : Type}.
Variable zonal_stats : nat -> Geometry -> Py (list (list (Z * Z))).

(** The loop body never lets an exception escape; it appends one record
    and makes one sampling. *)
Lemma process_county_spec (county : County Geometry) (w : World F) :
  process_county zonal_stats county w =
  (Ok tt,
   {| results :=
        results w
        ++ [aggregate (zonal_stats (samplings w) (geometry county)) (GEOID county)];
      stdout :=
        stdout w
        ++ county_log (zonal_stats (samplings w) (geometry county)) (GEOID county);
      samplings := S (samplings w);
      files := files w |}).
Proof.
  unfold process_county, try_except, call_zonal_stats, aggregate, county_log,
    error_line, mbind, M_bind, mret, M_ret, lift, print, results_append.
  destruct (zonal_stats (samplings w) (geometry county)) as [stats|e]; simpl.
  - destruct (no_raster_data stats); simpl; [reflexivity|].
    destruct (calculate_proportions _) as [p|e]; simpl.
    + rewrite app_nil_r. reflexivity.
    + reflexivity.
  - reflexivity.
Qed.

Lemma for_each_process_county (counties : list (County Geometry)) (w : World F) :
  for_each counties (process_county zonal_stats) w =
  (Ok tt,
   {| results := results w ++ loop_results zonal_stats (samplings w) counties;
      stdout := stdout w ++ loop_log zonal_stats (samplings w) counties;
      samplings := (samplings w + length counties)%nat;
      files := files w |}).
Proof.
  revert w. induction counties as [|county rest IH]; intros w; simpl.
  - rewrite !app_nil_r, Nat.add_0_r. destruct w; reflexivity.
  - unfold mbind, M_bind. rewrite process_county_spec, IH. simpl.
    rewrite <- !app_assoc. simpl. do 3 f_equal. lia.
Qed.

Lemma loop_results_length (n : nat) (counties : list (County Geometry)) :
  length (loop_results zonal_stats n counties) = length counties.
Proof.
  revert n. induction counties as [|c rest IH]; intros n; simpl; [reflexivity|].
  rewrite IH. reflexivity.
Qed.

Lemma loop_results_lookup (n i : nat) (counties : list (County Geometry)) :
  loop_results zonal_stats n counties !! i
  = (fun county =>
       aggregate (zonal_stats (n + i)%nat (geometry county)) (GEOID county))
    <$> counties !! i.
Proof.
  revert n i. induction counties as [|c rest IH]; intros n i; [reflexivity|].
  destruct i as [|i]; simpl.
  - rewrite Nat.add_0_r. reflexivity.
  - rewrite IH. replace (S n + i)%nat with (n + S i)%nat by lia. reflexivity.
Qed.

Lemma aggregate_fips sampled fips :
  county_fips (aggregate (F:=F) sampled fips) = fips.
Proof.
  unfold aggregate. destruct sampled as [stats|e]; [|reflexivity].
  destruct (no_raster_data stats); [reflexivity|].
  destruct (calculate_proportions _); reflexivity.
Qed.

Lemma loop_results_fips (n : nat) (counties : list (County Geometry)) :
  map county_fips (loop_results zonal_stats n counties) = map GEOID counties.
Proof.
  revert n. induction counties as [|c rest IH]; intros n; simpl; [reflexivity|].
  rewrite aggregate_fips, IH. reflexivity.
Qed.

End Loop.

(** ** Lists *)

Lemma zip_with_maps {A B C D} (g : B -> C -> D) (f1 : A -> B) (f2 : A -> C)
  (l : list A) :
  zip_with g (map f1 l) (map f2 l) = map (fun x => g (f1 x) (f2 x)) l.
Proof. induction l as [|x l IH]; simpl; [reflexivity|]. rewrite IH. reflexivity. Qed.

Lemma replicate_map_length {A B} (f : A -> B) (z : B) (l : list A) :
  replicate (length (map f l)) z = map (fun _ => z) l.
Proof. induction l as [|x l IH]; simpl; [reflexivity|]. rewrite IH. reflexivity. Qed.

Lemma select_maps {A B} (f : A -> bool) (g : A -> B) (l : list A) :
  select (map f l) (map g l) = map g (List.filter f l).
Proof.
  unfold select. induction l as [|x l IH]; simpl; [reflexivity|].
  destruct (f x); simpl; rewrite IH; reflexivity.
Qed.

(** ** The validation pass *)

Section Validation.
Context {F : Type} `{PyFloat F}.

(** The frame built from at least one record has the six columns. *)
Lemma pd_DataFrame_columns (results : list (CountyRecord F)) :
  results <> [] -> map fst (pd_DataFrame results) = result_keys.
Proof. destruct results; [congruence|reflexivity]. Qed.

Lemma pd_DataFrame_nonempty (results : list (CountyRecord F)) :
  results <> [] ->
  pd_DataFrame results =
  [ ("county_fips", StrCol (map county_fips results));
    ("forest_proportion",
     NumCol (map (fun r => forest_proportion (proportions r)) results));
    ("agriculture_proportion",
     NumCol (map (fun r => agriculture_proportion (proportions r)) results));
    ("developed_proportion",
     NumCol (map (fun r => developed_proportion (proportions r)) results));
    ("wetland_proportion",
     NumCol (map (fun r => wetland_proportion (proportions r)) results));
    ("other_proportion",
     NumCol (map (fun r => other_proportion (proportions r)) results)) ].
Proof. destruct results; [congruence|reflexivity]. Qed.

(** The row sums of the five proportion columns. *)
Lemma sum_axis1_proportions (results : list (CountyRecord F)) :
  results <> [] ->
  (sub ← getitems (pd_DataFrame results) proportion_cols; sum_axis1 sub)
  = Ok (map (fun r => total_proportion (proportions r)) results).
Proof.
  intros Hne. rewrite (pd_DataFrame_nonempty results Hne).
  unfold sum_axis1. cbn -[replicate zip_with map length].
  rewrite replicate_map_length.
  rewrite !zip_with_maps. reflexivity.
Qed.

Lemma setitem_total (results : list (CountyRecord F)) (c : Column F) :
  results <> [] ->
  setitem (pd_DataFrame results) "total_proportion" c
  = pd_DataFrame results ++ [("total_proportion", c)].
Proof. intros Hne. rewrite (pd_DataFrame_nonempty results Hne). reflexivity. Qed.

Lemma drop_total (results : list (CountyRecord F)) (c : Column F) :
  results <> [] ->
  drop (pd_DataFrame results ++ [("total_proportion", c)]) "total_proportion"
  = Ok (pd_DataFrame results).
Proof. intros Hne. rewrite (pd_DataFrame_nonempty results Hne). reflexivity. Qed.

(** What the validation computes on a frame of at least one record. *)
Lemma validate_spec (results : list (CountyRecord F)) :
  results <> [] ->
  validate (pd_DataFrame results)
  = Ok (with_total results,
        getitem_mask (with_total results)
          (map (fun r => flagged (proportions r)) results)).
Proof.
  intros Hne. unfold validate.
  rewrite (sum_axis1_proportions results Hne). cbn [mbind Py_bind].
  rewrite (setitem_total results _ Hne). fold (with_total results).
  unfold with_total. rewrite (pd_DataFrame_nonempty results Hne).
  cbn -[map zip_with flagged total_proportion]. unfold series_or.
  rewrite zip_with_maps, map_map. reflexivity.
Qed.

(** The rows that the validation selects are those of the flagged
    records, in order. *)
Lemma invalid_counties_spec (results : list (CountyRecord F)) :
  results <> [] ->
  getitems (getitem_mask (with_total results)
              (map (fun r => flagged (proportions r)) results))
    ["county_fips"; "total_proportion"]
  = Ok [ ("county_fips",
          StrCol (map county_fips
                    (List.filter (fun r => flagged (proportions r)) results)));
         ("total_proportion",
          NumCol (map (fun r => total_proportion (proportions r))
                    (List.filter (fun r => flagged (proportions r)) results))) ].
Proof.
  intros Hne. unfold with_total. rewrite (pd_DataFrame_nonempty results Hne).
  cbn -[select flagged total_proportion List.filter]. rewrite !select_maps. reflexivity.
Qed.

Lemma invalid_counties_len (results : list (CountyRecord F)) :
  results <> [] ->
  len (getitem_mask (with_total results)
         (map (fun r => flagged (proportions r)) results))
  = length (List.filter (fun r => flagged (proportions r)) results).
Proof.
  intros Hne. unfold with_total. rewrite (pd_DataFrame_nonempty results Hne).
  cbn -[select flagged total_proportion List.filter]. rewrite select_maps.
  apply length_map.
Qed.

End Validation.

(** ** The whole run *)

Section WholeRun.
Context {F : Type} `{PyFloat F}.
Context {Geometry : Type}.
Variable zonal_stats : nat -> Geometry -> Py (list (list (Z * Z))).

Lemma loop_results_nonempty (n : nat) (counties : list (County Geometry)) :
  counties <> [] -> loop_results zonal_stats n counties <> [].
Proof. destruct counties; [congruence|discriminate]. Qed.

(** With at least one county the run ends normally: the records are
    those of the loop and the file holds the frame built from them. *)
Lemma process_county_landcover_spec (counties : list (County Geometry))
  (w : World F) :
  counties <> [] ->
  process_county_landcover zonal_stats counties w =
  (Ok tt,
   {| results := loop_results zonal_stats (samplings w) counties;
      stdout :=
        stdout w
        ++ [Line "Processing counties..."]
        ++ loop_log zonal_stats (samplings w) counties
        ++ [Line "Creating results DataFrame..."; Line "Validating results..."]
        ++ validation_report (loop_results zonal_stats (samplings w) counties)
        ++ [Line ("Saving results to " +:+ OUTPUT_CSV_PATH +:+ "...")];
      samplings := (samplings w + length counties)%nat;
      files :=
        <[OUTPUT_CSV_PATH :=
            pd_DataFrame (loop_results zonal_stats (samplings w) counties)]>
          (files w) |}).
Proof.
  intros Hne.
  pose proof (loop_results_nonempty (samplings w) counties Hne) as Hrs.
  unfold process_county_landcover, mbind, M_bind, results_init, print,
    results_get, lift, to_csv, mret, M_ret.
  rewrite for_each_process_county. cbn [results stdout samplings files app].
  rewrite (validate_spec _ Hrs). cbn [fst snd].
  rewrite (invalid_counties_len _ Hrs).
  unfold validation_report.
  destruct (bool_decide _).
  - rewrite (invalid_counties_spec _ Hrs).
    unfold with_total. rewrite (drop_total _ _ Hrs).
    cbn [results stdout samplings files]. f_equal. f_equal.
    rewrite <- !app_assoc. reflexivity.
  - unfold with_total. rewrite (drop_total _ _ Hrs).
    cbn [results stdout samplings files]. f_equal. f_equal.
    rewrite <- !app_assoc. reflexivity.
Qed.

(** Without any county the frame has no column and the validation
    raises: nothing is written. *)
Lemma process_county_landcover_empty (w : World F) :
  process_county_landcover zonal_stats [] w =
  (Raise (KeyError "forest_proportion"),
   {| results := [];
      stdout :=
        stdout w
        ++ [Line "Processing counties..."; Line "Creating results DataFrame...";
            Line "Validating results..."];
      samplings := samplings w;
      files := files w |}).
Proof.
  unfold process_county_landcover, mbind, M_bind, results_init, print,
    results_get, lift, to_csv, mret, M_ret. simpl.
  rewrite <- !app_assoc. reflexivity.
Qed.

End WholeRun.

(** ** Exact arithmetic *)

Lemma Q_lt_spec (x y : Q) : Q_lt x y = true <-> (x < y)%Q.
Proof.
  unfold Q_lt. rewrite negb_true_iff.
  destruct (Qle_bool y x) eqn:Hle.
  - apply Qle_bool_iff in Hle. split; [discriminate|].
    intros Hlt. exfalso. exact (Qlt_not_le _ _ Hlt Hle).
  - split; [intros _|reflexivity].
    apply Qnot_le_lt. intros Hle'. apply Qle_bool_iff in Hle'. congruence.
Qed.

(** The quotient of a count by a positive total. *)
Lemma Q_truediv_positive (a t : Z) :
  0 < t -> Q_truediv a t = Ok (Qred (inject_Z a / inject_Z t)).
Proof.
  intros Ht. unfold Q_truediv.
  destruct (t =? 0) eqn:Heq; [apply Z.eqb_eq in Heq; lia|reflexivity].
Qed.

Lemma ratio_bounds (a t : Z) :
  0 <= a <= t -> 0 < t -> (0 <= inject_Z a / inject_Z t <= 1)%Q.
Proof.
  intros [Ha Hat] Ht.
  assert (Hpos : (0 < inject_Z t)%Q).
  { change 0%Q with (inject_Z 0). rewrite <- Zlt_Qlt. exact Ht. }
  split.
  - apply Qle_shift_div_l; [exact Hpos|]. rewrite Qmult_0_l.
    change 0%Q with (inject_Z 0). rewrite <- Zle_Qle. exact Ha.
  - apply Qle_shift_div_r; [exact Hpos|]. rewrite Qmult_1_l.
    rewrite <- Zle_Qle. exact Hat.
Qed.

Lemma ratios_sum (f a d w o : Z) :
  f + a + d + w + o <> 0 ->
  (inject_Z f / inject_Z (f + a + d + w + o)
   + inject_Z a / inject_Z (f + a + d + w + o)
   + inject_Z d / inject_Z (f + a + d + w + o)
   + inject_Z w / inject_Z (f + a + d + w + o)
   + inject_Z o / inject_Z (f + a + d + w + o) == 1)%Q.
Proof.
  intros Hne.
  assert (Hq : ~ (inject_Z (f + a + d + w + o) == 0)%Q).
  { intros Heq. apply Hne.
    apply (proj1 (inject_Z_injective _ 0)). exact Heq. }
  revert Hq. rewrite !inject_Z_plus. intros Hq. field. exact Hq.
Qed.

Lemma Q_zero : @zero Q ExactQ = 0%Q.
Proof. reflexivity. Qed.

Lemma Q_total_proportion (p : Proportions Q) :
  (@total_proportion Q ExactQ p ==
   forest_proportion p + agriculture_proportion p + developed_proportion p
   + wetland_proportion p + other_proportion p)%Q.
Proof.
  unfold total_proportion. cbn [fold_left]. unfold nan_add.
  cbn [is_nan fadd ExactQ]. rewrite Q_zero, !Qred_correct. ring.
Qed.

(** ** Binary64 arithmetic *)

(** How [SpecFloat]'s rounding acts on the floats that the normalisation
    meets.  A mantissa of 53 bits or more is cut to 53 bits and then kept
    or incremented, so the result is within one unit in the last place of
    the exact value, which is enough for the tolerance of the validator.
    Values are compared as integers, at the scale 2^-1200. *)

Module Binary64Facts.
Import Binary64.

(** *** Digits and shifts *)

Lemma digits2_pos_bounds (p : positive) :
  2 ^ (Z.pos (digits2_pos p) - 1) <= Z.pos p < 2 ^ Z.pos (digits2_pos p).
Proof.
  induction p as [p IH|p IH|]; simpl digits2_pos.
  - rewrite Pos2Z.inj_succ.
    replace (Z.succ (Z.pos (digits2_pos p)) - 1) with (Z.succ (Z.pos (digits2_pos p) - 1)) by lia.
    rewrite !Z.pow_succ_r by lia. lia.
  - rewrite Pos2Z.inj_succ.
    replace (Z.succ (Z.pos (digits2_pos p)) - 1) with (Z.succ (Z.pos (digits2_pos p) - 1)) by lia.
    rewrite !Z.pow_succ_r by lia. lia.
  - simpl. lia.
Qed.

Lemma Zdigits2_bounds (m : Z) :
  0 < m -> 2 ^ (Zdigits2 m - 1) <= m < 2 ^ Zdigits2 m.
Proof.
  destruct m as [|p|p]; try lia. intros _. apply digits2_pos_bounds.
Qed.

Lemma Zdigits2_pos (m : Z) : 0 < m -> 0 < Zdigits2 m.
Proof. destruct m; simpl; lia. Qed.

Lemma shr_1_m (mrs : shr_record) :
  0 <= shr_m mrs -> shr_m (shr_1 mrs) = shr_m mrs / 2.
Proof.
  destruct mrs as [m r s]. cbn [shr_m]. intros Hm.
  destruct m as [|[p|p|]|p]; cbn [shr_1 shr_m]; try lia.
  - reflexivity.
  - apply (Z.div_unique _ _ _ 1); lia.
  - apply (Z.div_unique _ _ _ 0); lia.
  - reflexivity.
Qed.

Lemma pow2_xO (n : positive) : 2 ^ Z.pos n~0 = 2 ^ Z.pos n * 2 ^ Z.pos n.
Proof. rewrite <- Z.pow_add_r by lia. f_equal. lia. Qed.

Lemma pow2_xI (n : positive) : 2 ^ Z.pos n~1 = 2 * (2 ^ Z.pos n * 2 ^ Z.pos n).
Proof. rewrite <- Z.pow_add_r, <- Z.pow_succ_r by lia. f_equal. lia. Qed.

Lemma iter_pos_shr_1_m (n : positive) (mrs : shr_record) :
  0 <= shr_m mrs ->
  shr_m (SpecFloat.iter_pos shr_1 n mrs) = shr_m mrs / 2 ^ Z.pos n.
Proof.
  revert mrs. induction n as [n IH|n IH|]; intros mrs Hm; cbn [SpecFloat.iter_pos].
  - assert (H1 : 0 <= shr_m (shr_1 mrs)).
    { rewrite shr_1_m by exact Hm. apply Z.div_pos; lia. }
    assert (H2 : 0 <= shr_m (SpecFloat.iter_pos shr_1 n (shr_1 mrs))).
    { rewrite IH by exact H1. apply Z.div_pos; [exact H1|]. apply Z.pow_pos_nonneg; lia. }
    rewrite IH by exact H2. rewrite IH by exact H1. rewrite shr_1_m by exact Hm.
    rewrite !Z.div_div by (try apply Z.pow_pos_nonneg; lia).
    f_equal. rewrite pow2_xI. lia.
  - assert (H2 : 0 <= shr_m (SpecFloat.iter_pos shr_1 n mrs)).
    { rewrite IH by exact Hm. apply Z.div_pos; [exact Hm|]. apply Z.pow_pos_nonneg; lia. }
    rewrite IH by exact H2. rewrite IH by exact Hm.
    rewrite !Z.div_div by (try apply Z.pow_pos_nonneg; lia).
    f_equal. rewrite pow2_xO. lia.
  - rewrite shr_1_m by exact Hm. reflexivity.
Qed.

Lemma Zdigits2_unique (m k : Z) :
  2 ^ (k - 1) <= m < 2 ^ k -> 0 < k -> Zdigits2 m = k.
Proof.
  intros [Hlo Hhi] Hk.
  assert (Hm : 0 < m).
  { apply Z.lt_le_trans with (2 ^ (k - 1)); [apply Z.pow_pos_nonneg; lia|exact Hlo]. }
  pose proof (Zdigits2_bounds m Hm) as [Hlo' Hhi'].
  pose proof (Zdigits2_pos m Hm) as Hd.
  destruct (Z.lt_trichotomy (Zdigits2 m) k) as [Hlt|[Heq|Hgt]]; [|exact Heq|].
  - exfalso. assert (2 ^ Zdigits2 m <= 2 ^ (k - 1)) by (apply Z.pow_le_mono_r; lia). lia.
  - exfalso. assert (2 ^ k <= 2 ^ (Zdigits2 m - 1)) by (apply Z.pow_le_mono_r; lia). lia.
Qed.

Lemma fexp_normal (e : Z) : -1021 <= e -> fexp prec emax e = e - 53.
Proof. intros He. unfold fexp, emin, prec, emax. lia. Qed.

Lemma shr_record_of_loc_m (m : Z) (l : location) : shr_m (shr_record_of_loc m l) = m.
Proof. destruct l as [|[]]; reflexivity. Qed.

(** Truncation to 53 bits. *)
Lemma shr_fexp_normal (m e : Z) (l : location) :
  0 < m -> 53 <= Zdigits2 m -> -1074 <= Zdigits2 m + e - 53 ->
  exists mrs,
    shr_fexp prec emax m e l = (mrs, e + (Zdigits2 m - 53))
    /\ shr_m mrs = m / 2 ^ (Zdigits2 m - 53).
Proof.
  intros Hm Hd Hrange. unfold shr_fexp.
  rewrite fexp_normal by lia.
  replace (Zdigits2 m + e - 53 - e) with (Zdigits2 m - 53) by lia.
  destruct (Zdigits2 m - 53) as [|n|n] eqn:Hn; try lia.
  - exists (shr_record_of_loc m l). split.
    + unfold shr. f_equal. lia.
    + rewrite shr_record_of_loc_m. simpl. rewrite Z.div_1_r. reflexivity.
  - exists (SpecFloat.iter_pos shr_1 n (shr_record_of_loc m l)). split.
    + reflexivity.
    + rewrite iter_pos_shr_1_m; rewrite shr_record_of_loc_m; [reflexivity|lia].
Qed.

Lemma truncated_bounds (m : Z) :
  0 < m -> 53 <= Zdigits2 m ->
  2 ^ 52 <= m / 2 ^ (Zdigits2 m - 53) < 2 ^ 53.
Proof.
  intros Hm Hd. pose proof (Zdigits2_bounds m Hm) as [Hlo Hhi].
  assert (Hp : 0 < 2 ^ (Zdigits2 m - 53)) by (apply Z.pow_pos_nonneg; lia).
  split.
  - apply Z.div_le_lower_bound; [exact Hp|].
    rewrite <- Z.pow_add_r by lia.
    replace (Zdigits2 m - 53 + 52) with (Zdigits2 m - 1) by lia. exact Hlo.
  - apply Z.div_lt_upper_bound; [exact Hp|].
    rewrite <- Z.pow_add_r by lia.
    replace (Zdigits2 m - 53 + 53) with (Zdigits2 m) by lia. exact Hhi.
Qed.

Lemma round_nearest_even_cases (m : Z) (l : location) :
  round_nearest_even m l = m \/ round_nearest_even m l = m + 1.
Proof.
  destruct l as [|[]]; simpl; auto. destruct (Z.even m); auto.
Qed.

(** Rounding a mantissa of at least 53 bits, in the range of the normal
    numbers: the result is the truncation to 53 bits or its successor. *)
Lemma binary_round_aux_normal (mx ex : Z) (lx : location) :
  0 < mx -> 53 <= Zdigits2 mx ->
  -1074 <= Zdigits2 mx + ex - 53 < 970 ->
  exists (m : positive) (e : Z),
    binary_round_aux prec emax false mx ex lx = S754_finite false m e
    /\ 2 ^ 52 <= Z.pos m < 2 ^ 53
    /\ ((e = ex + (Zdigits2 mx - 53)
         /\ (Z.pos m = mx / 2 ^ (Zdigits2 mx - 53)
             \/ Z.pos m = mx / 2 ^ (Zdigits2 mx - 53) + 1))
        \/ (e = ex + (Zdigits2 mx - 53) + 1
            /\ Z.pos m = 2 ^ 52
            /\ mx / 2 ^ (Zdigits2 mx - 53) + 1 = 2 ^ 53)).
Proof.
  intros Hm Hd Hrange. unfold binary_round_aux.
  destruct (shr_fexp_normal mx ex lx Hm Hd ltac:(lia)) as [mrs [-> Hmrs]].
  pose proof (truncated_bounds mx Hm Hd) as Hmt.
  set (mt := mx / 2 ^ (Zdigits2 mx - 53)) in *.
  set (e1 := ex + (Zdigits2 mx - 53)) in *.
  rewrite Hmrs.
  set (m1 := round_nearest_even mt (loc_of_shr_record mrs)).
  assert (Hm1 : m1 = mt \/ m1 = mt + 1) by apply round_nearest_even_cases.
  assert (Hcase : m1 < 2 ^ 53 \/ m1 = 2 ^ 53) by lia.
  destruct Hcase as [Hlt|Heq].
  - assert (Hd1 : Zdigits2 m1 = 53) by (apply Zdigits2_unique; simpl; lia).
    destruct (shr_fexp_normal m1 e1 loc_Exact ltac:(lia) ltac:(lia) ltac:(lia))
      as [mrs2 [-> Hmrs2]].
    rewrite Hmrs2, Hd1. change (2 ^ (53 - 53)) with 1. rewrite Z.div_1_r.
    destruct m1 as [|p|p] eqn:Hp; try lia.
    destruct (Z.leb_spec (e1 + (53 - 53)) (emax - prec)) as [_|Hbad];
      [|unfold emax, prec in Hbad; lia].
    exists p, (e1 + (53 - 53)). split; [reflexivity|]. split; [lia|].
    left. split; [lia|]. lia.
  - assert (Hd1 : Zdigits2 m1 = 54) by (apply Zdigits2_unique; [rewrite Heq; simpl; lia|lia]).
    destruct (shr_fexp_normal m1 e1 loc_Exact ltac:(lia) ltac:(lia) ltac:(lia))
      as [mrs2 [-> Hmrs2]].
    rewrite Hmrs2, Hd1, Heq. 
    change (2 ^ 53 / 2 ^ (54 - 53)) with (Z.pos (2 ^ 52)%positive).
    destruct (Z.leb_spec (e1 + (54 - 53)) (emax - prec)) as [_|Hbad];
      [|unfold emax, prec in Hbad; lia].
    exists (2 ^ 52)%positive, (e1 + (54 - 53)). split; [reflexivity|].
    split; [simpl; lia|]. right. split; [lia|]. split; [reflexivity|]. lia.
Qed.

Lemma pow2_split (x y : Z) : 0 <= x -> 0 <= y -> 2 ^ (x + y) = 2 ^ x * 2 ^ y.
Proof. intros. apply Z.pow_add_r; assumption. Qed.

Lemma pow2_pos (x : Z) : 0 <= x -> 0 < 2 ^ x.
Proof. intros. apply Z.pow_pos_nonneg; lia. Qed.

Lemma digits_le (a t : Z) : 0 < a -> a <= t -> Zdigits2 a <= Zdigits2 t.
Proof.
  intros Ha Hat.
  pose proof (Zdigits2_bounds a Ha) as [Hlo _].
  pose proof (Zdigits2_bounds t ltac:(lia)) as [_ Hhi].
  pose proof (Zdigits2_pos a Ha).
  destruct (Z.le_gt_cases (Zdigits2 a) (Zdigits2 t)) as [Hle|Hgt]; [exact Hle|].
  exfalso. assert (2 ^ Zdigits2 t <= 2 ^ (Zdigits2 a - 1)) by (apply Z.pow_le_mono_r; lia).
  lia.
Qed.

Lemma digits_lt_pow (t k : Z) : 0 < t -> t < 2 ^ k -> 0 <= k -> Zdigits2 t <= k.
Proof.
  intros Ht Hlt Hk.
  pose proof (Zdigits2_bounds t Ht) as [Hlo _].
  destruct (Z.le_gt_cases (Zdigits2 t) k) as [Hle|Hgt]; [exact Hle|].
  exfalso. assert (2 ^ k <= 2 ^ (Zdigits2 t - 1)) by (apply Z.pow_le_mono_r; lia).
  lia.
Qed.

(** *** The quotient of two integers *)

(** The quotient of the division step, for [0 < a <= t < 2^1000]. *)
Lemma div_core_spec (a t : Z) :
  0 < a -> a <= t -> t < 2 ^ 1000 ->
  exists q l,
    SFdiv_core_binary prec emax a 0 t 0
    = (q, Zdigits2 a - Zdigits2 t - 53, l)
    /\ q * t <= a * 2 ^ (53 + Zdigits2 t - Zdigits2 a) < (q + 1) * t
    /\ 2 ^ 52 <= q < 2 ^ 54
    /\ (a = t -> q = 2 ^ 53 /\ l = loc_Exact).
Proof.
  intros Ha Hat Ht.
  pose proof (digits_le a t Ha Hat) as Hd.
  pose proof (digits_lt_pow t 1000 ltac:(lia) Ht ltac:(lia)) as Hd2.
  pose proof (Zdigits2_pos a Ha) as Hd1.
  pose proof (Zdigits2_bounds a Ha) as [Halo Hahi].
  pose proof (Zdigits2_bounds t ltac:(lia)) as [Htlo Hthi].
  unfold SFdiv_core_binary.
  replace (Zdigits2 a + 0 - (Zdigits2 t + 0)) with (Zdigits2 a - Zdigits2 t) by lia.
  rewrite fexp_normal by lia.
  replace (Z.min (Zdigits2 a - Zdigits2 t - 53) (0 - 0))
    with (Zdigits2 a - Zdigits2 t - 53) by lia.
  replace (0 - 0 - (Zdigits2 a - Zdigits2 t - 53))
    with (53 + Zdigits2 t - Zdigits2 a) by lia.
  set (s := 53 + Zdigits2 t - Zdigits2 a) in *.
  assert (Hs : 53 <= s) by (unfold s; lia).
  destruct s as [|sp|sp] eqn:Hsp; try lia. rewrite <- Hsp in *.
  rewrite Z.shiftl_mul_pow2 by lia.
  pose proof (Z_div_mod (a * 2 ^ s) t ltac:(lia)) as Hdm.
  destruct (Z.div_eucl (a * 2 ^ s) t) as [q r]. destruct Hdm as [Heq Hr].
  exists q, (new_location t r). split; [reflexivity|].
  assert (Hqt : q * t <= a * 2 ^ s < (q + 1) * t) by lia.
  split; [exact Hqt|].
  assert (Hp52 : 2 ^ (Zdigits2 t + 52) = 2 ^ Zdigits2 t * 2 ^ 52)
    by (apply pow2_split; lia).
  assert (Hlow : 2 ^ (Zdigits2 t + 52) <= a * 2 ^ s).
  { replace (Zdigits2 t + 52) with ((Zdigits2 a - 1) + s) by (unfold s; lia).
    rewrite pow2_split by lia. apply Z.mul_le_mono_nonneg_r; [|exact Halo].
    apply Z.lt_le_incl, pow2_pos. lia. }
  assert (Hhigh : a * 2 ^ s < 2 ^ (Zdigits2 t - 1) * 2 ^ 54).
  { rewrite <- pow2_split by lia.
    replace (Zdigits2 t - 1 + 54) with (Zdigits2 a + s) by (unfold s; lia).
    rewrite pow2_split by lia. apply Z.mul_lt_mono_pos_r; [apply pow2_pos; lia|exact Hahi]. }
  split.
  - split.
    + assert (H1 : t * 2 ^ 52 < 2 ^ Zdigits2 t * 2 ^ 52)
        by (apply Z.mul_lt_mono_pos_r; lia).
      assert (H2 : 2 ^ 52 * t < (q + 1) * t) by lia.
      assert (2 ^ 52 < q + 1) by (apply Z.mul_lt_mono_pos_r with t; lia). lia.
    + assert (H1 : 2 ^ (Zdigits2 t - 1) * 2 ^ 54 <= t * 2 ^ 54)
        by (apply Z.mul_le_mono_nonneg_r; lia).
      assert (H2 : q * t < 2 ^ 54 * t) by lia.
      apply Z.mul_lt_mono_pos_r with t; lia.
  - intros ->. assert (Hs53 : s = 53) by (unfold s; lia).
    rewrite Hs53 in Heq, Hqt.
    assert (Hq : q = 2 ^ 53).
    { assert (q * t <= 2 ^ 53 * t) by lia.
      assert (2 ^ 53 * t < (q + 1) * t) by lia.
      assert (q <= 2 ^ 53) by (apply Z.mul_le_mono_pos_r with t; lia).
      assert (2 ^ 53 < q + 1) by (apply Z.mul_lt_mono_pos_r with t; lia). lia. }
    split; [exact Hq|].
    assert (Hr0 : r = 0) by (subst q; lia). rewrite Hr0.
    unfold new_location, new_location_even, new_location_odd.
    destruct (Z.even t); reflexivity.
Qed.

Lemma exponent_le_one (m e : Z) :
  2 ^ 52 <= m -> -1200 <= e -> m * 2 ^ (e + 1200) <= 2 ^ 1200 -> e <= -52.
Proof.
  intros Hm He Hle.
  destruct (Z.le_gt_cases e (-52)) as [H|H]; [exact H|]. exfalso.
  assert (Hp : 2 ^ (1200 - 51) <= 2 ^ (e + 1200)) by (apply Z.pow_le_mono_r; lia).
  assert (Hq : 2 ^ 52 * 2 ^ (1200 - 51) <= m * 2 ^ (e + 1200)).
  { apply Z.mul_le_mono_nonneg; try lia. }
  assert (Hr : 2 ^ 52 * 2 ^ (1200 - 51) = 2 * 2 ^ 1200) by reflexivity.
  pose proof (pow2_pos 1200 ltac:(lia)). lia.
Qed.

Lemma quotient_below (q t a T : Z) :
  0 < t -> 0 < T -> q * t <= a * T -> a < t -> q < T.
Proof.
  intros Ht HT Hq Ha.
  apply Z.mul_lt_mono_pos_r with t; [exact Ht|].
  apply Z.le_lt_trans with (a * T); [exact Hq|].
  rewrite (Z.mul_comm T t). apply Z.mul_lt_mono_pos_r; assumption.
Qed.

Lemma successor_fits (mt N q T P : Z) :
  0 < N -> mt * N <= q -> q < T -> T = N * P -> (mt + 1) * N <= T.
Proof.
  intros HN Hmt Hq ->.
  assert (Hlt : mt * N < P * N) by lia.
  apply Z.mul_lt_mono_pos_r in Hlt; [|exact HN].
  rewrite (Z.mul_comm N P). apply Z.mul_le_mono_nonneg_r; lia.
Qed.

Lemma candidate_bounds (m mt N q t a T : Z) :
  0 < N -> 0 < t ->
  mt * N <= q -> q + 1 <= (mt + 1) * N ->
  q * t <= a * T -> a * T < (q + 1) * t ->
  (mt + 1) * N <= T ->
  m = mt \/ m = mt + 1 ->
  (m - 1) * N * t <= a * T
  /\ a * T <= (m + 1) * N * t
  /\ m * N <= T.
Proof.
  intros HN Ht Hlo Hhi Hq1 Hq2 Hcap Hm.
  assert (H1 : (m - 1) * N <= q).
  { apply Z.le_trans with (mt * N); [|exact Hlo].
    apply Z.mul_le_mono_nonneg_r; lia. }
  assert (H2 : q + 1 <= (m + 1) * N).
  { apply Z.le_trans with ((mt + 1) * N); [exact Hhi|].
    apply Z.mul_le_mono_nonneg_r; lia. }
  assert (H3 : m * N <= (mt + 1) * N) by (apply Z.mul_le_mono_nonneg_r; lia).
  split; [|split].
  - apply Z.le_trans with (q * t); [|exact Hq1].
    apply Z.mul_le_mono_nonneg_r; lia.
  - apply Z.le_trans with ((q + 1) * t); [lia|].
    apply Z.mul_le_mono_nonneg_r; lia.
  - lia.
Qed.

Lemma carry_bounds (mt N q t a T : Z) :
  0 < N -> 0 < t ->
  mt * N <= q -> q + 1 <= (mt + 1) * N ->
  q * t <= a * T -> a * T < (q + 1) * t ->
  (mt + 1) * N <= T ->
  mt + 1 = 2 ^ 53 ->
  (2 ^ 52 - 1) * (2 * N) * t <= a * T
  /\ a * T <= (2 ^ 52 + 1) * (2 * N) * t
  /\ 2 ^ 52 * (2 * N) <= T.
Proof.
  intros HN Ht Hlo Hhi Hq1 Hq2 Hcap Hm.
  assert (E1 : (2 ^ 52 - 1) * (2 * N) = (mt - 1) * N).
  { replace mt with (2 ^ 53 - 1) by lia. change (2 ^ 53) with (2 * 2 ^ 52). ring. }
  assert (E2 : (2 ^ 52 + 1) * (2 * N) = (mt + 3) * N).
  { replace mt with (2 ^ 53 - 1) by lia. change (2 ^ 53) with (2 * 2 ^ 52). ring. }
  assert (E3 : 2 ^ 52 * (2 * N) = (mt + 1) * N).
  { replace mt with (2 ^ 53 - 1) by lia. change (2 ^ 53) with (2 * 2 ^ 52). ring. }
  rewrite E1, E2, E3.
  assert (H1 : (mt - 1) * N <= q).
  { apply Z.le_trans with (mt * N); [|exact Hlo].
    apply Z.mul_le_mono_nonneg_r; lia. }
  assert (H2 : q + 1 <= (mt + 3) * N).
  { apply Z.le_trans with ((mt + 1) * N); [exact Hhi|].
    apply Z.mul_le_mono_nonneg_r; lia. }
  split; [|split].
  - apply Z.le_trans with (q * t); [|exact Hq1].
    apply Z.mul_le_mono_nonneg_r; lia.
  - apply Z.le_trans with ((q + 1) * t); [lia|].
    apply Z.mul_le_mono_nonneg_r; lia.
  - exact Hcap.
Qed.

Lemma rescale (m X T C a t : Z) :
  0 < C -> 0 <= t ->
  (m - 1) * X * t <= a * T -> a * T <= (m + 1) * X * t -> m * X <= T ->
  (m - 1) * (X * C) * t <= a * (T * C)
  /\ a * (T * C) <= (m + 1) * (X * C) * t
  /\ m * (X * C) <= T * C.
Proof.
  intros HC Ht H1 H2 H3.
  replace ((m - 1) * (X * C) * t) with ((m - 1) * X * t * C) by ring.
  replace ((m + 1) * (X * C) * t) with ((m + 1) * X * t * C) by ring.
  replace (a * (T * C)) with (a * T * C) by ring.
  replace (m * (X * C)) with (m * X * C) by ring.
  repeat split; apply Z.mul_le_mono_nonneg_r; lia.
Qed.

Lemma round_quotient_self (t : Z) :
  0 < t < 2 ^ 1000 ->
  round_quotient t t = S754_finite false (2 ^ 52)%positive (-52).
Proof.
  intros [Ht Htb]. unfold round_quotient.
  destruct t as [|tp|tp] eqn:Htp; try lia. rewrite <- Htp in *.
  replace (Z.abs t) with t by lia.
  replace (t <? 0) with false by (symmetry; apply Z.ltb_ge; lia).
  destruct (div_core_spec t t Ht ltac:(lia) Htb) as [q [l [-> [_ [_ Hexact]]]]].
  destruct (Hexact eq_refl) as [-> ->].
  replace (Zdigits2 t - Zdigits2 t - 53) with (-53) by lia.
  reflexivity.
Qed.

Lemma round_quotient_near (a t : Z) :
  0 <= a <= t -> 0 < t < 2 ^ 1000 -> near (round_quotient a t) a t.
Proof.
  intros [Ha Hat] [Ht Htb].
  destruct (Z.eq_dec a 0) as [->|Hnz].
  { left. split; [reflexivity|]. unfold round_quotient.
    destruct (Z.ltb_spec t 0); [lia|reflexivity]. }
  right.
  destruct (Z.eq_dec a t) as [->|Hne].
  { rewrite round_quotient_self by lia.
    exists (2 ^ 52)%positive, (-52). split; [reflexivity|].
    assert (HK : 2 ^ 1200 = 2 ^ 52 * 2 ^ (-52 + 1200)) by reflexivity.
    pose proof (pow2_pos (-52 + 1200) ltac:(lia)) as HP.
    rewrite HK. change (Z.pos (2 ^ 52)) with (2 ^ 52).
    split; [simpl; lia|]. split; [lia|].
    set (P := 2 ^ (-52 + 1200)) in *.
    replace ((2 ^ 52 - 1) * P * t) with (t * (2 ^ 52 * P) - P * t) by ring.
    replace ((2 ^ 52 + 1) * P * t) with (t * (2 ^ 52 * P) + P * t) by ring.
    assert (0 <= P * t) by (apply Z.mul_nonneg_nonneg; lia).
    repeat split; lia. }
  assert (Hapos : 0 < a) by lia.
  unfold round_quotient. destruct a as [|ap|ap] eqn:Hap; try lia. rewrite <- Hap in *.
  replace (Z.abs a) with a by lia. replace (Z.abs t) with t by lia.
  replace (a <? 0) with false by (symmetry; apply Z.ltb_ge; lia).
  replace (t <? 0) with false by (symmetry; apply Z.ltb_ge; lia).
  cbn [xorb].
  destruct (div_core_spec a t Hapos Hat Htb) as [q [l [-> [Hqt [Hq Hexact]]]]].
  pose proof (digits_le a t Hapos Hat) as Hd.
  pose proof (digits_lt_pow t 1000 Ht Htb ltac:(lia)) as Hd2.
  pose proof (Zdigits2_pos a Hapos) as Hd1.
  set (s := 53 + Zdigits2 t - Zdigits2 a) in *.
  replace (Zdigits2 a - Zdigits2 t - 53) with (- s) by (unfold s; lia).
  assert (Hs : 53 <= s <= 1053) by (unfold s; lia).
  assert (Hdq : Zdigits2 q = 53 \/ Zdigits2 q = 54).
  { destruct (Z.lt_ge_cases q (2 ^ 53)).
    - left. apply Zdigits2_unique; simpl; lia.
    - right. apply Zdigits2_unique; simpl; lia. }
  destruct (binary_round_aux_normal q (- s) l ltac:(lia) ltac:(lia) ltac:(lia))
    as [m [e [-> [Hm Hcases]]]].
  exists m, e. split; [reflexivity|]. split; [exact Hm|].
  set (n := Zdigits2 q - 53) in *.
  assert (Hn : 0 <= n <= 1) by (unfold n; lia).
  set (N := 2 ^ n) in *.
  assert (HN : 0 < N) by (apply pow2_pos; lia).
  set (T := 2 ^ s) in *.
  assert (HT : 0 < T) by (apply pow2_pos; lia).
  assert (HTN : T = N * 2 ^ (s - n)).
  { unfold T, N. rewrite <- pow2_split by lia. f_equal. lia. }
  assert (HP : 0 < 2 ^ (s - n)) by (apply pow2_pos; lia).
  set (mt := q / N) in *.
  assert (Hmt1 : mt * N <= q) by (unfold mt; rewrite Z.mul_comm; apply Z.mul_div_le; lia).
  assert (Hmt2 : q + 1 <= (mt + 1) * N).
  { unfold mt. pose proof (Z.mul_succ_div_gt q N HN). lia. }
  assert (HqT : q < T).
  { apply (quotient_below q t a T); lia. }
  assert (Hcap : (mt + 1) * N <= T).
  { apply (successor_fits mt N q T (2 ^ (s - n))); assumption. }
  assert (HC : 0 < 2 ^ (1200 - s)) by (apply pow2_pos; lia).
  assert (HK : 2 ^ 1200 = T * 2 ^ (1200 - s)).
  { unfold T. rewrite <- pow2_split by lia. f_equal. lia. }
  assert (Hmain :
    -1060 <= e
    /\ exists X, 2 ^ (e + 1200) = X * 2 ^ (1200 - s)
       /\ (Z.pos m - 1) * X * t <= a * T
       /\ a * T <= (Z.pos m + 1) * X * t
       /\ Z.pos m * X <= T).
  { destruct Hcases as [[He Hmm]|[He [Hm52 Hmt53]]].
    - split; [lia|]. exists N. split.
      + unfold N. rewrite <- pow2_split by lia. f_equal. lia.
      + apply (candidate_bounds (Z.pos m) mt N q t a T); try assumption; lia.
    - split; [lia|]. exists (2 * N). split.
      + unfold N. replace (e + 1200) with (1 + (n + (1200 - s))) by lia.
        rewrite (pow2_split 1), (pow2_split n) by lia. simpl (2 ^ 1). lia.
      + rewrite Hm52. apply (carry_bounds mt N q t a T); try assumption; lia. }
  destruct Hmain as [Helo [X [HX [H1 [H2 H3]]]]].
  rewrite HX, HK.
  destruct (rescale (Z.pos m) X T (2 ^ (1200 - s)) a t HC ltac:(lia) H1 H2 H3)
    as [G1 [G2 G3]].
  assert (Hehi : e <= -52).
  { apply (exponent_le_one (Z.pos m)); [lia|lia|]. rewrite HX, HK. exact G3. }
  repeat split; try lia; assumption.
Qed.

(** *** The sum of two floats *)

Lemma pos_iter_xO (m d : positive) :
  Z.pos (Pos.iter xO m d) = Z.pos m * 2 ^ Z.pos d.
Proof.
  induction d as [|d IH] using Pos.peano_ind.
  - simpl. lia.
  - rewrite Pos.iter_succ, Pos2Z.inj_xO, IH, Pos2Z.inj_succ, Z.pow_succ_r by lia. ring.
Qed.

(** Aligning a mantissa on a smaller exponent keeps the value. *)
Lemma shl_align_value (m : positive) (e ez : Z) :
  ez <= e -> Z.pos (shl_align m e ez).1 = Z.pos m * 2 ^ (e - ez).
Proof.
  intros Hle. unfold shl_align.
  destruct (ez - e) as [|d|d] eqn:Hd; cbn [fst].
  - replace (e - ez) with 0 by lia. simpl. lia.
  - lia.
  - rewrite pos_iter_xO. f_equal. f_equal. lia.
Qed.

Lemma digits_ge_53 (m : Z) : 2 ^ 52 <= m -> 53 <= Zdigits2 m.
Proof.
  intros Hm. pose proof (Zdigits2_bounds m ltac:(simpl in Hm; lia)) as [_ Hhi].
  destruct (Z.le_gt_cases 53 (Zdigits2 m)) as [H|H]; [exact H|]. exfalso.
  assert (Zdigits2 m = 0 \/ 0 < Zdigits2 m) as [H0|H0]
    by (destruct m; simpl in *; lia).
  - rewrite H0 in Hhi. simpl in *. lia.
  - assert (2 ^ Zdigits2 m <= 2 ^ 52) by (apply Z.pow_le_mono_r; lia). lia.
Qed.

(** Bounds on the sum of two values from the rounded mantissa, at the
    scale of the smaller exponent. *)
Lemma sum_candidate_bounds (m mt N M : Z) :
  0 < N -> mt * N <= M -> M + 1 <= (mt + 1) * N ->
  m = mt \/ m = mt + 1 ->
  (m - 1) * N <= M /\ M <= (m + 1) * N.
Proof.
  intros HN Hlo Hhi Hm.
  assert (H1 : (m - 1) * N <= mt * N) by (apply Z.mul_le_mono_nonneg_r; lia).
  assert (H2 : (mt + 1) * N <= (m + 1) * N) by (apply Z.mul_le_mono_nonneg_r; lia).
  lia.
Qed.

Lemma sum_carry_bounds (mt N M : Z) :
  0 < N -> mt * N <= M -> M + 1 <= (mt + 1) * N ->
  mt + 1 = 2 ^ 53 ->
  (2 ^ 52 - 1) * (2 * N) <= M /\ M <= (2 ^ 52 + 1) * (2 * N).
Proof.
  intros HN Hlo Hhi Hm.
  assert (E1 : (2 ^ 52 - 1) * (2 * N) = (mt - 1) * N).
  { replace mt with (2 ^ 53 - 1) by lia. change (2 ^ 53) with (2 * 2 ^ 52). ring. }
  assert (E2 : (2 ^ 52 + 1) * (2 * N) = (mt + 3) * N).
  { replace mt with (2 ^ 53 - 1) by lia. change (2 ^ 53) with (2 * 2 ^ 52). ring. }
  rewrite E1, E2.
  assert (H1 : (mt - 1) * N <= mt * N) by (apply Z.mul_le_mono_nonneg_r; lia).
  assert (H2 : (mt + 1) * N <= (mt + 3) * N) by (apply Z.mul_le_mono_nonneg_r; lia).
  lia.
Qed.

(** The sum of two positive normal numbers. *)
Lemma SFadd_normal (mx my : positive) (ex ey : Z) :
  2 ^ 52 <= Z.pos mx < 2 ^ 53 -> 2 ^ 52 <= Z.pos my < 2 ^ 53 ->
  -1060 <= ex <= 100 -> -1060 <= ey <= 100 ->
  exists (m : positive) (e : Z),
    SFadd prec emax (S754_finite false mx ex) (S754_finite false my ey)
    = S754_finite false m e
    /\ 2 ^ 52 <= Z.pos m < 2 ^ 53
    /\ -1060 <= e <= Z.max ex ey + 2
    /\ (Z.pos m - 1) * 2 ^ (e + 1200)
       <= Z.pos mx * 2 ^ (ex + 1200) + Z.pos my * 2 ^ (ey + 1200)
    /\ Z.pos mx * 2 ^ (ex + 1200) + Z.pos my * 2 ^ (ey + 1200)
       <= (Z.pos m + 1) * 2 ^ (e + 1200).
Proof.
  intros Hmx Hmy Hex Hey. unfold SFadd. cbn [cond_Zopp].
  set (ez := Z.min ex ey).
  rewrite (shl_align_value mx ex ez) by (unfold ez; lia).
  rewrite (shl_align_value my ey ez) by (unfold ez; lia).
  set (M := Z.pos mx * 2 ^ (ex - ez) + Z.pos my * 2 ^ (ey - ez)).
  assert (Hpx : 0 < 2 ^ (ex - ez)) by (apply pow2_pos; unfold ez; lia).
  assert (Hpy : 0 < 2 ^ (ey - ez)) by (apply pow2_pos; unfold ez; lia).
  assert (Hpx1 : 1 <= 2 ^ (ex - ez)) by lia.
  assert (Hpy1 : 1 <= 2 ^ (ey - ez)) by lia.
  assert (HMx : Z.pos mx * 1 <= Z.pos mx * 2 ^ (ex - ez))
    by (apply Z.mul_le_mono_nonneg_l; lia).
  assert (HMy : Z.pos my * 1 <= Z.pos my * 2 ^ (ey - ez))
    by (apply Z.mul_le_mono_nonneg_l; lia).
  assert (HM : 2 ^ 52 <= M) by (unfold M; lia).
  assert (HMpos : 0 < M) by (simpl in HM; lia).
  pose proof (digits_ge_53 M HM) as HdM.
  (* an upper bound on the digits of the sum *)
  set (ew := Z.max ex ey - ez).
  assert (Hew : 0 <= ew) by (unfold ew, ez; lia).
  assert (Hpw : 0 < 2 ^ ew) by (apply pow2_pos; lia).
  assert (Hx_le : 2 ^ (ex - ez) <= 2 ^ ew) by (apply Z.pow_le_mono_r; unfold ew, ez; lia).
  assert (Hy_le : 2 ^ (ey - ez) <= 2 ^ ew) by (apply Z.pow_le_mono_r; unfold ew, ez; lia).
  assert (HMhi : M < 2 ^ (ew + 54)).
  { rewrite pow2_split by lia. change (2 ^ 54) with (2 ^ 53 + 2 ^ 53).
    assert (Z.pos mx * 2 ^ (ex - ez) < 2 ^ 53 * 2 ^ ew).
    { apply Z.le_lt_trans with (Z.pos mx * 2 ^ ew).
      - apply Z.mul_le_mono_nonneg_l; lia.
      - apply Z.mul_lt_mono_pos_r; lia. }
    assert (Z.pos my * 2 ^ (ey - ez) < 2 ^ 53 * 2 ^ ew).
    { apply Z.le_lt_trans with (Z.pos my * 2 ^ ew).
      - apply Z.mul_le_mono_nonneg_l; lia.
      - apply Z.mul_lt_mono_pos_r; lia. }
    unfold M. lia. }
  assert (HdMhi : Zdigits2 M <= ew + 54) by (apply digits_lt_pow; lia).
  unfold binary_normalize.
  destruct M as [|Mp|Mp] eqn:HMp; try lia.
  unfold binary_round.
  change (Z.pos (digits2_pos Mp)) with (Zdigits2 (Z.pos Mp)).
  rewrite fexp_normal by (unfold ez in *; lia).
  assert (Halign : shl_align Mp ez (Zdigits2 (Z.pos Mp) + ez - 53) = (Mp, ez)).
  { unfold shl_align.
    destruct (Zdigits2 (Z.pos Mp) + ez - 53 - ez) eqn:Hz; try reflexivity. lia. }
  rewrite Halign.
  destruct (binary_round_aux_normal (Z.pos Mp) ez loc_Exact
              ltac:(lia) ltac:(lia) ltac:(unfold ew, ez in *; lia))
    as [m [e [-> [Hm Hcases]]]].
  exists m, e. split; [reflexivity|]. split; [exact Hm|].
  set (n := Zdigits2 (Z.pos Mp) - 53) in *.
  assert (Hn : 0 <= n) by (unfold n; lia).
  set (N := 2 ^ n) in *.
  assert (HN : 0 < N) by (apply pow2_pos; lia).
  set (mt := Z.pos Mp / N) in *.
  assert (Hmt1 : mt * N <= Z.pos Mp)
    by (unfold mt; rewrite Z.mul_comm; apply Z.mul_div_le; lia).
  assert (Hmt2 : Z.pos Mp + 1 <= (mt + 1) * N).
  { unfold mt. pose proof (Z.mul_succ_div_gt (Z.pos Mp) N HN). lia. }
  assert (Hsum : Z.pos mx * 2 ^ (ex + 1200) + Z.pos my * 2 ^ (ey + 1200)
                 = Z.pos Mp * 2 ^ (ez + 1200)).
  { rewrite <- HMp.
    replace (ex + 1200) with ((ex - ez) + (ez + 1200)) by lia.
    replace (ey + 1200) with ((ey - ez) + (ez + 1200)) by lia.
    rewrite (pow2_split (ex - ez)), (pow2_split (ey - ez)) by (unfold ez; lia).
    unfold M. ring. }
  rewrite Hsum.
  assert (HC : 0 < 2 ^ (ez + 1200)) by (apply pow2_pos; unfold ez; lia).
  destruct Hcases as [[He Hmm]|[He [Hm52 Hmt53]]].
  - split; [unfold ew, ez in *; lia|].
    replace (e + 1200) with (n + (ez + 1200)) by lia.
    rewrite pow2_split by (unfold ez; lia). fold N.
    destruct (sum_candidate_bounds (Z.pos m) mt N (Z.pos Mp) HN Hmt1 Hmt2 Hmm)
      as [B1 B2].
    rewrite !Z.mul_assoc.
    split; apply Z.mul_le_mono_nonneg_r; lia.
  - split; [unfold ew, ez in *; lia|].
    replace (e + 1200) with (1 + (n + (ez + 1200))) by lia.
    rewrite (pow2_split 1), (pow2_split n) by (unfold ez; lia). fold N.
    change (2 ^ 1) with 2.
    destruct (sum_carry_bounds mt N (Z.pos Mp) HN Hmt1 Hmt2 Hmt53) as [B1 B2].
    rewrite Hm52.
    replace ((2 ^ 52 - 1) * (2 * (N * 2 ^ (ez + 1200))))
      with ((2 ^ 52 - 1) * (2 * N) * 2 ^ (ez + 1200)) by ring.
    replace ((2 ^ 52 + 1) * (2 * (N * 2 ^ (ez + 1200))))
      with ((2 ^ 52 + 1) * (2 * N) * 2 ^ (ez + 1200)) by ring.
    split; apply Z.mul_le_mono_nonneg_r; lia.
Qed.

Lemma regular_weaken (b b' : Z) (x : spec_float) :
  b <= b' -> regular b x -> regular b' x.
Proof.
  intros Hb [->|[m [e [-> [Hm He]]]]]; [left; reflexivity|].
  right. exists m, e. repeat split; lia.
Qed.

Lemma regular_ulp (b : Z) (x : spec_float) :
  regular b x ->
  0 <= scaled_ulp x /\ 2 ^ 52 * scaled_ulp x <= scaled_value x.
Proof.
  intros [->|[m [e [-> [Hm He]]]]]; simpl scaled_ulp; simpl scaled_value.
  - lia.
  - pose proof (pow2_pos (e + 1200) ltac:(lia)) as Hp. split; [lia|].
    apply Z.mul_le_mono_nonneg_r; lia.
Qed.

Lemma regular_not_nan (b : Z) (x : spec_float) :
  regular b x -> is_nan x = false.
Proof. intros [->|[m [e [-> _]]]]; reflexivity. Qed.

(** The quotient of a count by the total, as a float. *)
Lemma round_quotient_spec (a t : Z) :
  0 <= a <= t -> 0 < t < 2 ^ 1000 ->
  regular (-52) (round_quotient a t)
  /\ (scaled_value (round_quotient a t) - scaled_ulp (round_quotient a t)) * t
     <= a * 2 ^ 1200
  /\ a * 2 ^ 1200
     <= (scaled_value (round_quotient a t) + scaled_ulp (round_quotient a t)) * t
  /\ scaled_value (round_quotient a t) <= 2 ^ 1200.
Proof.
  intros Ha Ht.
  destruct (round_quotient_near a t Ha Ht)
    as [[-> ->]|[m [e [-> [Hm [He [H1 [H2 H3]]]]]]]].
  - split; [left; reflexivity|]. simpl. lia.
  - split; [right; exists m, e; repeat split; lia|].
    cbn [scaled_value scaled_ulp].
    replace ((Z.pos m * 2 ^ (e + 1200) - 2 ^ (e + 1200)) * t)
      with ((Z.pos m - 1) * 2 ^ (e + 1200) * t) by ring.
    replace ((Z.pos m * 2 ^ (e + 1200) + 2 ^ (e + 1200)) * t)
      with ((Z.pos m + 1) * 2 ^ (e + 1200) * t) by ring.
    repeat split; assumption.
Qed.

(** The sum of two regular floats. *)
Lemma SFadd_spec (b : Z) (x y : spec_float) :
  regular b x -> regular b y -> b <= 98 ->
  regular (b + 2) (SFadd prec emax x y)
  /\ scaled_value (SFadd prec emax x y) - scaled_ulp (SFadd prec emax x y)
     <= scaled_value x + scaled_value y
  /\ scaled_value x + scaled_value y
     <= scaled_value (SFadd prec emax x y) + scaled_ulp (SFadd prec emax x y).
Proof.
  intros Hx Hy Hb.
  destruct Hx as [->|[mx [ex [-> [Hmx Hex]]]]];
    destruct Hy as [->|[my [ey [-> [Hmy Hey]]]]].
  - split; [left; reflexivity|]. simpl. lia.
  - cbn [SFadd]. split; [right; exists my, ey; repeat split; lia|].
    cbn [scaled_value scaled_ulp].
    pose proof (pow2_pos (ey + 1200) ltac:(lia)). lia.
  - cbn [SFadd]. split; [right; exists mx, ex; repeat split; lia|].
    cbn [scaled_value scaled_ulp].
    pose proof (pow2_pos (ex + 1200) ltac:(lia)). lia.
  - destruct (SFadd_normal mx my ex ey Hmx Hmy ltac:(lia) ltac:(lia))
      as [m [e [-> [Hm [He [H1 H2]]]]]].
    split; [right; exists m, e; repeat split; lia|].
    cbn [scaled_value scaled_ulp].
    replace (Z.pos m * 2 ^ (e + 1200) - 2 ^ (e + 1200))
      with ((Z.pos m - 1) * 2 ^ (e + 1200)) by ring.
    replace (Z.pos m * 2 ^ (e + 1200) + 2 ^ (e + 1200))
      with ((Z.pos m + 1) * 2 ^ (e + 1200)) by ring.
    split; assumption.
Qed.

Lemma sum_of_quotients (t S a1 a2 a3 a4 a5 P1 P2 P3 P4 P5 u1 u2 u3 u4 u5 : Z) :
  0 < t -> a1 + a2 + a3 + a4 + a5 = t ->
  (P1 - u1) * t <= a1 * S -> a1 * S <= (P1 + u1) * t ->
  (P2 - u2) * t <= a2 * S -> a2 * S <= (P2 + u2) * t ->
  (P3 - u3) * t <= a3 * S -> a3 * S <= (P3 + u3) * t ->
  (P4 - u4) * t <= a4 * S -> a4 * S <= (P4 + u4) * t ->
  (P5 - u5) * t <= a5 * S -> a5 * S <= (P5 + u5) * t ->
  (P1 + P2 + P3 + P4 + P5) - (u1 + u2 + u3 + u4 + u5) <= S
  /\ S <= (P1 + P2 + P3 + P4 + P5) + (u1 + u2 + u3 + u4 + u5).
Proof.
  intros Ht Ha L1 U1 L2 U2 L3 U3 L4 U4 L5 U5.
  assert (HS : (a1 + a2 + a3 + a4 + a5) * S = S * t) by (rewrite Ha; ring).
  split; apply Z.mul_le_mono_pos_r with t; try exact Ht.
  - replace (((P1 + P2 + P3 + P4 + P5) - (u1 + u2 + u3 + u4 + u5)) * t)
      with ((P1 - u1) * t + (P2 - u2) * t + (P3 - u3) * t
            + (P4 - u4) * t + (P5 - u5) * t) by ring.
    rewrite <- HS.
    replace ((a1 + a2 + a3 + a4 + a5) * S)
      with (a1 * S + a2 * S + a3 * S + a4 * S + a5 * S) by ring.
    lia.
  - replace (((P1 + P2 + P3 + P4 + P5) + (u1 + u2 + u3 + u4 + u5)) * t)
      with ((P1 + u1) * t + (P2 + u2) * t + (P3 + u3) * t
            + (P4 + u4) * t + (P5 + u5) * t) by ring.
    rewrite <- HS.
    replace ((a1 + a2 + a3 + a4 + a5) * S)
      with (a1 * S + a2 * S + a3 * S + a4 * S + a5 * S) by ring.
    lia.
Qed.

(** *** Comparisons *)

Lemma SFcompare_finite (m1 m2 : positive) (e1 e2 : Z) :
  SFcompare (S754_finite false m1 e1) (S754_finite false m2 e2)
  = Some match e1 ?= e2 with
         | Lt => Lt
         | Gt => Gt
         | Eq => (m1 ?= m2)%positive
         end.
Proof. reflexivity. Qed.

Lemma exponent_of_value (m e lo hi : Z) :
  2 ^ 52 <= m < 2 ^ 53 -> -1200 <= e ->
  2 ^ (lo + 1252) <= m * 2 ^ (e + 1200) -> m * 2 ^ (e + 1200) < 2 ^ (hi + 1253) ->
  -1200 <= lo -> -1200 <= hi ->
  lo <= e <= hi.
Proof.
  intros Hm He Hlo Hhi Hl Hh.
  pose proof (pow2_pos (e + 1200) ltac:(lia)) as Hp.
  split.
  - destruct (Z.le_gt_cases lo e) as [H|H]; [exact H|]. exfalso.
    assert (H1 : 2 ^ (e + 1200) * 2 ^ 53 <= 2 ^ (lo + 1252)).
    { rewrite <- pow2_split by lia. apply Z.pow_le_mono_r; lia. }
    assert (H2 : m * 2 ^ (e + 1200) < 2 ^ 53 * 2 ^ (e + 1200))
      by (apply Z.mul_lt_mono_pos_r; lia).
    lia.
  - destruct (Z.le_gt_cases e hi) as [H|H]; [exact H|]. exfalso.
    assert (H1 : 2 ^ (hi + 1253) <= 2 ^ 52 * 2 ^ (e + 1200)).
    { rewrite <- pow2_split by lia. apply Z.pow_le_mono_r; lia. }
    assert (H2 : 2 ^ 52 * 2 ^ (e + 1200) <= m * 2 ^ (e + 1200))
      by (apply Z.mul_le_mono_nonneg_r; lia).
    lia.
Qed.

(** A regular float of value at most 1 lies between [0.0] and [1.0]. *)
Lemma unit_interval (x : spec_float) :
  regular (-52) x -> scaled_value x <= 2 ^ 1200 ->
  SFleb (S754_zero false) x = true
  /\ SFleb x (S754_finite false (2 ^ 52) (-52)) = true.
Proof.
  intros [->|[m [e [-> [Hm He]]]]] Hle; [split; reflexivity|].
  split; [reflexivity|].
  unfold SFleb. rewrite SFcompare_finite.
  destruct (Z.compare_spec e (-52)) as [Heq|Hlt|Hgt]; [|reflexivity|lia].
  subst e. cbn [scaled_value] in Hle.
  change (2 ^ 1200) with (2 ^ 52 * 2 ^ (-52 + 1200)) in Hle.
  apply Z.mul_le_mono_pos_r in Hle; [|apply pow2_pos; lia].
  destruct (Pos.compare_spec m (2 ^ 52)) as [H|H|H]; try reflexivity.
  exfalso. apply Pos2Z.pos_lt_pos in H. change (Z.pos (2 ^ 52)) with (2 ^ 52) in H. lia.
Qed.

(** A regular float whose value is within a thousandth of 1 is neither
    below the double of [0.99] nor above that of [1.01]. *)
Lemma within_tolerance (b : Z) (x : spec_float) :
  regular b x ->
  999 * 2 ^ 1200 <= 1000 * scaled_value x ->
  1000 * scaled_value x <= 1001 * 2 ^ 1200 ->
  SFleb (S754_finite false 8917127262193582 (-53)) x = true
  /\ SFleb x (S754_finite false 4548635623644201 (-52)) = true
  /\ SFltb x (S754_finite false 8917127262193582 (-53)) = false
  /\ SFltb (S754_finite false 4548635623644201 (-52)) x = false.
Proof.
  intros [->|[m [e [-> [Hm He]]]]] Hlo Hhi.
  { exfalso. cbn [scaled_value] in Hlo. pose proof (pow2_pos 1200 ltac:(lia)). lia. }
  cbn [scaled_value] in Hlo, Hhi.
  assert (Hexp : -53 <= e <= -52).
  { pose proof (pow2_pos 1199 ltac:(lia)) as Hp.
    assert (E : 2 ^ 1200 = 2 * 2 ^ 1199) by reflexivity.
    apply (exponent_of_value (Z.pos m) e (-53) (-52) Hm ltac:(lia));
      [| |lia|lia].
    - change (-53 + 1252) with 1199. lia.
    - change (-52 + 1253) with (Z.succ 1200). rewrite Z.pow_succ_r by lia. lia. }
  unfold SFleb, SFltb. rewrite !SFcompare_finite, !Pos2Z.inj_compare.
  assert (Hcase : e = -53 \/ e = -52) by lia.
  destruct Hcase as [-> | ->].
  - assert (E : 2 ^ 1200 = 2 ^ 53 * 2 ^ (-53 + 1200)) by reflexivity.
    rewrite E, !Z.mul_assoc in Hlo.
    apply Z.mul_le_mono_pos_r in Hlo; [|apply pow2_pos; lia].
    change (2 ^ 53) with 9007199254740992 in Hlo.
    change (-53 ?= -53) with Eq. change (-52 ?= -53) with Gt.
    change (-53 ?= -52) with Lt.
    destruct (Z.compare_spec 8917127262193582 (Z.pos m)) as [H|H|H];
      [lia| |lia].
    destruct (Z.compare_spec (Z.pos m) 8917127262193582) as [H'|H'|H'];
      [lia|lia|].
    repeat split; reflexivity.
  - assert (E : 2 ^ 1200 = 2 ^ 52 * 2 ^ (-52 + 1200)) by reflexivity.
    rewrite E, !Z.mul_assoc in Hhi.
    apply Z.mul_le_mono_pos_r in Hhi; [|apply pow2_pos; lia].
    change (2 ^ 52) with 4503599627370496 in Hhi.
    change (-52 ?= -52) with Eq. change (-52 ?= -53) with Gt.
    change (-53 ?= -52) with Lt.
    destruct (Z.compare_spec 4548635623644201 (Z.pos m)) as [H|H|H];
      [lia|lia|].
    destruct (Z.compare_spec (Z.pos m) 4548635623644201) as [H'|H'|H'];
      [lia| |lia].
    repeat split; reflexivity.
Qed.

(** *** The proportions and their total *)

Lemma int_truediv_regular (b a t : Z) :
  t <> 0 -> regular b (round_quotient a t) ->
  int_truediv a t = Ok (round_quotient a t).
Proof.
  intros Ht Hreg. unfold int_truediv.
  destruct (Z.eqb_spec t 0) as [Heq|_]; [contradiction|].
  destruct Hreg as [->|[m [e [-> _]]]]; reflexivity.
Qed.

Lemma nan_add_regular (b : Z) (acc x : spec_float) :
  regular b x -> nan_add acc x = SFadd prec emax acc x.
Proof. intros [->|[m [e [-> _]]]]; reflexivity. Qed.

(** The row total of five regular floats whose values add up to 1 within
    their units in the last place. *)
Lemma total_of_regular (p1 p2 p3 p4 p5 : spec_float) :
  regular (-52) p1 -> regular (-52) p2 -> regular (-52) p3 ->
  regular (-52) p4 -> regular (-52) p5 ->
  scaled_value p1 <= 2 ^ 1200 -> scaled_value p2 <= 2 ^ 1200 ->
  scaled_value p3 <= 2 ^ 1200 -> scaled_value p4 <= 2 ^ 1200 ->
  scaled_value p5 <= 2 ^ 1200 ->
  (scaled_value p1 + scaled_value p2 + scaled_value p3 + scaled_value p4
   + scaled_value p5)
  - (scaled_ulp p1 + scaled_ulp p2 + scaled_ulp p3 + scaled_ulp p4 + scaled_ulp p5)
  <= 2 ^ 1200 ->
  2 ^ 1200
  <= (scaled_value p1 + scaled_value p2 + scaled_value p3 + scaled_value p4
      + scaled_value p5)
     + (scaled_ulp p1 + scaled_ulp p2 + scaled_ulp p3 + scaled_ulp p4 + scaled_ulp p5) ->
  exists s,
    total_proportion
      {| forest_proportion := p1; agriculture_proportion := p2;
         developed_proportion := p3; wetland_proportion := p4;
         other_proportion := p5 |} = s
    /\ regular (-42) s
    /\ 999 * 2 ^ 1200 <= 1000 * scaled_value s
    /\ 1000 * scaled_value s <= 1001 * 2 ^ 1200.
Proof.
  intros R1 R2 R3 R4 R5 B1 B2 B3 B4 B5 Hlo Hhi.
  unfold total_proportion.
  cbn [fold_left forest_proportion agriculture_proportion developed_proportion
       wetland_proportion other_proportion].
  rewrite (nan_add_regular _ _ _ R1), (nan_add_regular _ _ _ R2),
    (nan_add_regular _ _ _ R3), (nan_add_regular _ _ _ R4),
    (nan_add_regular _ _ _ R5).
  change (@zero spec_float ops) with (S754_zero false).
  assert (R0 : regular (-52) (S754_zero false)) by (left; reflexivity).
  destruct (SFadd_spec (-52) _ _ R0 R1 ltac:(lia)) as [Rs1 [L1 U1]].
  set (s1 := SFadd prec emax (S754_zero false) p1) in *.
  destruct (SFadd_spec (-50) s1 p2 Rs1 (regular_weaken (-52) (-50) p2 ltac:(lia) R2) ltac:(lia))
    as [Rs2 [L2 U2]].
  set (s2 := SFadd prec emax s1 p2) in *.
  destruct (SFadd_spec (-48) s2 p3 Rs2 (regular_weaken (-52) (-48) p3 ltac:(lia) R3) ltac:(lia))
    as [Rs3 [L3 U3]].
  set (s3 := SFadd prec emax s2 p3) in *.
  destruct (SFadd_spec (-46) s3 p4 Rs3 (regular_weaken (-52) (-46) p4 ltac:(lia) R4) ltac:(lia))
    as [Rs4 [L4 U4]].
  set (s4 := SFadd prec emax s3 p4) in *.
  destruct (SFadd_spec (-44) s4 p5 Rs4 (regular_weaken (-52) (-44) p5 ltac:(lia) R5) ltac:(lia))
    as [Rs5 [L5 U5]].
  set (s5 := SFadd prec emax s4 p5) in *.
  exists s5. split; [reflexivity|]. split; [exact Rs5|].
  destruct (regular_ulp _ _ R1) as [N1 E1]. destruct (regular_ulp _ _ R2) as [N2 E2].
  destruct (regular_ulp _ _ R3) as [N3 E3]. destruct (regular_ulp _ _ R4) as [N4 E4].
  destruct (regular_ulp _ _ R5) as [N5 E5].
  destruct (regular_ulp _ _ Rs1) as [M1 F1]. destruct (regular_ulp _ _ Rs2) as [M2 F2].
  destruct (regular_ulp _ _ Rs3) as [M3 F3]. destruct (regular_ulp _ _ Rs4) as [M4 F4].
  destruct (regular_ulp _ _ Rs5) as [M5 F5].
  change (scaled_value (S754_zero false)) with 0 in L1, U1.
  change (2 ^ 52) with 4503599627370496 in *.
  pose proof (pow2_pos 1200 ltac:(lia)) as HS.
  generalize dependent (2 ^ 1200). intros S. intros.
  generalize dependent (scaled_value s5). generalize dependent (scaled_ulp s5).
  generalize dependent (scaled_value s4). generalize dependent (scaled_ulp s4).
  generalize dependent (scaled_value s3). generalize dependent (scaled_ulp s3).
  generalize dependent (scaled_value s2). generalize dependent (scaled_ulp s2).
  generalize dependent (scaled_value s1). generalize dependent (scaled_ulp s1).
  generalize dependent (scaled_value p5). generalize dependent (scaled_ulp p5).
  generalize dependent (scaled_value p4). generalize dependent (scaled_ulp p4).
  generalize dependent (scaled_value p3). generalize dependent (scaled_ulp p3).
  generalize dependent (scaled_value p2). generalize dependent (scaled_ulp p2).
  generalize dependent (scaled_value p1). generalize dependent (scaled_ulp p1).
  intros. lia.
Qed.

(** The binary64 counterpart of the partition property, for totals below
    2^1000. *)
Lemma binary64_partition (cc : ClassCounts) :
  is_tally cc ->
  0 < total_valid_pixels cc < 2 ^ 1000 ->
  exists p : Proportions spec_float,
    calculate_proportions cc = Ok p
    /\ (forest_proportion p
          = round_quotient (forest_count cc) (total_valid_pixels cc)
        /\ agriculture_proportion p
          = round_quotient (agriculture_count cc) (total_valid_pixels cc)
        /\ developed_proportion p
          = round_quotient (developed_count cc) (total_valid_pixels cc)
        /\ wetland_proportion p
          = round_quotient (wetland_count cc) (total_valid_pixels cc)
        /\ other_proportion p
          = round_quotient (other_count cc) (total_valid_pixels cc))
    /\ (SFleb (of_decimal 0 1) (forest_proportion p) = true
        /\ SFleb (forest_proportion p) (of_decimal 10 1) = true)
    /\ (SFleb (of_decimal 0 1) (agriculture_proportion p) = true
        /\ SFleb (agriculture_proportion p) (of_decimal 10 1) = true)
    /\ (SFleb (of_decimal 0 1) (developed_proportion p) = true
        /\ SFleb (developed_proportion p) (of_decimal 10 1) = true)
    /\ (SFleb (of_decimal 0 1) (wetland_proportion p) = true
        /\ SFleb (wetland_proportion p) (of_decimal 10 1) = true)
    /\ (SFleb (of_decimal 0 1) (other_proportion p) = true
        /\ SFleb (other_proportion p) (of_decimal 10 1) = true)
    /\ SFleb (of_decimal 99 2) (total_proportion p) = true
    /\ SFleb (total_proportion p) (of_decimal 101 2) = true
    /\ flagged p = false.
Proof.
  intros Htally [Hpos Hbound].
  pose proof (total_valid_pixels_eq cc) as Htotal.
  pose proof (Htally forest) as Hf. pose proof (Htally agriculture) as Ha.
  pose proof (Htally developed) as Hd. pose proof (Htally wetland) as Hw.
  pose proof (Htally other) as Ho. simpl in Hf, Ha, Hd, Hw, Ho.
  set (t := total_valid_pixels cc) in *.
  destruct (round_quotient_spec (forest_count cc) t ltac:(lia) ltac:(lia))
    as [R1 [L1 [U1 B1]]].
  destruct (round_quotient_spec (agriculture_count cc) t ltac:(lia) ltac:(lia))
    as [R2 [L2 [U2 B2]]].
  destruct (round_quotient_spec (developed_count cc) t ltac:(lia) ltac:(lia))
    as [R3 [L3 [U3 B3]]].
  destruct (round_quotient_spec (wetland_count cc) t ltac:(lia) ltac:(lia))
    as [R4 [L4 [U4 B4]]].
  destruct (round_quotient_spec (other_count cc) t ltac:(lia) ltac:(lia))
    as [R5 [L5 [U5 B5]]].
  unfold calculate_proportions. fold t.
  destruct (Z.eqb_spec t 0) as [Hz|Hnz]; [lia|].
  cbn [truediv ops].
  rewrite (int_truediv_regular _ _ _ Hnz R1), (int_truediv_regular _ _ _ Hnz R2),
    (int_truediv_regular _ _ _ Hnz R3), (int_truediv_regular _ _ _ Hnz R4),
    (int_truediv_regular _ _ _ Hnz R5).
  cbn [mbind Py_bind mret Py_ret].
  eexists. split; [reflexivity|].
  cbn [forest_proportion agriculture_proportion developed_proportion
       wetland_proportion other_proportion].
  split; [repeat split|].
  change (@of_decimal spec_float ops 0 1) with (S754_zero false).
  change (@of_decimal spec_float ops 10 1) with (S754_finite false (2 ^ 52) (-52)).
  split; [apply unit_interval; assumption|].
  split; [apply unit_interval; assumption|].
  split; [apply unit_interval; assumption|].
  split; [apply unit_interval; assumption|].
  split; [apply unit_interval; assumption|].
  destruct (sum_of_quotients t (2 ^ 1200) _ _ _ _ _ _ _ _ _ _ _ _ _ _ _
              Hpos (eq_sym Htotal) L1 U1 L2 U2 L3 U3 L4 U4 L5 U5) as [Hlo Hhi].
  destruct (total_of_regular _ _ _ _ _ R1 R2 R3 R4 R5 B1 B2 B3 B4 B5 Hlo Hhi)
    as [s [Hs [Rs [Slo Shi]]]].
  destruct (within_tolerance _ s Rs Slo Shi) as [C1 [C2 [C3 C4]]].
  unfold flagged. rewrite Hs.
  change (@of_decimal spec_float ops 99 2)
    with (S754_finite false 8917127262193582 (-53)).
  change (@of_decimal spec_float ops 101 2)
    with (S754_finite false 4548635623644201 (-52)).
  cbn [flt ops]. rewrite C3, C4. repeat split; assumption.
Qed.

End Binary64Facts.

(** * The claims *)

(** ** Normalisation *)

(** C1.  For every tally (no negative count) whose number of valid pixels,
    the sum of the five real classes without [nodata], is strictly
    positive, [calculate_proportions] returns five proportions; each is the
    count of its class divided by that number, each lies in [0,1], and in
    exact arithmetic they add up to 1, hence to a total within
    [0.99, 1.01].  In binary64, for totals below 2^1000, each proportion is
    the correctly rounded quotient and lies between the doubles 0.0 and
    1.0, and the row total lies between the doubles 0.99 and 1.01, so the
    validator does not flag the row. *)
Theorem calculate_proportions_partition (cc : ClassCounts) :
  is_tally cc ->
  0 < total_valid_pixels cc ->
  (exists p : Proportions Q,
    calculate_proportions cc = Ok p
    /\ (forest_proportion p
          == inject_Z (forest_count cc) / inject_Z (total_valid_pixels cc)
        /\ agriculture_proportion p
          == inject_Z (agriculture_count cc) / inject_Z (total_valid_pixels cc)
        /\ developed_proportion p
          == inject_Z (developed_count cc) / inject_Z (total_valid_pixels cc)
        /\ wetland_proportion p
          == inject_Z (wetland_count cc) / inject_Z (total_valid_pixels cc)
        /\ other_proportion p
          == inject_Z (other_count cc) / inject_Z (total_valid_pixels cc))%Q
    /\ (0 <= forest_proportion p <= 1
        /\ 0 <= agriculture_proportion p <= 1
        /\ 0 <= developed_proportion p <= 1
        /\ 0 <= wetland_proportion p <= 1
        /\ 0 <= other_proportion p <= 1)%Q
    /\ (total_proportion p == 1)%Q
    /\ (0.99 <= total_proportion p <= 1.01)%Q)
  /\ (total_valid_pixels cc < 2 ^ 1000 ->
      exists p : Proportions spec_float,
        calculate_proportions cc = Ok p
        /\ (forest_proportion p
              = Binary64.round_quotient (forest_count cc) (total_valid_pixels cc)
            /\ agriculture_proportion p
              = Binary64.round_quotient (agriculture_count cc) (total_valid_pixels cc)
            /\ developed_proportion p
              = Binary64.round_quotient (developed_count cc) (total_valid_pixels cc)
            /\ wetland_proportion p
              = Binary64.round_quotient (wetland_count cc) (total_valid_pixels cc)
            /\ other_proportion p
              = Binary64.round_quotient (other_count cc) (total_valid_pixels cc))
        /\ (SFleb (of_decimal 0 1) (forest_proportion p) = true
            /\ SFleb (forest_proportion p) (of_decimal 10 1) = true)
        /\ (SFleb (of_decimal 0 1) (agriculture_proportion p) = true
            /\ SFleb (agriculture_proportion p) (of_decimal 10 1) = true)
        /\ (SFleb (of_decimal 0 1) (developed_proportion p) = true
            /\ SFleb (developed_proportion p) (of_decimal 10 1) = true)
        /\ (SFleb (of_decimal 0 1) (wetland_proportion p) = true
            /\ SFleb (wetland_proportion p) (of_decimal 10 1) = true)
        /\ (SFleb (of_decimal 0 1) (other_proportion p) = true
            /\ SFleb (other_proportion p) (of_decimal 10 1) = true)
        /\ SFleb (of_decimal 99 2) (total_proportion p) = true
        /\ SFleb (total_proportion p) (of_decimal 101 2) = true
        /\ flagged p = false).
Proof.
  intros Htally Hpos.
  split; [|intros Hbound; apply Binary64Facts.binary64_partition;
           [exact Htally|split; assumption]].
  pose proof (total_valid_pixels_eq cc) as Htotal.
  pose proof (Htally forest) as Hf. pose proof (Htally agriculture) as Ha.
  pose proof (Htally developed) as Hd. pose proof (Htally wetland) as Hw.
  pose proof (Htally other) as Ho. simpl in Hf, Ha, Hd, Hw, Ho.
  unfold calculate_proportions.
  destruct (total_valid_pixels cc =? 0) eqn:Hzero;
    [apply Z.eqb_eq in Hzero; lia|].
  cbn [truediv ExactQ]. rewrite !Q_truediv_positive by exact Hpos.
  cbn [mbind Py_bind mret Py_ret].
  eexists. split; [reflexivity|].
  cbn [forest_proportion agriculture_proportion developed_proportion
       wetland_proportion other_proportion].
  assert (Hsum : (total_proportion
                    {| forest_proportion :=
                         Qred (inject_Z (forest_count cc) / inject_Z (total_valid_pixels cc));
                       agriculture_proportion :=
                         Qred (inject_Z (agriculture_count cc) / inject_Z (total_valid_pixels cc));
                       developed_proportion :=
                         Qred (inject_Z (developed_count cc) / inject_Z (total_valid_pixels cc));
                       wetland_proportion :=
                         Qred (inject_Z (wetland_count cc) / inject_Z (total_valid_pixels cc));
                       other_proportion :=
                         Qred (inject_Z (other_count cc) / inject_Z (total_valid_pixels cc)) |}
                  == 1)%Q).
  { rewrite Q_total_proportion.
    cbn [forest_proportion agriculture_proportion developed_proportion
         wetland_proportion other_proportion].
    rewrite !Qred_correct, Htotal. apply ratios_sum. lia. }
  split; [repeat split; apply Qred_correct|].
  split; [repeat split; rewrite Qred_correct; apply ratio_bounds; lia|].
  split; [exact Hsum|].
  rewrite Hsum. split; discriminate.
Qed.

(** C1 at the tally of 120 forest, 30 agriculture, 50 developed and 10
    no-data pixels. *)
Lemma calculate_proportions_partition_witness :
  0 < total_valid_pixels
        {| forest_count := 120; agriculture_count := 30; developed_count := 50;
           wetland_count := 0; other_count := 0; nodata_count := 10 |}
  /\ exists p : Proportions Q,
       calculate_proportions
         {| forest_count := 120; agriculture_count := 30; developed_count := 50;
            wetland_count := 0; other_count := 0; nodata_count := 10 |} = Ok p
       /\ (total_proportion p == 1)%Q.
Proof.
  split; [reflexivity|].
  destruct (calculate_proportions_partition
              {| forest_count := 120; agriculture_count := 30; developed_count := 50;
                 wetland_count := 0; other_count := 0; nodata_count := 10 |})
    as [[p [Hp [_ [_ [Hsum _]]]]] _].
  - intros []; simpl; lia.
  - reflexivity.
  - exists p. split; assumption.
Defined.

(** C2.  For every tally without valid pixels, whatever its [nodata] count,
    [calculate_proportions] returns (it does not raise) and all five
    proportions are the literal [0.0]: the rational 0, the float [+0.0]. *)
Theorem no_valid_pixels_all_zero (cc : ClassCounts) :
  total_valid_pixels cc = 0 ->
  (forall (F : Type) (ops : PyFloat F),
     calculate_proportions cc = Ok zero_proportions)
  /\ calculate_proportions cc
     = Ok {| forest_proportion := 0%Q; agriculture_proportion := 0%Q;
             developed_proportion := 0%Q; wetland_proportion := 0%Q;
             other_proportion := 0%Q |}
  /\ calculate_proportions cc
     = Ok {| forest_proportion := S754_zero false;
             agriculture_proportion := S754_zero false;
             developed_proportion := S754_zero false;
             wetland_proportion := S754_zero false;
             other_proportion := S754_zero false |}.
Proof.
  intros Hzero.
  assert (Hgen : forall (F : Type) (ops : PyFloat F),
             calculate_proportions cc = Ok zero_proportions).
  { intros F ops. unfold calculate_proportions. rewrite Hzero. reflexivity. }
  split; [exact Hgen|]. split; rewrite Hgen; reflexivity.
Qed.

(** C2 at a tally of 500 no-data pixels. *)
Lemma no_valid_pixels_all_zero_witness :
  total_valid_pixels
    {| forest_count := 0; agriculture_count := 0; developed_count := 0;
       wetland_count := 0; other_count := 0; nodata_count := 500 |} = 0
  /\ calculate_proportions
       {| forest_count := 0; agriculture_count := 0; developed_count := 0;
          wetland_count := 0; other_count := 0; nodata_count := 500 |}
     = Ok {| forest_proportion := S754_zero false;
             agriculture_proportion := S754_zero false;
             developed_proportion := S754_zero false;
             wetland_proportion := S754_zero false;
             other_proportion := S754_zero false |}.
Proof.
  split; [reflexivity|].
  apply (no_valid_pixels_all_zero
           {| forest_count := 0; agriculture_count := 0; developed_count := 0;
              wetland_count := 0; other_count := 0; nodata_count := 500 |}).
  reflexivity.
Defined.

(** C7.  Two tallies that agree on the five real classes get the same
    outcome from [calculate_proportions], whatever their [nodata] counts:
    the no-data pixels are counted but play no part in the proportions. *)
Theorem nodata_does_not_influence_proportions
  {F : Type} {ops : PyFloat F} (cc cc' : ClassCounts) :
  (forall class_name,
     class_name <> nodata -> get_count cc class_name = get_count cc' class_name) ->
  total_valid_pixels cc = total_valid_pixels cc'
  /\ calculate_proportions cc = calculate_proportions cc'.
Proof.
  intros Hagree.
  assert (Hf := Hagree forest ltac:(discriminate)).
  assert (Ha := Hagree agriculture ltac:(discriminate)).
  assert (Hd := Hagree developed ltac:(discriminate)).
  assert (Hw := Hagree wetland ltac:(discriminate)).
  assert (Ho := Hagree other ltac:(discriminate)).
  simpl in Hf, Ha, Hd, Hw, Ho.
  assert (Htotal : total_valid_pixels cc = total_valid_pixels cc').
  { rewrite !total_valid_pixels_eq. lia. }
  split; [exact Htotal|].
  unfold calculate_proportions. rewrite Htotal, Hf, Ha, Hd, Hw, Ho. reflexivity.
Qed.

(** C7 at two tallies that differ by 10 against 99999 no-data pixels, in
    binary64. *)
Lemma nodata_does_not_influence_proportions_witness :
  calculate_proportions (F:=spec_float)
    {| forest_count := 120; agriculture_count := 30; developed_count := 50;
       wetland_count := 0; other_count := 0; nodata_count := 10 |}
  = calculate_proportions
      {| forest_count := 120; agriculture_count := 30; developed_count := 50;
         wetland_count := 0; other_count := 0; nodata_count := 99999 |}.
Proof.
  apply (nodata_does_not_influence_proportions
           {| forest_count := 120; agriculture_count := 30; developed_count := 50;
              wetland_count := 0; other_count := 0; nodata_count := 10 |}
           {| forest_count := 120; agriculture_count := 30; developed_count := 50;
              wetland_count := 0; other_count := 0; nodata_count := 99999 |}).
  intros [] Hne; try reflexivity. congruence.
Defined.

(** C8.  The raw tally [{41: 120, 82: 30, 21: 50, 250: 10}]: 200 valid
    pixels, proportions 0.60, 0.15, 0.25, 0.0 and 0.0, which add up to
    1.00, in exact arithmetic and in binary64 alike. *)
Theorem scenario_mixed_county :
  tally NLCD_RECLASSIFICATION [(41, 120); (82, 30); (21, 50); (250, 10)]
  = {| forest_count := 120; agriculture_count := 30; developed_count := 50;
       wetland_count := 0; other_count := 0; nodata_count := 10 |}
  /\ total_valid_pixels
       (tally NLCD_RECLASSIFICATION [(41, 120); (82, 30); (21, 50); (250, 10)])
     = 200
  /\ calculate_proportions
       (tally NLCD_RECLASSIFICATION [(41, 120); (82, 30); (21, 50); (250, 10)])
     = Ok {| forest_proportion := (3 # 5)%Q;
             agriculture_proportion := (3 # 20)%Q;
             developed_proportion := (1 # 4)%Q;
             wetland_proportion := 0%Q;
             other_proportion := 0%Q |}
  /\ total_proportion
       {| forest_proportion := (3 # 5)%Q;
          agriculture_proportion := (3 # 20)%Q;
          developed_proportion := (1 # 4)%Q;
          wetland_proportion := 0%Q;
          other_proportion := 0%Q |} = 1%Q
  /\ calculate_proportions (F:=spec_float)
       (tally NLCD_RECLASSIFICATION [(41, 120); (82, 30); (21, 50); (250, 10)])
     = Ok {| forest_proportion := of_decimal 60 2;
             agriculture_proportion := of_decimal 15 2;
             developed_proportion := of_decimal 25 2;
             wetland_proportion := of_decimal 0 1;
             other_proportion := of_decimal 0 1 |}
  /\ total_proportion (F:=spec_float)
       {| forest_proportion := of_decimal 60 2;
          agriculture_proportion := of_decimal 15 2;
          developed_proportion := of_decimal 25 2;
          wetland_proportion := of_decimal 0 1;
          other_proportion := of_decimal 0 1 |} = of_decimal 100 2.
Proof. repeat split; vm_compute; reflexivity. Qed.

(** ** Reclassification *)

(** C3.  The fold through a table drops the codes that are not in it: an
    unmapped code changes no class count, the tally is that of the input
    with every unmapped entry removed, and so are the number of valid pixels
    and the proportions.  For [{41: 100, 999: 50}]: 100 valid pixels, a
    forest proportion of 1.0 and 0.0 for the other four classes. *)
Theorem unmapped_codes_are_dropped :
  (forall (table : gmap Z SemanticClass) (cc : ClassCounts) (value count : Z),
     table !! value = None -> tally_step table cc (value, count) = cc)
  /\ (forall (table : gmap Z SemanticClass) (pixel_counts : list (Z * Z)),
        tally table pixel_counts
        = tally table
            (filter (fun item => is_Some (table !! item.1)) pixel_counts))
  /\ (forall (F : Type) (ops : PyFloat F) (pixel_counts : list (Z * Z)),
        total_valid_pixels (tally NLCD_RECLASSIFICATION pixel_counts)
        = total_valid_pixels
            (tally NLCD_RECLASSIFICATION
               (filter (fun item => is_Some (NLCD_RECLASSIFICATION !! item.1))
                  pixel_counts))
        /\ calculate_proportions (tally NLCD_RECLASSIFICATION pixel_counts)
           = calculate_proportions
               (tally NLCD_RECLASSIFICATION
                  (filter (fun item => is_Some (NLCD_RECLASSIFICATION !! item.1))
                     pixel_counts)))
  /\ NLCD_RECLASSIFICATION !! 999 = None
  /\ tally NLCD_RECLASSIFICATION [(41, 100); (999, 50)]
     = {| forest_count := 100; agriculture_count := 0; developed_count := 0;
          wetland_count := 0; other_count := 0; nodata_count := 0 |}
  /\ total_valid_pixels (tally NLCD_RECLASSIFICATION [(41, 100); (999, 50)]) = 100
  /\ calculate_proportions (tally NLCD_RECLASSIFICATION [(41, 100); (999, 50)])
     = Ok {| forest_proportion := 1%Q; agriculture_proportion := 0%Q;
             developed_proportion := 0%Q; wetland_proportion := 0%Q;
             other_proportion := 0%Q |}
  /\ calculate_proportions (F:=spec_float)
       (tally NLCD_RECLASSIFICATION [(41, 100); (999, 50)])
     = Ok {| forest_proportion := of_decimal 10 1;
             agriculture_proportion := of_decimal 0 1;
             developed_proportion := of_decimal 0 1;
             wetland_proportion := of_decimal 0 1;
             other_proportion := of_decimal 0 1 |}.
Proof.
  split; [exact tally_step_unmapped|].
  split; [exact tally_filter_mapped|].
  split.
  { intros F ops pixel_counts.
    rewrite <- (tally_filter_mapped NLCD_RECLASSIFICATION pixel_counts).
    split; reflexivity. }
  repeat split; vm_compute; reflexivity.
Qed.

(** C3 at the code 999 with 50 pixels, on an empty tally. *)
Lemma unmapped_codes_are_dropped_witness :
  NLCD_RECLASSIFICATION !! 999 = None
  /\ tally_step NLCD_RECLASSIFICATION empty_counts (999, 50) = empty_counts.
Proof.
  split; [reflexivity|].
  apply (proj1 unmapped_codes_are_dropped). reflexivity.
Defined.

(** C10.  When no input count is negative the fold conserves the pixels:
    the count of each class is the sum of the counts of the codes that the
    table sends to it (a mapped code gives its whole count to its class and
    to no other), the six counts add up to the sum of the counts of the
    mapped codes, and no class count is negative. *)
Theorem tally_conserves_pixels
  (table : gmap Z SemanticClass) (pixel_counts : list (Z * Z)) :
  Forall (fun item => 0 <= item.2) pixel_counts ->
  (forall class_name,
     get_count (tally table pixel_counts) class_name
     = sum (map snd (filter (fun item => table !! item.1 = Some class_name)
                       pixel_counts)))
  /\ total_pixels (tally table pixel_counts)
     = sum (map snd (filter (fun item => is_Some (table !! item.1)) pixel_counts))
  /\ is_tally (tally table pixel_counts)
  /\ (forall cc value count class_name,
        table !! value = Some class_name ->
        get_count (tally_step table cc (value, count)) class_name
        = get_count cc class_name + count
        /\ forall class_name', class_name' <> class_name ->
             get_count (tally_step table cc (value, count)) class_name'
             = get_count cc class_name').
Proof.
  intros Hnonneg.
  split; [intros class_name; apply tally_class|].
  split; [apply tally_total|].
  split; [apply tally_nonneg; exact Hnonneg|].
  intros cc value count class_name. apply tally_step_mapped.
Qed.

(** C10 at [{41: 120, 82: 30, 21: 50, 999: 7, 250: 10}]: 210 pixels are
    kept, the 7 of the unmapped code are not. *)
Lemma tally_conserves_pixels_witness :
  Forall (fun item : Z * Z => 0 <= item.2)
    [(41, 120); (82, 30); (21, 50); (999, 7); (250, 10)]
  /\ total_pixels
       (tally NLCD_RECLASSIFICATION
          [(41, 120); (82, 30); (21, 50); (999, 7); (250, 10)])
     = sum (map snd
              (filter (fun item : Z * Z => is_Some (NLCD_RECLASSIFICATION !! item.1))
                 [(41, 120); (82, 30); (21, 50); (999, 7); (250, 10)])).
Proof.
  assert (Hnonneg : Forall (fun item : Z * Z => 0 <= item.2)
                      [(41, 120); (82, 30); (21, 50); (999, 7); (250, 10)]).
  { repeat constructor; simpl; lia. }
  split; [exact Hnonneg|].
  apply (tally_conserves_pixels NLCD_RECLASSIFICATION
           [(41, 120); (82, 30); (21, 50); (999, 7); (250, 10)] Hnonneg).
Defined.

(** ** The run over a batch of counties *)

Section Batch.
Context {F : Type} {ops : PyFloat F}.
Context {Geometry : Type}.

(** What the loop prints for a county is part of what it prints for the
    batch. *)
Lemma loop_log_county (zonal_stats : nat -> Geometry -> Py (list (list (Z * Z))))
  (n i : nat) (counties : list (County Geometry)) (county : County Geometry)
  (line : Output F) :
  counties !! i = Some county ->
  In line (county_log (zonal_stats (n + i)%nat (geometry county)) (GEOID county)) ->
  In line (loop_log zonal_stats n counties).
Proof.
  revert n i. induction counties as [|c rest IH]; intros n i Hlook Hin.
  - discriminate.
  - simpl. apply in_or_app. destruct i as [|i]; simpl in Hlook.
    + injection Hlook as ->. left. rewrite Nat.add_0_r in Hin. exact Hin.
    + right. apply (IH (S n) i Hlook).
      replace (S n + i)%nat with (n + S i)%nat by lia. exact Hin.
Qed.

(** The records of the loop depend on the sampling only through the
    outcome of each county's own call. *)
Lemma loop_results_agree
  (zonal_stats zonal_stats' : nat -> Geometry -> Py (list (list (Z * Z))))
  (n j : nat) (counties : list (County Geometry)) :
  (forall county, counties !! j = Some county ->
     zonal_stats' (n + j)%nat (geometry county)
     = zonal_stats (n + j)%nat (geometry county)) ->
  loop_results zonal_stats' n counties !! j
  = loop_results zonal_stats n counties !! j.
Proof.
  intros Hagree. rewrite !loop_results_lookup.
  destruct (counties !! j) as [county|] eqn:Hlook; [|reflexivity].
  simpl. rewrite (Hagree county eq_refl). reflexivity.
Qed.

(** The records and the outcome of a run, whatever the batch. *)
Lemma run_results (zonal_stats : nat -> Geometry -> Py (list (list (Z * Z))))
  (counties : list (County Geometry)) (w : World F) :
  results (process_county_landcover zonal_stats counties w).2
  = loop_results zonal_stats (samplings w) counties.
Proof.
  destruct counties as [|c rest].
  - rewrite process_county_landcover_empty. reflexivity.
  - rewrite process_county_landcover_spec by discriminate. reflexivity.
Qed.

End Batch.

(** C4.  In a batch of N counties, let the sampling of county [i] raise
    [e] while every other county is sampled as in a reference run.  The run
    ends normally with N records and writes them; record [i] carries the
    identifier of county [i] with five proportions of 0.0; the failure is
    printed with that identifier; every other record is the one of the
    reference run. *)
Theorem sampling_failure_is_isolated
  {F : Type} {ops : PyFloat F} {Geometry : Type}
  (zonal_stats zonal_stats' : nat -> Geometry -> Py (list (list (Z * Z))))
  (counties : list (County Geometry)) (w : World F)
  (i : nat) (county : County Geometry) (e : Exception) :
  counties !! i = Some county ->
  zonal_stats' (samplings w + i)%nat (geometry county) = Raise e ->
  (forall j c, j <> i -> counties !! j = Some c ->
     zonal_stats' (samplings w + j)%nat (geometry c)
     = zonal_stats (samplings w + j)%nat (geometry c)) ->
  (process_county_landcover zonal_stats' counties w).1 = Ok tt
  /\ length (results (process_county_landcover zonal_stats' counties w).2)
     = length counties
  /\ results (process_county_landcover zonal_stats' counties w).2 !! i
     = Some {| county_fips := GEOID county;
               proportions :=
                 {| forest_proportion := of_decimal 0 1;
                    agriculture_proportion := of_decimal 0 1;
                    developed_proportion := of_decimal 0 1;
                    wetland_proportion := of_decimal 0 1;
                    other_proportion := of_decimal 0 1 |} |}
  /\ In (Line ("Error processing county " +:+ GEOID county +:+ ": " +:+ str e))
       (stdout (process_county_landcover zonal_stats' counties w).2)
  /\ (forall j, j <> i ->
        results (process_county_landcover zonal_stats' counties w).2 !! j
        = results (process_county_landcover zonal_stats counties w).2 !! j)
  /\ files (process_county_landcover zonal_stats' counties w).2 !! OUTPUT_CSV_PATH
     = Some (pd_DataFrame
               (results (process_county_landcover zonal_stats' counties w).2)).
Proof.
  intros Hlook Hraise Hothers.
  assert (Hne : counties <> []) by (intros ->; discriminate).
  rewrite !run_results.
  rewrite (process_county_landcover_spec zonal_stats' counties w Hne).
  cbn [fst snd results stdout files].
  split; [reflexivity|].
  split; [apply loop_results_length|].
  split.
  { rewrite loop_results_lookup, Hlook. simpl. rewrite Hraise. reflexivity. }
  split.
  { apply in_or_app. right. apply in_or_app. right. apply in_or_app. left.
    apply (loop_log_county zonal_stats' (samplings w) i counties county);
      [exact Hlook|].
    rewrite Hraise. left. reflexivity. }
  split.
  { intros j Hj. apply loop_results_agree. intros c Hc. apply Hothers; assumption. }
  apply lookup_insert_eq.
Qed.

(** C4 on the sample batch, with an I/O error at the second county. *)
Lemma sampling_failure_is_isolated_witness :
  length (results (process_county_landcover (F:=spec_float)
                     failing_raster sample_counties initial_world).2) = 3%nat
  /\ results (process_county_landcover (F:=spec_float)
                failing_raster sample_counties initial_world).2 !! 0%nat
     = results (process_county_landcover
                  sample_raster sample_counties initial_world).2 !! 0%nat.
Proof.
  destruct (sampling_failure_is_isolated (F:=spec_float)
              sample_raster failing_raster sample_counties initial_world
              1 {| GEOID := "01003"; geometry := 2%nat |}
              (OtherError "Read failed"))
    as [_ [Hlen [_ [_ [Hothers _]]]]].
  - reflexivity.
  - reflexivity.
  - intros j c Hj _. unfold failing_raster. simpl.
    destruct (Nat.eqb_spec j 1) as [Heq|_]; [contradiction|reflexivity].
  - split; [exact Hlen|]. apply Hothers. discriminate.
Defined.

(** C5.  For every sequence of counties the run leaves exactly one record
    per county, in the order of the input: record [i] is the one that
    county [i] gets from its own sampling (the [i]-th of the run), be it a
    success, an empty sampling or a failure, and it carries the identifier
    of county [i]; the frame built from the records has as many rows, and
    its identifier column is that of the input. *)
Theorem output_table_follows_input_order
  {F : Type} {ops : PyFloat F} {Geometry : Type}
  (zonal_stats : nat -> Geometry -> Py (list (list (Z * Z))))
  (counties : list (County Geometry)) (w : World F) :
  length (results (process_county_landcover zonal_stats counties w).2)
  = length counties
  /\ map county_fips (results (process_county_landcover zonal_stats counties w).2)
     = map GEOID counties
  /\ (forall i,
        results (process_county_landcover zonal_stats counties w).2 !! i
        = (fun county =>
             aggregate (zonal_stats (samplings w + i)%nat (geometry county))
               (GEOID county))
          <$> counties !! i)
  /\ (forall sampled fips, county_fips (aggregate (F:=F) sampled fips) = fips)
  /\ len (pd_DataFrame (results (process_county_landcover zonal_stats counties w).2))
     = length counties
  /\ (counties <> [] ->
      getitem
        (pd_DataFrame (results (process_county_landcover zonal_stats counties w).2))
        "county_fips"
      = Ok (StrCol (map GEOID counties))).
Proof.
  rewrite run_results.
  split; [apply loop_results_length|].
  split; [apply loop_results_fips|].
  split; [intros i; apply loop_results_lookup|].
  split; [intros sampled fips; apply aggregate_fips|].
  split.
  - destruct counties as [|c rest]; [reflexivity|].
    simpl. rewrite length_map, loop_results_length. reflexivity.
  - intros Hne.
    rewrite pd_DataFrame_nonempty by (apply loop_results_nonempty; exact Hne).
    simpl. rewrite loop_results_fips. reflexivity.
Qed.

(** C9, as amended.  For every batch of at least one county the run ends
    normally, and the file it writes is the frame built from the records of
    the aggregation, untouched by the validation whatever it flagged: the
    six columns of the schema, without [total_proportion], and in each
    column the values of the records. *)
Theorem validation_leaves_table_unchanged
  {F : Type} {ops : PyFloat F} {Geometry : Type}
  (zonal_stats : nat -> Geometry -> Py (list (list (Z * Z))))
  (counties : list (County Geometry)) (w : World F) :
  counties <> [] ->
  (process_county_landcover zonal_stats counties w).1 = Ok tt
  /\ results (process_county_landcover zonal_stats counties w).2
     = loop_results zonal_stats (samplings w) counties
  /\ files (process_county_landcover zonal_stats counties w).2 !! OUTPUT_CSV_PATH
     = Some (pd_DataFrame (loop_results zonal_stats (samplings w) counties))
  /\ map fst (pd_DataFrame (loop_results zonal_stats (samplings w) counties))
     = [ "county_fips"; "forest_proportion"; "agriculture_proportion";
         "developed_proportion"; "wetland_proportion"; "other_proportion" ]
  /\ getitems (pd_DataFrame (loop_results zonal_stats (samplings w) counties))
       proportion_cols
     = Ok [ ("forest_proportion",
             NumCol (map (fun r => forest_proportion (proportions r))
                       (loop_results zonal_stats (samplings w) counties)));
            ("agriculture_proportion",
             NumCol (map (fun r => agriculture_proportion (proportions r))
                       (loop_results zonal_stats (samplings w) counties)));
            ("developed_proportion",
             NumCol (map (fun r => developed_proportion (proportions r))
                       (loop_results zonal_stats (samplings w) counties)));
            ("wetland_proportion",
             NumCol (map (fun r => wetland_proportion (proportions r))
                       (loop_results zonal_stats (samplings w) counties)));
            ("other_proportion",
             NumCol (map (fun r => other_proportion (proportions r))
                       (loop_results zonal_stats (samplings w) counties))) ].
Proof.
  intros Hne.
  pose proof (loop_results_nonempty zonal_stats (samplings w) counties Hne) as Hrs.
  rewrite (process_county_landcover_spec zonal_stats counties w Hne).
  cbn [fst snd results files].
  split; [reflexivity|]. split; [reflexivity|].
  split; [apply lookup_insert_eq|].
  split; [apply pd_DataFrame_columns; exact Hrs|].
  rewrite (pd_DataFrame_nonempty _ Hrs). reflexivity.
Qed.

(** C9 on the sample batch, where the validation flags the second county. *)
Lemma validation_leaves_table_unchanged_witness :
  sample_counties <> []
  /\ files (process_county_landcover (F:=spec_float)
              sample_raster sample_counties initial_world).2 !! OUTPUT_CSV_PATH
     = Some (pd_DataFrame (loop_results sample_raster 0 sample_counties)).
Proof.
  split; [discriminate|].
  apply (validation_leaves_table_unchanged (F:=spec_float)
           sample_raster sample_counties initial_world).
  discriminate.
Defined.

(** C9 as stated fails on the empty batch: the frame has no column, the
    validation raises [KeyError] and no file is written. *)
Lemma validation_raises_on_empty_batch :
  (process_county_landcover (F:=spec_float) sample_raster [] initial_world).1
  = Raise (KeyError "forest_proportion")
  /\ files (process_county_landcover (F:=spec_float)
              sample_raster [] initial_world).2 !! OUTPUT_CSV_PATH
     = None.
Proof. split; reflexivity. Qed.

(** ** The partition validator *)

(** In binary64 the row total is the sum from left to right, from [0.0],
    in which a NaN cell is left out. *)
Lemma binary64_total (p : Proportions spec_float) :
  total_proportion p
  = fold_left
      (fun acc x => match x with S754_nan => acc | _ => SFadd 53 1024 acc x end)
      [ forest_proportion p; agriculture_proportion p; developed_proportion p;
        wetland_proportion p; other_proportion p ]
      (S754_zero false).
Proof.
  assert (Hstep : forall acc x : spec_float,
             nan_add acc x
             = match x with S754_nan => acc | _ => SFadd 53 1024 acc x end).
  { intros acc x. destruct x; reflexivity. }
  unfold total_proportion. cbn [fold_left]. rewrite !Hstep. reflexivity.
Qed.

(** C6.  The validator flags a record if and only if the sum of its five
    proportions is strictly below 0.99 or strictly above 1.01.  On a
    frame of records [validate] selects exactly the rows whose row test
    [flagged] holds, in order.  In exact arithmetic the row total is
    [forest + agriculture + developed + wetland + other] and the test
    holds if and only if this sum is below 99/100 or above 101/100; in
    binary64 the row total is the sum from left to right from [0.0]
    (without the NaN cells) and the test holds if and only if it is below
    the double of 0.99 or above the double of 1.01.  Both bounds are
    strict: totals of exactly 0.99 and 1.01 are not flagged, 0.98 and 1.02
    are; a record of 0.60, 0.15 and 0.25 is not flagged, and the all-zero
    record, whose total is 0.0, is. *)
Theorem validator_flags_outside_tolerance :
  (forall (F : Type) (ops : PyFloat F) (results : list (CountyRecord F)),
     results <> [] ->
     validate (pd_DataFrame results)
     = Ok (with_total results,
           getitem_mask (with_total results)
             (map (fun r => flagged (proportions r)) results))
     /\ getitems
          (getitem_mask (with_total results)
             (map (fun r => flagged (proportions r)) results))
          ["county_fips"; "total_proportion"]
        = Ok [ ("county_fips",
                StrCol (map county_fips
                          (List.filter (fun r => flagged (proportions r)) results)));
               ("total_proportion",
                NumCol (map (fun r => total_proportion (proportions r))
                          (List.filter (fun r => flagged (proportions r))
                             results))) ])
  /\ (forall p : Proportions Q,
        flagged p = true
        <-> (total_proportion p < 0.99 \/ 1.01 < total_proportion p)%Q)
  /\ (forall p : Proportions spec_float,
        flagged p = true
        <-> SFltb (total_proportion p) (of_decimal 99 2) = true
            \/ SFltb (of_decimal 101 2) (total_proportion p) = true)
  /\ total_proportion (F:=Q) zero_proportions = 0%Q
  /\ flagged (F:=Q) zero_proportions = true
  /\ total_proportion (F:=spec_float) zero_proportions = S754_zero false
  /\ flagged (F:=spec_float) zero_proportions = true
  /\ (forall p : Proportions Q,
        (total_proportion p
         == forest_proportion p + agriculture_proportion p
            + developed_proportion p + wetland_proportion p
            + other_proportion p)%Q
        /\ (flagged p = true
            <-> (forest_proportion p + agriculture_proportion p
                 + developed_proportion p + wetland_proportion p
                 + other_proportion p < 99 # 100
                 \/ 101 # 100
                    < forest_proportion p + agriculture_proportion p
                      + developed_proportion p + wetland_proportion p
                      + other_proportion p)%Q))
  /\ (forall p : Proportions spec_float,
        total_proportion p
        = fold_left
            (fun acc x =>
               match x with S754_nan => acc | _ => SFadd 53 1024 acc x end)
            [ forest_proportion p; agriculture_proportion p;
              developed_proportion p; wetland_proportion p; other_proportion p ]
            (S754_zero false)
        /\ (flagged p = true
            <-> SFltb
                  (fold_left
                     (fun acc x =>
                        match x with S754_nan => acc | _ => SFadd 53 1024 acc x end)
                     [ forest_proportion p; agriculture_proportion p;
                       developed_proportion p; wetland_proportion p;
                       other_proportion p ]
                     (S754_zero false))
                  (S754_finite false 8917127262193582 (-53)) = true
                \/ SFltb (S754_finite false 4548635623644201 (-52))
                     (fold_left
                        (fun acc x =>
                           match x with
                           | S754_nan => acc
                           | _ => SFadd 53 1024 acc x
                           end)
                        [ forest_proportion p; agriculture_proportion p;
                          developed_proportion p; wetland_proportion p;
                          other_proportion p ]
                        (S754_zero false)) = true))
  /\ (forall p : Proportions spec_float,
        forest_proportion p <> S754_nan -> agriculture_proportion p <> S754_nan ->
        developed_proportion p <> S754_nan -> wetland_proportion p <> S754_nan ->
        other_proportion p <> S754_nan ->
        total_proportion p
        = SFadd 53 1024
            (SFadd 53 1024
               (SFadd 53 1024
                  (SFadd 53 1024
                     (SFadd 53 1024 (S754_zero false) (forest_proportion p))
                     (agriculture_proportion p))
                  (developed_proportion p))
               (wetland_proportion p))
            (other_proportion p))
  /\ (flagged (F:=Q)
        {| forest_proportion := (60 # 100)%Q; agriculture_proportion := (15 # 100)%Q;
           developed_proportion := (25 # 100)%Q; wetland_proportion := 0%Q;
           other_proportion := 0%Q |} = false
      /\ flagged (F:=Q)
           {| forest_proportion := (99 # 100)%Q; agriculture_proportion := 0%Q;
              developed_proportion := 0%Q; wetland_proportion := 0%Q;
              other_proportion := 0%Q |} = false
      /\ flagged (F:=Q)
           {| forest_proportion := (98 # 100)%Q; agriculture_proportion := 0%Q;
              developed_proportion := 0%Q; wetland_proportion := 0%Q;
              other_proportion := 0%Q |} = true
      /\ flagged (F:=Q)
           {| forest_proportion := (101 # 100)%Q; agriculture_proportion := 0%Q;
              developed_proportion := 0%Q; wetland_proportion := 0%Q;
              other_proportion := 0%Q |} = false
      /\ flagged (F:=Q)
           {| forest_proportion := (102 # 100)%Q; agriculture_proportion := 0%Q;
              developed_proportion := 0%Q; wetland_proportion := 0%Q;
              other_proportion := 0%Q |} = true)
  /\ (total_proportion (F:=spec_float)
        {| forest_proportion := of_decimal 60 2;
           agriculture_proportion := of_decimal 15 2;
           developed_proportion := of_decimal 25 2;
           wetland_proportion := of_decimal 0 1;
           other_proportion := of_decimal 0 1 |}
      = S754_finite false 4503599627370496 (-52)
      /\ flagged (F:=spec_float)
           {| forest_proportion := of_decimal 60 2;
              agriculture_proportion := of_decimal 15 2;
              developed_proportion := of_decimal 25 2;
              wetland_proportion := of_decimal 0 1;
              other_proportion := of_decimal 0 1 |} = false
      /\ flagged (F:=spec_float)
           {| forest_proportion := of_decimal 99 2;
              agriculture_proportion := of_decimal 0 1;
              developed_proportion := of_decimal 0 1;
              wetland_proportion := of_decimal 0 1;
              other_proportion := of_decimal 0 1 |} = false
      /\ flagged (F:=spec_float)
           {| forest_proportion := of_decimal 98 2;
              agriculture_proportion := of_decimal 0 1;
              developed_proportion := of_decimal 0 1;
              wetland_proportion := of_decimal 0 1;
              other_proportion := of_decimal 0 1 |} = true
      /\ flagged (F:=spec_float)
           {| forest_proportion := of_decimal 101 2;
              agriculture_proportion := of_decimal 0 1;
              developed_proportion := of_decimal 0 1;
              wetland_proportion := of_decimal 0 1;
              other_proportion := of_decimal 0 1 |} = false
      /\ flagged (F:=spec_float)
           {| forest_proportion := of_decimal 102 2;
              agriculture_proportion := of_decimal 0 1;
              developed_proportion := of_decimal 0 1;
              wetland_proportion := of_decimal 0 1;
              other_proportion := of_decimal 0 1 |} = true).
Proof.
  split.
  { intros F ops results Hne. split.
    - apply validate_spec. exact Hne.
    - apply invalid_counties_spec. exact Hne. }
  split.
  { intros p. unfold flagged. rewrite orb_true_iff.
    cbn [flt ExactQ]. rewrite !Q_lt_spec. reflexivity. }
  split.
  { intros p. unfold flagged. rewrite orb_true_iff. reflexivity. }
  do 4 (split; [vm_compute; reflexivity|]).
  split.
  { intros p. split; [apply Q_total_proportion|].
    unfold flagged. rewrite orb_true_iff. cbn [flt ExactQ]. rewrite !Q_lt_spec.
    change (@of_decimal Q ExactQ 99 2) with (99 # 100).
    change (@of_decimal Q ExactQ 101 2) with (101 # 100).
    rewrite (Q_total_proportion p). reflexivity. }
  split.
  { intros p. split; [apply binary64_total|].
    rewrite <- binary64_total. unfold flagged. rewrite orb_true_iff.
    reflexivity. }
  split.
  { intros p Hf Ha Hd Hw Ho. rewrite binary64_total. cbn [fold_left].
    destruct (forest_proportion p); try congruence;
      destruct (agriculture_proportion p); try congruence;
      destruct (developed_proportion p); try congruence;
      destruct (wetland_proportion p); try congruence;
      destruct (other_proportion p); try congruence; reflexivity. }
  split; repeat split; vm_compute; reflexivity.
Qed.

(** C6 on two records: the validation of their frame selects the all-zero
    record, with its total 0.0, and leaves out the record with the
    proportions 0.60, 0.15 and 0.25. *)
Lemma validator_flags_outside_tolerance_witness :
  exists results_df invalid_counties : DataFrame spec_float,
    validate
      (pd_DataFrame
         [ {| county_fips := "01001";
              proportions :=
                {| forest_proportion := of_decimal 60 2;
                   agriculture_proportion := of_decimal 15 2;
                   developed_proportion := of_decimal 25 2;
                   wetland_proportion := of_decimal 0 1;
                   other_proportion := of_decimal 0 1 |} |};
           degenerate "01003" ])
    = Ok (results_df, invalid_counties)
    /\ getitems invalid_counties ["county_fips"; "total_proportion"]
       = Ok [ ("county_fips", StrCol ["01003"]);
              ("total_proportion", NumCol [S754_zero false]) ].
Proof.
  destruct (proj1 validator_flags_outside_tolerance spec_float _
              [ {| county_fips := "01001";
                   proportions :=
                     {| forest_proportion := of_decimal 60 2;
                        agriculture_proportion := of_decimal 15 2;
                        developed_proportion := of_decimal 25 2;
                        wetland_proportion := of_decimal 0 1;
                        other_proportion := of_decimal 0 1 |} |};
                degenerate "01003" ]
              ltac:(discriminate)) as [Hvalidate Hselect].
  eexists _, _. split; [exact Hvalidate|].
  rewrite Hselect. vm_compute. reflexivity.
Defined.

(** ** Further properties *)

(** Counting one more value adds one to the counts of the values that
    satisfy a test, when the value does. *)
Lemma count_value_sum (P : Z -> Prop) `{!forall v, Decision (P v)}
  (v : Z) (uniq : list (Z * Z)) :
  sum (map snd (filter (fun item => P item.1) (count_value v uniq)))
  = sum (map snd (filter (fun item => P item.1) uniq))
    + (if decide (P v) then 1 else 0).
Proof.
  induction uniq as [|[u c] rest IH]; simpl.
  - rewrite filter_cons, filter_nil. simpl.
    destruct (decide (P v)); simpl; rewrite ?sum_cons, ?sum_nil; lia.
  - destruct (v <? u) eqn:Hlt.
    + rewrite (filter_cons _ (v, 1)). simpl.
      destruct (decide (P v)); simpl; rewrite ?sum_cons; lia.
    + destruct (v =? u) eqn:Heq.
      * apply Z.eqb_eq in Heq. subst u. rewrite !filter_cons. simpl.
        destruct (decide (P v)); simpl; rewrite ?sum_cons; lia.
      * rewrite !filter_cons. simpl.
        destruct (decide (P u)); simpl; rewrite ?sum_cons, IH; lia.
Qed.

Lemma np_unique_counts_sum (P : Z -> Prop) `{!forall v, Decision (P v)}
  (values : list Z) :
  sum (map snd (filter (fun item => P item.1) (np_unique_counts values)))
  = Z.of_nat (length (filter P values)).
Proof.
  induction values as [|v rest IH]; [reflexivity|].
  simpl. rewrite count_value_sum, IH, filter_cons.
  destruct (decide (P v)); simpl; lia.
Qed.

Lemma filter_nonzero (P : Z -> Prop) `{!forall v, Decision (P v)} (array : list Z) :
  filter P (List.filter (fun v => negb (v =? 0)) array)
  = filter (fun v => v <> 0 /\ P v) array.
Proof.
  induction array as [|v rest IH]; [reflexivity|].
  simpl. rewrite (filter_cons (fun v => v <> 0 /\ P v)).
  destruct (Z.eqb_spec v 0) as [Hz|Hz]; simpl.
  - destruct (decide (v <> 0 /\ P v)) as [[Hne _]|_]; [contradiction|exact IH].
  - rewrite filter_cons.
    destruct (decide (P v)) as [Hp|Hp];
      destruct (decide (v <> 0 /\ P v)) as [Hq|Hq];
      try (rewrite IH; reflexivity); try exact IH.
    + exfalso. apply Hq. split; assumption.
    + exfalso. apply Hp. apply Hq.
Qed.

(** X1.  [reclassify_array] counts, for each class, the cells of the array
    that are not 0 and whose code the table sends to that class. *)
Theorem reclassify_array_counts_cells
  (array : list Z) (reclassification_map : gmap Z SemanticClass)
  (class_name : SemanticClass) :
  get_count (reclassify_array array reclassification_map) class_name
  = Z.of_nat
      (length (filter (fun v => v <> 0 /\ reclassification_map !! v = Some class_name)
                 array)).
Proof.
  unfold reclassify_array. rewrite tally_class.
  etransitivity;
    [exact (np_unique_counts_sum
              (fun v => reclassification_map !! v = Some class_name) _)|].
  rewrite filter_nonzero. reflexivity.
Qed.

(** X3.  No exception escapes the loop over the counties: whatever the
    samplings do, it ends normally after one sampling per county. *)
Theorem loop_never_raises
  {F : Type} {ops : PyFloat F} {Geometry : Type}
  (zonal_stats : nat -> Geometry -> Py (list (list (Z * Z))))
  (counties : list (County Geometry)) (w : World F) :
  (for_each counties (process_county zonal_stats) w).1 = Ok tt
  /\ samplings (for_each counties (process_county zonal_stats) w).2
     = (samplings w + length counties)%nat
  /\ files (for_each counties (process_county zonal_stats) w).2 = files w.
Proof. rewrite for_each_process_county. repeat split. Qed.

(** ** Flagged records and counties without data *)

(** Without a valid pixel the record is the degenerate one, in any float
    model. *)
Lemma aggregate_without_valid_pixels {F : Type} {ops : PyFloat F}
  (sampled : Py (list (list (Z * Z)))) (fips : string) :
  counts_nonnegative sampled ->
  has_valid_pixels sampled = false ->
  aggregate sampled fips = degenerate fips.
Proof.
  intros Hnn Hno. unfold aggregate. destruct sampled as [stats|e]; [|reflexivity].
  destruct (no_raster_data stats) eqn:Hnrd; [reflexivity|].
  unfold has_valid_pixels in Hno. rewrite Hnrd in Hno. simpl in Hno.
  apply Z.ltb_ge in Hno.
  pose proof (tally_nonneg NLCD_RECLASSIFICATION (hd [] stats) (Hnn stats eq_refl))
    as Htally.
  assert (Hzero : total_valid_pixels (tally NLCD_RECLASSIFICATION (hd [] stats)) = 0).
  { pose proof (Htally forest). pose proof (Htally agriculture).
    pose proof (Htally developed). pose proof (Htally wetland).
    pose proof (Htally other). rewrite total_valid_pixels_eq in *. simpl in *. lia. }
  unfold calculate_proportions. rewrite Hzero. reflexivity.
Qed.

Lemma has_valid_pixels_positive (sampled : Py (list (list (Z * Z)))) :
  has_valid_pixels sampled = true ->
  exists stats,
    sampled = Ok stats /\ no_raster_data stats = false
    /\ 0 < total_valid_pixels (tally NLCD_RECLASSIFICATION (hd [] stats)).
Proof.
  destruct sampled as [stats|e]; [|discriminate]. simpl.
  intros H. apply andb_true_iff in H as [H1 H2].
  exists stats. split; [reflexivity|]. split.
  - apply negb_true_iff. exact H1.
  - apply Z.ltb_lt. exact H2.
Qed.

(** With a valid pixel the exact proportions add up to 1. *)
Lemma aggregate_with_valid_pixels_Q
  (sampled : Py (list (list (Z * Z)))) (fips : string) :
  counts_nonnegative sampled ->
  has_valid_pixels sampled = true ->
  (total_proportion (proportions (aggregate (F:=Q) sampled fips)) == 1)%Q.
Proof.
  intros Hnn Hyes.
  destruct (has_valid_pixels_positive sampled Hyes) as [stats [-> [Hnrd Hpos]]].
  unfold aggregate. rewrite Hnrd.
  pose proof (tally_nonneg NLCD_RECLASSIFICATION (hd [] stats) (Hnn stats eq_refl))
    as Htally.
  set (cc := tally NLCD_RECLASSIFICATION (hd [] stats)) in *.
  pose proof (total_valid_pixels_eq cc) as Htotal.
  pose proof (Htally forest) as Hf. pose proof (Htally agriculture) as Ha.
  pose proof (Htally developed) as Hd. pose proof (Htally wetland) as Hw.
  pose proof (Htally other) as Ho. simpl in Hf, Ha, Hd, Hw, Ho.
  unfold calculate_proportions.
  destruct (total_valid_pixels cc =? 0) eqn:Hzero;
    [apply Z.eqb_eq in Hzero; lia|].
  cbn [truediv ExactQ]. rewrite !Q_truediv_positive by exact Hpos.
  cbn [mbind Py_bind mret Py_ret proportions].
  rewrite Q_total_proportion.
  cbn [forest_proportion agriculture_proportion developed_proportion
       wetland_proportion other_proportion].
  rewrite !Qred_correct, Htotal. apply ratios_sum. lia.
Qed.

Lemma flagged_Q_total (p : Proportions Q) :
  (total_proportion p == 1)%Q -> flagged p = false.
Proof.
  intros Hsum. unfold flagged. cbn [flt ExactQ].
  apply orb_false_iff. split; apply not_true_iff_false; rewrite Q_lt_spec, Hsum;
    discriminate.
Qed.

(** With a valid pixel the binary64 record is not flagged, and its total
    is positive. *)
Lemma aggregate_with_valid_pixels_binary64
  (sampled : Py (list (list (Z * Z)))) (fips : string) :
  counts_nonnegative sampled ->
  counts_below (2 ^ 1000) sampled ->
  has_valid_pixels sampled = true ->
  flagged (proportions (aggregate (F:=spec_float) sampled fips)) = false
  /\ SFltb (S754_zero false)
       (total_proportion (proportions (aggregate (F:=spec_float) sampled fips)))
     = true.
Proof.
  intros Hnn Hbelow Hyes.
  destruct (has_valid_pixels_positive sampled Hyes) as [stats [-> [Hnrd Hpos]]].
  unfold aggregate. rewrite Hnrd.
  pose proof (tally_nonneg NLCD_RECLASSIFICATION (hd [] stats) (Hnn stats eq_refl))
    as Htally.
  destruct (Binary64Facts.binary64_partition _ Htally
              (conj Hpos (Hbelow stats eq_refl)))
    as [p [-> [_ [_ [_ [_ [_ [_ [Hlow [_ Hflag]]]]]]]]]].
  cbn [proportions]. split; [exact Hflag|].
  change (@of_decimal spec_float Binary64.ops 99 2)
    with (S754_finite false 8917127262193582 (-53)) in Hlow.
  destruct (total_proportion p) as [s|s| |s m e]; try discriminate Hlow.
  - destruct s; [discriminate Hlow|reflexivity].
  - destruct s; [discriminate Hlow|reflexivity].
Qed.

Lemma take_constant {A B} (z : B) (n : nat) (l : list A) :
  take n (map (fun _ => z) l) = replicate (length (take n l)) z.
Proof.
  revert n. induction l as [|x l IH]; intros [|n]; simpl; try reflexivity.
  rewrite IH. reflexivity.
Qed.

Section Flags.
Context {F : Type} {ops : PyFloat F}.
Context {Geometry : Type}.
Variable zonal_stats : nat -> Geometry -> Py (list (list (Z * Z))).

(** What the two float models show of the row test. *)
Variable admissible : Py (list (list (Z * Z))) -> Prop.
Hypothesis admissible_nonnegative :
  forall sampled, admissible sampled -> counts_nonnegative sampled.
Hypothesis flagged_zero : flagged (F:=F) zero_proportions = true.
Hypothesis unflagged_valid :
  forall sampled fips,
    admissible sampled -> has_valid_pixels sampled = true ->
    flagged (proportions (aggregate (F:=F) sampled fips)) = false.

Lemma aggregate_flag sampled fips :
  admissible sampled ->
  flagged (proportions (aggregate (F:=F) sampled fips))
  = negb (has_valid_pixels sampled)
  /\ (has_valid_pixels sampled = false ->
      aggregate (F:=F) sampled fips = degenerate fips).
Proof.
  intros Hadm. destruct (has_valid_pixels sampled) eqn:Hvalid.
  - split; [|discriminate]. apply unflagged_valid; assumption.
  - pose proof (aggregate_without_valid_pixels (F:=F) sampled fips
                  (admissible_nonnegative _ Hadm) Hvalid) as Hdeg.
    split; [|intros _; exact Hdeg].
    rewrite Hdeg. exact flagged_zero.
Qed.

Lemma loop_flags (n : nat) (counties : list (County Geometry)) :
  Forall admissible (loop_samplings zonal_stats n counties) ->
  map (fun r => flagged (proportions r)) (loop_results (F:=F) zonal_stats n counties)
  = map (fun s => negb (has_valid_pixels s)) (loop_samplings zonal_stats n counties).
Proof.
  revert n. induction counties as [|c rest IH]; intros n Hall; [reflexivity|].
  simpl in *. inversion Hall as [|? ? Hc Hrest]; subst.
  rewrite (IH _ Hrest). f_equal. apply aggregate_flag. exact Hc.
Qed.

Lemma loop_flagged_degenerate (n : nat) (counties : list (County Geometry)) :
  Forall admissible (loop_samplings zonal_stats n counties) ->
  Forall (fun r => flagged (proportions r) = true ->
                   proportions r = zero_proportions)
    (loop_results (F:=F) zonal_stats n counties).
Proof.
  revert n. induction counties as [|c rest IH]; intros n Hall; [constructor|].
  simpl in *. inversion Hall as [|? ? Hc Hrest]; subst.
  constructor; [|apply IH; exact Hrest].
  intros Hflag. destruct (aggregate_flag (zonal_stats n (geometry c)) (GEOID c) Hc)
    as [Heq Hdeg].
  rewrite Heq in Hflag. apply negb_true_iff in Hflag.
  rewrite (Hdeg Hflag). reflexivity.
Qed.

Lemma loop_invalid (n : nat) (counties : list (County Geometry)) :
  Forall admissible (loop_samplings zonal_stats n counties) ->
  List.filter (fun r => flagged (proportions r))
    (loop_results (F:=F) zonal_stats n counties)
  = map degenerate (fips_without_data zonal_stats n counties).
Proof.
  revert n. induction counties as [|c rest IH]; intros n Hall; [reflexivity|].
  simpl in *. inversion Hall as [|? ? Hc Hrest]; subst.
  destruct (aggregate_flag (zonal_stats n (geometry c)) (GEOID c) Hc) as [Heq Hdeg].
  rewrite Heq. destruct (has_valid_pixels (zonal_stats n (geometry c))); simpl.
  - apply IH. exact Hrest.
  - rewrite (Hdeg eq_refl), (IH _ Hrest). reflexivity.
Qed.

Hypothesis total_zero : total_proportion (F:=F) zero_proportions = zero.

(** The validation reports the counties without data. *)
Lemma loop_validation_report (n : nat) (counties : list (County Geometry)) :
  Forall admissible (loop_samplings zonal_stats n counties) ->
  validation_report (loop_results (F:=F) zonal_stats n counties)
  = missing_data_report (fips_without_data zonal_stats n counties).
Proof.
  intros Hall. unfold validation_report, missing_data_report.
  rewrite (loop_invalid n counties Hall), length_map.
  destruct (bool_decide _); [|reflexivity].
  rewrite !map_map. cbn [county_fips proportions degenerate].
  rewrite map_id, total_zero, take_constant. reflexivity.
Qed.

Hypothesis zero_not_positive :
  flt (of_decimal 0 0) (total_proportion (F:=F) zero_proportions) = false.
Hypothesis positive_valid :
  forall sampled fips,
    admissible sampled -> has_valid_pixels sampled = true ->
    flt (of_decimal 0 0)
      (total_proportion (proportions (aggregate (F:=F) sampled fips))) = true.

Lemma loop_with_data (n : nat) (counties : list (County Geometry)) :
  Forall admissible (loop_samplings zonal_stats n counties) ->
  (length (List.filter
             (fun r => flt (of_decimal 0 0) (total_proportion (proportions r)))
             (loop_results (F:=F) zonal_stats n counties))
   + length (fips_without_data zonal_stats n counties))%nat
  = length counties.
Proof.
  revert n. induction counties as [|c rest IH]; intros n Hall; [reflexivity|].
  simpl in *. inversion Hall as [|? ? Hc Hrest]; subst.
  pose proof (IH _ Hrest) as IH'.
  destruct (has_valid_pixels (zonal_stats n (geometry c))) eqn:Hvalid.
  - rewrite (positive_valid _ (GEOID c) Hc Hvalid). simpl. lia.
  - destruct (aggregate_flag (zonal_stats n (geometry c)) (GEOID c) Hc) as [_ Hdeg].
    rewrite (Hdeg Hvalid). cbn [proportions degenerate].
    rewrite zero_not_positive. simpl. lia.
Qed.

(** The summary counts on the frame of the records of the loop. *)
Lemma print_summary_statistics_loop (n : nat) (counties : list (County Geometry))
  (w : World F) :
  counties <> [] ->
  Forall admissible (loop_samplings zonal_stats n counties) ->
  print_summary_statistics (pd_DataFrame (loop_results zonal_stats n counties)) w
  = (Ok tt,
     {| results := results w;
        stdout :=
          stdout w
          ++ [ Line (newline +:+ "Summary Statistics:");
               Line ("Total counties processed: " +:+ pretty (length counties));
               Line ("Counties with data: "
                       +:+ pretty (length counties
                                   - length (fips_without_data zonal_stats n counties))%nat) ];
        samplings := samplings w;
        files := files w |}).
Proof.
  intros Hne Hall.
  pose proof (loop_results_nonempty zonal_stats n counties Hne) as Hrs.
  pose proof (loop_with_data n counties Hall) as Hcount.
  set (rs := loop_results zonal_stats n counties) in *.
  assert (Hsum : (sub ← getitems (pd_DataFrame rs) proportion_cols;
                  total ← sum_axis1 sub;
                  mask ← series_gt (NumCol total) (of_decimal 0 0);
                  mret (getitem_mask (pd_DataFrame rs) mask))
                 = Ok (getitem_mask (pd_DataFrame rs)
                         (map (fun r => flt (of_decimal 0 0)
                                          (total_proportion (proportions r))) rs))).
  { pose proof (sum_axis1_proportions rs Hrs) as Hs.
    destruct (getitems (pd_DataFrame rs) proportion_cols) as [sub|e];
      [|discriminate].
    cbn [mbind Py_bind] in Hs |- *. rewrite Hs. cbn [mbind Py_bind series_gt].
    rewrite map_map. reflexivity. }
  unfold print_summary_statistics. rewrite Hsum.
  unfold mbind, M_bind, print, lift, mret, M_ret.
  cbn [results stdout samplings files].
  assert (Hlen : len (pd_DataFrame rs) = length counties).
  { rewrite (pd_DataFrame_nonempty rs Hrs). cbn [len column_length].
    rewrite length_map. apply loop_results_length. }
  assert (Hwith : len (getitem_mask (pd_DataFrame rs)
                         (map (fun r => flt (of_decimal 0 0)
                                          (total_proportion (proportions r))) rs))
                  = (length counties
                     - length (fips_without_data zonal_stats n counties))%nat).
  { rewrite (pd_DataFrame_nonempty rs Hrs).
    cbn -[select flt total_proportion List.filter of_decimal].
    rewrite select_maps, length_map. lia. }
  rewrite Hlen, Hwith. rewrite <- !app_assoc. reflexivity.
Qed.


End Flags.

Lemma flagged_zero_Q : flagged (F:=Q) zero_proportions = true.
Proof. reflexivity. Qed.

Lemma flagged_zero_binary64 : flagged (F:=spec_float) zero_proportions = true.
Proof. reflexivity. Qed.

Lemma unflagged_valid_Q sampled fips :
  counts_nonnegative sampled -> has_valid_pixels sampled = true ->
  flagged (proportions (aggregate (F:=Q) sampled fips)) = false.
Proof.
  intros Hnn Hvalid. apply flagged_Q_total.
  apply aggregate_with_valid_pixels_Q; assumption.
Qed.

Lemma unflagged_valid_binary64 sampled fips :
  counts_nonnegative sampled /\ counts_below (2 ^ 1000) sampled ->
  has_valid_pixels sampled = true ->
  flagged (proportions (aggregate (F:=spec_float) sampled fips)) = false.
Proof.
  intros [Hnn Hbelow] Hvalid.
  apply aggregate_with_valid_pixels_binary64; assumption.
Qed.

Lemma positive_valid_Q sampled fips :
  counts_nonnegative sampled -> has_valid_pixels sampled = true ->
  flt (of_decimal 0 0)
    (total_proportion (proportions (aggregate (F:=Q) sampled fips))) = true.
Proof.
  intros Hnn Hvalid. cbn [flt ExactQ]. apply Q_lt_spec.
  rewrite (aggregate_with_valid_pixels_Q sampled fips Hnn Hvalid). reflexivity.
Qed.

Lemma positive_valid_binary64 sampled fips :
  counts_nonnegative sampled /\ counts_below (2 ^ 1000) sampled ->
  has_valid_pixels sampled = true ->
  flt (of_decimal 0 0)
    (total_proportion (proportions (aggregate (F:=spec_float) sampled fips))) = true.
Proof.
  intros [Hnn Hbelow] Hvalid.
  apply aggregate_with_valid_pixels_binary64; assumption.
Qed.

Lemma total_zero_Q : total_proportion (F:=Q) zero_proportions = zero.
Proof. reflexivity. Qed.

Lemma total_zero_binary64 : total_proportion (F:=spec_float) zero_proportions = zero.
Proof. reflexivity. Qed.

(** X4.  The validator flags exactly the counties without a valid pixel.
    When no sampled count is negative, the row test of the records of a
    run holds for a county if and only if its sampling raised, found no
    raster data or found no pixel of a real class, and every flagged
    record is the all-zero one; in exact arithmetic for every batch, and
    in binary64 when each county has fewer than 2^1000 valid pixels. *)
Theorem flagged_counties_are_those_without_valid_pixels
  {Geometry : Type}
  (zonal_stats : nat -> Geometry -> Py (list (list (Z * Z))))
  (counties : list (County Geometry)) (n : nat) :
  Forall counts_nonnegative (loop_samplings zonal_stats n counties) ->
  (forall w : World Q,
     samplings w = n ->
     map (fun r => flagged (proportions r))
       (results (process_county_landcover zonal_stats counties w).2)
     = map (fun s => negb (has_valid_pixels s))
         (loop_samplings zonal_stats n counties)
     /\ Forall (fun r => flagged (proportions r) = true ->
                         proportions r = zero_proportions)
          (results (process_county_landcover zonal_stats counties w).2))
  /\ (Forall (counts_below (2 ^ 1000)) (loop_samplings zonal_stats n counties) ->
      forall w : World spec_float,
        samplings w = n ->
        map (fun r => flagged (proportions r))
          (results (process_county_landcover zonal_stats counties w).2)
        = map (fun s => negb (has_valid_pixels s))
            (loop_samplings zonal_stats n counties)
        /\ Forall (fun r => flagged (proportions r) = true ->
                            proportions r = zero_proportions)
             (results (process_county_landcover zonal_stats counties w).2)).
Proof.
  intros Hnn. split.
  - intros w <-. rewrite run_results. split.
    + apply (loop_flags zonal_stats counts_nonnegative (fun _ H => H)
               flagged_zero_Q unflagged_valid_Q). exact Hnn.
    + apply (loop_flagged_degenerate zonal_stats counts_nonnegative (fun _ H => H)
               flagged_zero_Q unflagged_valid_Q). exact Hnn.
  - intros Hbelow w <-. rewrite run_results.
    assert (Hall : Forall (fun s => counts_nonnegative s /\ counts_below (2 ^ 1000) s)
                     (loop_samplings zonal_stats (samplings w) counties)).
    { apply Forall_and. split; assumption. }
    split.
    + apply (loop_flags zonal_stats _ (fun _ H => proj1 H)
               flagged_zero_binary64 unflagged_valid_binary64). exact Hall.
    + apply (loop_flagged_degenerate zonal_stats _ (fun _ H => proj1 H)
               flagged_zero_binary64 unflagged_valid_binary64). exact Hall.
Qed.

(** X4 on the sample batch: only the second county, whose pixels are all
    NoData, is flagged. *)
Lemma flagged_counties_are_those_without_valid_pixels_witness :
  Forall counts_nonnegative (loop_samplings sample_raster 0 sample_counties)
  /\ map (fun r => flagged (proportions r))
       (results (process_county_landcover (F:=Q)
                   sample_raster sample_counties initial_world).2)
     = [false; true; false].
Proof.
  assert (Hnn : Forall counts_nonnegative
                  (loop_samplings sample_raster 0 sample_counties)).
  { repeat constructor; intros stats [= <-]; repeat constructor; simpl; lia. }
  split; [exact Hnn|].
  exact (proj1 (proj1 (flagged_counties_are_those_without_valid_pixels
                         sample_raster sample_counties 0%nat Hnn)
                  initial_world eq_refl)).
Defined.

(** X5.  The validation warning reports the counties without data.  When
    no sampled count is negative, a run over at least one county prints,
    between the loop's lines and the saving line, nothing if every county
    has a valid pixel, and else the number of counties without one, with
    the first five of them and the total 0.0; in exact arithmetic, and in
    binary64 when each county has fewer than 2^1000 valid pixels. *)
Theorem validation_warning_reports_counties_without_data
  {Geometry : Type}
  (zonal_stats : nat -> Geometry -> Py (list (list (Z * Z))))
  (counties : list (County Geometry)) (n : nat) :
  counties <> [] ->
  Forall counts_nonnegative (loop_samplings zonal_stats n counties) ->
  (forall w : World Q,
     samplings w = n ->
     stdout (process_county_landcover zonal_stats counties w).2
     = stdout w
       ++ [Line "Processing counties..."]
       ++ loop_log zonal_stats n counties
       ++ [Line "Creating results DataFrame..."; Line "Validating results..."]
       ++ missing_data_report (fips_without_data zonal_stats n counties)
       ++ [Line ("Saving results to " +:+ OUTPUT_CSV_PATH +:+ "...")])
  /\ (Forall (counts_below (2 ^ 1000)) (loop_samplings zonal_stats n counties) ->
      forall w : World spec_float,
        samplings w = n ->
        stdout (process_county_landcover zonal_stats counties w).2
        = stdout w
          ++ [Line "Processing counties..."]
          ++ loop_log zonal_stats n counties
          ++ [Line "Creating results DataFrame..."; Line "Validating results..."]
          ++ missing_data_report (fips_without_data zonal_stats n counties)
          ++ [Line ("Saving results to " +:+ OUTPUT_CSV_PATH +:+ "...")]).
Proof.
  intros Hne Hnn. split.
  - intros w <-. rewrite (process_county_landcover_spec _ _ _ Hne).
    cbn [snd stdout].
    rewrite (loop_validation_report zonal_stats counts_nonnegative (fun _ H => H)
               flagged_zero_Q unflagged_valid_Q total_zero_Q _ _ Hnn).
    reflexivity.
  - intros Hbelow w <-. rewrite (process_county_landcover_spec _ _ _ Hne).
    cbn [snd stdout].
    assert (Hall : Forall (fun s => counts_nonnegative s /\ counts_below (2 ^ 1000) s)
                     (loop_samplings zonal_stats (samplings w) counties)).
    { apply Forall_and. split; assumption. }
    rewrite (loop_validation_report zonal_stats _ (fun _ H => proj1 H)
               flagged_zero_binary64 unflagged_valid_binary64 total_zero_binary64
               _ _ Hall).
    reflexivity.
Qed.

(** X5 on the sample batch: one county without data is reported. *)
Lemma validation_warning_reports_counties_without_data_witness :
  sample_counties <> []
  /\ Forall counts_nonnegative (loop_samplings sample_raster 0 sample_counties)
  /\ stdout (process_county_landcover (F:=Q)
               sample_raster sample_counties initial_world).2
     = [ Line "Processing counties...";
         Line "Creating results DataFrame..."; Line "Validating results...";
         Line "Warning: 1 counties have proportions that don't sum to ~1.0";
         Line "Sample invalid counties:";
         Table [ ("county_fips", StrCol ["01003"]);
                 ("total_proportion", NumCol [0%Q]) ];
         Line ("Saving results to " +:+ OUTPUT_CSV_PATH +:+ "...") ].
Proof.
  assert (Hnn : Forall counts_nonnegative
                  (loop_samplings sample_raster 0 sample_counties)).
  { repeat constructor; intros stats [= <-]; repeat constructor; simpl; lia. }
  split; [discriminate|]. split; [exact Hnn|].
  exact (proj1 (validation_warning_reports_counties_without_data
                  sample_raster sample_counties 0%nat
                  ltac:(discriminate) Hnn)
           initial_world eq_refl).
Defined.

(** X6.  The summary counts.  On the table that a run over at least one
    county has written, the summary prints the number of counties as
    processed and, as counties with data, the number of counties with a
    valid pixel, and it does not raise; in exact arithmetic, and in
    binary64 when each county has fewer than 2^1000 valid pixels. *)
Theorem summary_counts_counties_with_data
  {Geometry : Type}
  (zonal_stats : nat -> Geometry -> Py (list (list (Z * Z))))
  (counties : list (County Geometry)) (n : nat) :
  counties <> [] ->
  Forall counts_nonnegative (loop_samplings zonal_stats n counties) ->
  (forall w : World Q,
     samplings w = n ->
     exists results_df : DataFrame Q,
       files (process_county_landcover zonal_stats counties w).2 !! OUTPUT_CSV_PATH
       = Some results_df
       /\ forall w' : World Q,
            print_summary_statistics results_df w'
            = (Ok tt,
               {| results := results w';
                  stdout :=
                    stdout w'
                    ++ [ Line (newline +:+ "Summary Statistics:");
                         Line ("Total counties processed: "
                                 +:+ pretty (length counties));
                         Line ("Counties with data: "
                                 +:+ pretty
                                       (length counties
                                        - length (fips_without_data
                                                    zonal_stats n counties))%nat) ];
                  samplings := samplings w';
                  files := files w' |}))
  /\ (Forall (counts_below (2 ^ 1000)) (loop_samplings zonal_stats n counties) ->
      forall w : World spec_float,
        samplings w = n ->
        exists results_df : DataFrame spec_float,
          files (process_county_landcover zonal_stats counties w).2 !! OUTPUT_CSV_PATH
          = Some results_df
          /\ forall w' : World spec_float,
               print_summary_statistics results_df w'
               = (Ok tt,
                  {| results := results w';
                     stdout :=
                       stdout w'
                       ++ [ Line (newline +:+ "Summary Statistics:");
                            Line ("Total counties processed: "
                                    +:+ pretty (length counties));
                            Line ("Counties with data: "
                                    +:+ pretty
                                          (length counties
                                           - length (fips_without_data
                                                       zonal_stats n counties))%nat) ];
                     samplings := samplings w';
                     files := files w' |})).
Proof.
  intros Hne Hnn. split.
  - intros w <-. eexists. split.
    + rewrite (process_county_landcover_spec _ _ _ Hne). cbn [snd files].
      apply lookup_insert_eq.
    + intros w'.
      apply (print_summary_statistics_loop zonal_stats counts_nonnegative
               (fun _ H => H) flagged_zero_Q unflagged_valid_Q
               eq_refl positive_valid_Q); assumption.
  - intros Hbelow w <-. eexists. split.
    + rewrite (process_county_landcover_spec _ _ _ Hne). cbn [snd files].
      apply lookup_insert_eq.
    + intros w'.
      assert (Hall : Forall (fun s => counts_nonnegative s
                                      /\ counts_below (2 ^ 1000) s)
                       (loop_samplings zonal_stats (samplings w) counties)).
      { apply Forall_and. split; assumption. }
      apply (print_summary_statistics_loop zonal_stats _
               (fun _ H => proj1 H) flagged_zero_binary64 unflagged_valid_binary64
               eq_refl positive_valid_binary64); assumption.
Qed.

(** X6 on the sample batch: three counties processed, two with data. *)
Lemma summary_counts_counties_with_data_witness :
  sample_counties <> []
  /\ Forall counts_nonnegative (loop_samplings sample_raster 0 sample_counties)
  /\ exists results_df : DataFrame Q,
       files (process_county_landcover
                sample_raster sample_counties initial_world).2 !! OUTPUT_CSV_PATH
       = Some results_df
       /\ stdout (print_summary_statistics results_df initial_world).2
          = [ Line (newline +:+ "Summary Statistics:");
              Line "Total counties processed: 3";
              Line "Counties with data: 2" ].
Proof.
  assert (Hnn : Forall counts_nonnegative
                  (loop_samplings sample_raster 0 sample_counties)).
  { repeat constructor; intros stats [= <-]; repeat constructor; simpl; lia. }
  split; [discriminate|]. split; [exact Hnn|].
  destruct (proj1 (summary_counts_counties_with_data
                     sample_raster sample_counties 0%nat
                     ltac:(discriminate) Hnn)
              initial_world eq_refl) as [results_df [Hfile Hsummary]].
  exists results_df. split; [exact Hfile|].
  rewrite Hsummary. reflexivity.
Defined.

(** ** Order, scale and shares *)

Lemma sum_Permutation (l l' : list Z) : l ≡ₚ l' -> sum l = sum l'.
Proof.
  induction 1 as [|x l l' _ IH|x y l|l l' l'' _ IH1 _ IH2].
  - reflexivity.
  - rewrite !sum_cons, IH. reflexivity.
  - rewrite !sum_cons. lia.
  - congruence.
Qed.

Lemma tally_Permutation (table : gmap Z SemanticClass)
  (pixel_counts pixel_counts' : list (Z * Z)) :
  pixel_counts ≡ₚ pixel_counts' ->
  tally table pixel_counts = tally table pixel_counts'.
Proof.
  intros Hperm. apply counts_ext. intros class_name. rewrite !tally_class.
  apply sum_Permutation. rewrite Hperm. reflexivity.
Qed.

Section Shares.
Variable table : gmap Z SemanticClass.

Lemma filter_bool_decide {A} (P : A -> Prop) `{!forall x, Decision (P x)}
  (l : list A) :
  List.filter (fun x => bool_decide (P x)) l = filter P l.
Proof.
  induction l as [|x l IH]; [reflexivity|].
  rewrite filter_cons. cbn [List.filter]. rewrite IH.
  destruct (decide (P x)) as [Hp|Hp].
  - rewrite bool_decide_eq_true_2 by exact Hp. reflexivity.
  - rewrite bool_decide_eq_false_2 by exact Hp. reflexivity.
Qed.

Lemma class_sum_tally (pixel_counts : list (Z * Z)) (class_name : SemanticClass) :
  sum (map snd
         (List.filter
            (fun item => bool_decide (table !! item.1 = Some class_name))
            pixel_counts))
  = get_count (tally table pixel_counts) class_name.
Proof.
  rewrite tally_class.
  rewrite (filter_bool_decide (fun item => table !! item.1 = Some class_name)).
  reflexivity.
Qed.

Lemma valid_sum_tally (pixel_counts : list (Z * Z)) :
  sum (map snd
         (List.filter
            (fun item =>
               match table !! item.1 with
               | Some class_name => negb (bool_decide (class_name = nodata))
               | None => false
               end)
            pixel_counts))
  = total_valid_pixels (tally table pixel_counts).
Proof.
  rewrite total_valid_pixels_eq.
  change (forest_count ?cc) with (get_count cc forest).
  change (agriculture_count ?cc) with (get_count cc agriculture).
  change (developed_count ?cc) with (get_count cc developed).
  change (wetland_count ?cc) with (get_count cc wetland).
  change (other_count ?cc) with (get_count cc other).
  rewrite !tally_class.
  induction pixel_counts as [|item rest IH].
  - rewrite !filter_nil. reflexivity.
  - rewrite !filter_cons. cbn [List.filter].
    destruct (table !! item.1) as [c|].
    + destruct c;
        repeat match goal with
               | |- context [decide (Some ?a = Some ?b)] =>
                 destruct (decide (Some a = Some b)); try discriminate
               end;
        try congruence;
        rewrite ?(bool_decide_eq_true_2 (nodata = nodata)) by reflexivity;
        rewrite ?bool_decide_eq_false_2 by discriminate;
        cbn [negb map]; rewrite ?sum_cons; lia.
    + repeat match goal with
             | |- context [decide (None = Some ?b)] =>
               destruct (decide (None = Some b)); try discriminate
             end. exact IH.
Qed.

End Shares.

Lemma class_pixels_tally (pixel_counts : list (Z * Z)) (class_name : SemanticClass) :
  class_pixels pixel_counts class_name
  = get_count (tally NLCD_RECLASSIFICATION pixel_counts) class_name.
Proof. apply class_sum_tally. Qed.

Lemma valid_pixels_tally (pixel_counts : list (Z * Z)) :
  valid_pixels pixel_counts
  = total_valid_pixels (tally NLCD_RECLASSIFICATION pixel_counts).
Proof. apply valid_sum_tally. Qed.

Lemma no_raster_data_Permutation
  (pixel_counts pixel_counts' : list (Z * Z)) (others others' : list (list (Z * Z))) :
  pixel_counts ≡ₚ pixel_counts' ->
  no_raster_data (pixel_counts :: others) = no_raster_data (pixel_counts' :: others').
Proof.
  intros Hperm. destruct pixel_counts as [|x l].
  - apply Permutation_nil_l in Hperm. subst. reflexivity.
  - destruct pixel_counts' as [|x' l']; [|reflexivity].
    apply Permutation_nil_r in Hperm. discriminate.
Qed.

(** X7.  The record of a county depends neither on the order in which the
    sampling lists the codes nor on any feature after the first: two
    samplings whose first dictionaries hold the same pairs make the loop
    body do the same. *)
Theorem record_ignores_order_of_codes
  {F : Type} {ops : PyFloat F} {Geometry : Type}
  (zonal_stats zonal_stats' : nat -> Geometry -> Py (list (list (Z * Z))))
  (county : County Geometry) (w : World F)
  (pixel_counts pixel_counts' : list (Z * Z)) (others others' : list (list (Z * Z))) :
  zonal_stats (samplings w) (geometry county) = Ok (pixel_counts :: others) ->
  zonal_stats' (samplings w) (geometry county) = Ok (pixel_counts' :: others') ->
  pixel_counts ≡ₚ pixel_counts' ->
  tally NLCD_RECLASSIFICATION pixel_counts = tally NLCD_RECLASSIFICATION pixel_counts'
  /\ process_county zonal_stats county w = process_county zonal_stats' county w.
Proof.
  intros Hs Hs' Hperm.
  pose proof (tally_Permutation NLCD_RECLASSIFICATION _ _ Hperm) as Htally.
  split; [exact Htally|].
  rewrite !process_county_spec, Hs, Hs'. unfold aggregate, county_log.
  rewrite (no_raster_data_Permutation _ _ others others' Hperm).
  cbn [hd]. rewrite Htally. reflexivity.
Qed.

(** X7 on two listings of the same three codes. *)
Lemma record_ignores_order_of_codes_witness :
  [(41, 120); (82, 30); (21, 50)] ≡ₚ [(21, 50); (41, 120); (82, 30)]
  /\ process_county (F:=spec_float)
       (fun _ _ => Ok [[(41, 120); (82, 30); (21, 50)]])
       {| GEOID := "01001"; geometry := 1%nat |} initial_world
     = process_county
         (fun _ _ => Ok [[(21, 50); (41, 120); (82, 30)]; [(11, 7)]])
         {| GEOID := "01001"; geometry := 1%nat |} initial_world.
Proof.
  assert (Hperm : [(41, 120); (82, 30); (21, 50)] ≡ₚ [(21, 50); (41, 120); (82, 30)]).
  { exact (Permutation_app_comm [(41, 120); (82, 30)] [(21, 50)]). }
  split; [exact Hperm|].
  exact (proj2 (record_ignores_order_of_codes (F:=spec_float)
                  (fun _ _ => Ok [[(41, 120); (82, 30); (21, 50)]])
                  (fun _ _ => Ok [[(21, 50); (41, 120); (82, 30)]; [(11, 7)]])
                  {| GEOID := "01001"; geometry := 1%nat |} initial_world
                  _ _ [] [[(11, 7)]] eq_refl eq_refl Hperm)).
Defined.

Lemma total_valid_pixels_scale (k : Z) (cc : ClassCounts) :
  total_valid_pixels (scale_counts k cc) = k * total_valid_pixels cc.
Proof. rewrite !total_valid_pixels_eq. cbn [scale_counts forest_count
  agriculture_count developed_count wetland_count other_count]. ring. Qed.

Lemma Q_truediv_scale (k a t : Z) :
  k <> 0 -> Q_truediv (k * a) (k * t) = Q_truediv a t.
Proof.
  intros Hk. unfold Q_truediv.
  destruct (Z.eqb_spec t 0) as [->|Ht].
  - rewrite Z.mul_0_r. reflexivity.
  - destruct (Z.eqb_spec (k * t) 0) as [Hz|_]; [lia|].
    f_equal. apply Qred_complete.
    rewrite !inject_Z_mult. field. split.
    + intros Heq. apply Ht. apply (proj1 (inject_Z_injective _ 0)). exact Heq.
    + intros Heq. apply Hk. apply (proj1 (inject_Z_injective _ 0)). exact Heq.
Qed.

(** X8.  In exact arithmetic the proportions depend on the counts only
    through their ratios: multiplying every count by the same non-zero
    factor leaves the outcome of [calculate_proportions] as it is. *)
Theorem proportions_are_scale_invariant (k : Z) (cc : ClassCounts) :
  k <> 0 ->
  calculate_proportions (F:=Q) (scale_counts k cc) = calculate_proportions cc.
Proof.
  intros Hk. unfold calculate_proportions.
  rewrite total_valid_pixels_scale.
  destruct (Z.eqb_spec (total_valid_pixels cc) 0) as [Hz|Hnz].
  - rewrite Hz, Z.mul_0_r. reflexivity.
  - destruct (Z.eqb_spec (k * total_valid_pixels cc) 0) as [Hz'|_]; [lia|].
    cbn [truediv ExactQ scale_counts forest_count agriculture_count
         developed_count wetland_count other_count].
    rewrite !(Q_truediv_scale k _ _ Hk). reflexivity.
Qed.

(** X8 on a tally counted at three times the resolution. *)
Lemma proportions_are_scale_invariant_witness :
  3 <> 0
  /\ calculate_proportions (F:=Q)
       (scale_counts 3 (tally NLCD_RECLASSIFICATION [(41, 120); (82, 30); (21, 50)]))
     = calculate_proportions (tally NLCD_RECLASSIFICATION [(41, 120); (82, 30); (21, 50)]).
Proof.
  split; [discriminate|].
  apply (proportions_are_scale_invariant 3). discriminate.
Defined.

Lemma Q_truediv_self (t : Z) : 0 < t -> Q_truediv t t = Ok (of_decimal 10 1).
Proof.
  intros Ht. rewrite (Q_truediv_positive t t Ht). f_equal.
  cbn [of_decimal ExactQ]. apply Qred_complete.
  assert (Hq : ~ (inject_Z t == 0)%Q).
  { intros Heq. apply (proj1 (inject_Z_injective _ 0)) in Heq. lia. }
  change (inject_Z 10 / inject_Z (10 ^ Z.of_nat 1))%Q with (10 / 10)%Q.
  field; exact Hq.
Qed.

Lemma Q_truediv_none (t : Z) : 0 < t -> Q_truediv 0 t = Ok zero.
Proof. intros Ht. rewrite (Q_truediv_positive 0 t Ht). reflexivity. Qed.

Lemma int_truediv_self (t : Z) :
  0 < t < 2 ^ 1000 -> Binary64.int_truediv t t = Ok (of_decimal 10 1).
Proof.
  intros Ht. unfold Binary64.int_truediv.
  destruct (Z.eqb_spec t 0) as [Hz|_]; [lia|].
  rewrite (Binary64Facts.round_quotient_self t Ht). reflexivity.
Qed.

Lemma int_truediv_none (t : Z) : 0 < t -> Binary64.int_truediv 0 t = Ok zero.
Proof.
  intros Ht. unfold Binary64.int_truediv.
  destruct (Z.eqb_spec t 0) as [Hz|_]; [lia|].
  unfold Binary64.round_quotient.
  replace (t <? 0) with false by (symmetry; apply Z.ltb_ge; lia).
  reflexivity.
Qed.

(** The counts of a tally that lies in one real class. *)
Lemma single_class_counts (cc : ClassCounts) (class_name : SemanticClass) :
  is_tally cc -> class_name <> nodata ->
  get_count cc class_name = total_valid_pixels cc ->
  forall c, c <> nodata -> c <> class_name -> get_count cc c = 0.
Proof.
  intros Htally Hreal Hall c Hc Hne.
  pose proof (Htally forest) as Hf. pose proof (Htally agriculture) as Ha.
  pose proof (Htally developed) as Hd. pose proof (Htally wetland) as Hw.
  pose proof (Htally other) as Ho.
  rewrite total_valid_pixels_eq in Hall.
  destruct cc as [f a d w o z]; destruct class_name; destruct c; cbn [get_count forest_count
    agriculture_count developed_count wetland_count other_count nodata_count] in *;
    try congruence; lia.
Qed.

(** X9.  A county whose valid pixels all lie in one class gets exactly 1.0
    for this class and exactly 0.0 for the four others, in exact
    arithmetic and, below 2^1000 pixels, in binary64 (where the quotient
    of a count by itself is not subject to rounding). *)
Theorem single_class_county_is_exact (cc : ClassCounts) (class_name : SemanticClass) :
  is_tally cc ->
  class_name <> nodata ->
  get_count cc class_name = total_valid_pixels cc ->
  0 < total_valid_pixels cc ->
  calculate_proportions (F:=Q) cc = Ok (pure_proportions class_name)
  /\ (total_valid_pixels cc < 2 ^ 1000 ->
      calculate_proportions (F:=spec_float) cc = Ok (pure_proportions class_name)).
Proof.
  intros Htally Hreal Hall Hpos.
  pose proof (single_class_counts cc class_name Htally Hreal Hall) as Hzero.
  assert (Hf : forest <> class_name -> forest_count cc = 0)
    by (intros Hne; apply (Hzero forest); [discriminate|exact Hne]).
  assert (Ha : agriculture <> class_name -> agriculture_count cc = 0)
    by (intros Hne; apply (Hzero agriculture); [discriminate|exact Hne]).
  assert (Hd : developed <> class_name -> developed_count cc = 0)
    by (intros Hne; apply (Hzero developed); [discriminate|exact Hne]).
  assert (Hw : wetland <> class_name -> wetland_count cc = 0)
    by (intros Hne; apply (Hzero wetland); [discriminate|exact Hne]).
  assert (Ho : other <> class_name -> other_count cc = 0)
    by (intros Hne; apply (Hzero other); [discriminate|exact Hne]).
  unfold calculate_proportions.
  destruct (Z.eqb_spec (total_valid_pixels cc) 0) as [Hz|_]; [lia|].
  set (t := total_valid_pixels cc) in *.
  split.
  - cbn [truediv ExactQ].
    destruct class_name; try congruence; cbn [get_count] in Hall;
      rewrite ?Hall, ?Hf, ?Ha, ?Hd, ?Hw, ?Ho by discriminate;
      rewrite ?(Q_truediv_self t Hpos), ?(Q_truediv_none t Hpos); reflexivity.
  - intros Hbound. cbn [truediv Binary64.ops].
    destruct class_name; try congruence; cbn [get_count] in Hall;
      rewrite ?Hall, ?Hf, ?Ha, ?Hd, ?Hw, ?Ho by discriminate;
      rewrite ?(int_truediv_self t (conj Hpos Hbound)),
        ?(int_truediv_none t Hpos); reflexivity.
Qed.

(** X9 on a county of wetland and NoData pixels. *)
Lemma single_class_county_is_exact_witness :
  calculate_proportions (F:=spec_float)
    (tally NLCD_RECLASSIFICATION [(90, 300); (95, 33); (250, 12)])
  = Ok (pure_proportions wetland).
Proof.
  refine (proj2 (single_class_county_is_exact
                   (tally NLCD_RECLASSIFICATION [(90, 300); (95, 33); (250, 12)])
                   wetland _ _ _ _) _).
  - intros c. destruct c; vm_compute; discriminate.
  - discriminate.
  - reflexivity.
  - reflexivity.
  - reflexivity.
Defined.

(** X10.  The all-zero record has three causes that the table does not
    tell apart: the sampling raised, it found no raster data, or none of
    the pixels it found is of a real class.  In each case the loop body
    appends the same record; it prints the error in the first case, the
    warning in the second and nothing in the third. *)
Theorem all_zero_record_has_three_causes
  {F : Type} {ops : PyFloat F} {Geometry : Type}
  (zonal_stats : nat -> Geometry -> Py (list (list (Z * Z))))
  (county : County Geometry) (w : World F) :
  (forall e,
     zonal_stats (samplings w) (geometry county) = Raise e ->
     process_county zonal_stats county w
     = (Ok tt,
        {| results := results w ++ [degenerate (GEOID county)];
           stdout :=
             stdout w
             ++ [Line ("Error processing county " +:+ GEOID county
                         +:+ ": " +:+ str e)];
           samplings := S (samplings w);
           files := files w |}))
  /\ (forall stats,
        zonal_stats (samplings w) (geometry county) = Ok stats ->
        (stats = [] \/ exists others, stats = [] :: others) ->
        process_county zonal_stats county w
        = (Ok tt,
           {| results := results w ++ [degenerate (GEOID county)];
              stdout :=
                stdout w
                ++ [Line ("Warning: No raster data found for county "
                            +:+ GEOID county)];
              samplings := S (samplings w);
              files := files w |}))
  /\ (forall pixel_counts others,
        zonal_stats (samplings w) (geometry county) = Ok (pixel_counts :: others) ->
        pixel_counts <> [] ->
        valid_pixels pixel_counts = 0 ->
        process_county zonal_stats county w
        = (Ok tt,
           {| results := results w ++ [degenerate (GEOID county)];
              stdout := stdout w;
              samplings := S (samplings w);
              files := files w |})).
Proof.
  split; [|split].
  - intros e Hs. rewrite process_county_spec, Hs. reflexivity.
  - intros stats Hs Hempty. rewrite process_county_spec, Hs.
    destruct Hempty as [->|[others ->]]; reflexivity.
  - intros pixel_counts others Hs Hne Hzero.
    rewrite process_county_spec, Hs. unfold aggregate, county_log.
    destruct pixel_counts as [|item rest]; [congruence|].
    cbn [no_raster_data hd]. unfold calculate_proportions.
    rewrite <- valid_pixels_tally, Hzero. cbn [Z.eqb mret Py_ret].
    rewrite app_nil_r. reflexivity.
Qed.

(** X10 on the sample batch: the second county, all NoData, is recorded
    in silence. *)
Lemma all_zero_record_has_three_causes_witness :
  valid_pixels [(250, 500)] = 0
  /\ process_county (F:=spec_float) sample_raster
       {| GEOID := "01003"; geometry := 2%nat |} initial_world
     = (Ok tt,
        {| results := [degenerate "01003"]; stdout := [];
           samplings := 1; files := ∅ |}).
Proof.
  split; [reflexivity|].
  refine (proj2 (proj2 (all_zero_record_has_three_causes (F:=spec_float)
                          sample_raster
                          {| GEOID := "01003"; geometry := 2%nat |} initial_world))
            [(250, 500)] [] eq_refl _ eq_refl).
  discriminate.
Defined.

(** X11.  In exact arithmetic every proportion is the share of its class
    among the valid pixels: when the first dictionary of the sampling
    gives the real classes a number of pixels that is not 0, the loop
    body appends, without printing, the record whose proportions are the
    pixels of each class divided by the pixels of the five real classes. *)
Theorem proportion_is_share_of_valid_pixels
  {Geometry : Type}
  (zonal_stats : nat -> Geometry -> Py (list (list (Z * Z))))
  (county : County Geometry) (w : World Q)
  (pixel_counts : list (Z * Z)) (others : list (list (Z * Z))) :
  zonal_stats (samplings w) (geometry county) = Ok (pixel_counts :: others) ->
  valid_pixels pixel_counts <> 0 ->
  exists p : Proportions Q,
    process_county zonal_stats county w
    = (Ok tt,
       {| results :=
            results w ++ [{| county_fips := GEOID county; proportions := p |}];
          stdout := stdout w;
          samplings := S (samplings w);
          files := files w |})
    /\ (forest_proportion p
        == inject_Z (class_pixels pixel_counts forest)
           / inject_Z (valid_pixels pixel_counts))%Q
    /\ (agriculture_proportion p
        == inject_Z (class_pixels pixel_counts agriculture)
           / inject_Z (valid_pixels pixel_counts))%Q
    /\ (developed_proportion p
        == inject_Z (class_pixels pixel_counts developed)
           / inject_Z (valid_pixels pixel_counts))%Q
    /\ (wetland_proportion p
        == inject_Z (class_pixels pixel_counts wetland)
           / inject_Z (valid_pixels pixel_counts))%Q
    /\ (other_proportion p
        == inject_Z (class_pixels pixel_counts other)
           / inject_Z (valid_pixels pixel_counts))%Q.
Proof.
  intros Hs Hvalid.
  assert (Hne : no_raster_data (pixel_counts :: others) = false).
  { destruct pixel_counts as [|item rest]; [|reflexivity].
    exfalso. apply Hvalid. reflexivity. }
  rewrite process_county_spec, Hs. unfold aggregate, county_log.
  rewrite Hne. cbn [hd]. unfold calculate_proportions.
  rewrite !class_pixels_tally, valid_pixels_tally in *.
  set (cc := tally NLCD_RECLASSIFICATION pixel_counts) in *.
  destruct (Z.eqb_spec (total_valid_pixels cc) 0) as [Hz|_]; [contradiction|].
  cbn [truediv ExactQ]. unfold Q_truediv.
  destruct (Z.eqb_spec (total_valid_pixels cc) 0) as [Hz|_]; [contradiction|].
  cbn [mbind Py_bind mret Py_ret].
  eexists. split; [rewrite app_nil_r; reflexivity|].
  cbn [forest_proportion agriculture_proportion developed_proportion
       wetland_proportion other_proportion get_count].
  repeat split; apply Qred_correct.
Qed.

(** X11 on the first county of the sample batch: 120 of 200 valid pixels
    are forest. *)
Lemma proportion_is_share_of_valid_pixels_witness :
  valid_pixels [(41, 120); (82, 30); (21, 50); (250, 10)] <> 0
  /\ exists p : Proportions Q,
       process_county sample_raster
         {| GEOID := "01001"; geometry := 1%nat |} initial_world
       = (Ok tt,
          {| results := [{| county_fips := "01001"; proportions := p |}];
             stdout := []; samplings := 1; files := ∅ |})
       /\ (forest_proportion p == 120 / 200)%Q.
Proof.
  split; [discriminate|].
  destruct (proportion_is_share_of_valid_pixels sample_raster
              {| GEOID := "01001"; geometry := 1%nat |} initial_world
              [(41, 120); (82, 30); (21, 50); (250, 10)] [] eq_refl
              ltac:(discriminate)) as [p [Hrun [Hforest _]]].
  exists p. split; [exact Hrun|exact Hforest].
Defined.

(** ** The verification script and the validator *)

Section VerifyFacts.
Context {F : Type} {ops : PyFloat F} {order : PyFloatOrder F}.

(** The test of [verify_results.py] on one row. *)
Lemma valid_counties_spec (results : list (CountyRecord F)) :
  results <> [] ->
  valid_counties (pd_DataFrame results)
  = Ok (with_total results,
        getitem_mask (with_total results)
          (map (fun r =>
                  fle (of_decimal 99 2) (total_proportion (proportions r))
                  && fle (total_proportion (proportions r)) (of_decimal 101 2))
             results)).
Proof.
  intros Hne. unfold valid_counties.
  rewrite (sum_axis1_proportions results Hne). cbn [mbind Py_bind].
  rewrite (setitem_total results _ Hne). fold (with_total results).
  unfold with_total. rewrite (pd_DataFrame_nonempty results Hne).
  cbn -[map zip_with total_proportion of_decimal]. unfold series_and.
  rewrite zip_with_maps, map_map. reflexivity.
Qed.

Lemma mask_lengths (results : list (CountyRecord F)) (f : CountyRecord F -> bool) :
  results <> [] ->
  (len (getitem_mask (with_total results) (map f results))
   + len (getitem_mask (with_total results) (map (fun r => negb (f r)) results)))%nat
  = length results.
Proof.
  intros Hne. unfold with_total. rewrite (pd_DataFrame_nonempty results Hne).
  cbn -[select List.filter]. rewrite !select_maps, !length_map.
  clear Hne. induction results as [|r rs IH]; [reflexivity|].
  simpl. destruct (f r); simpl; lia.
Qed.

End VerifyFacts.

Lemma SFcompare_antisym (x y : spec_float) :
  SFcompare y x = option_map CompOpp (SFcompare x y).
Proof.
  destruct x as [sx|sx| |sx mx ex], y as [sy|sy| |sy my ey];
    try reflexivity;
    try (destruct sx; reflexivity);
    try (destruct sy; reflexivity);
    try (destruct sx, sy; reflexivity).
  destruct sx, sy; try reflexivity; cbn [SFcompare option_map];
    rewrite (Z.compare_antisym ex ey);
    destruct (ex ?= ey); cbn [CompOpp]; try reflexivity;
    change (PosDef.Pos.compare_cont Eq my mx) with (my ?= mx)%positive;
    change (PosDef.Pos.compare_cont Eq mx my) with (mx ?= my)%positive;
    rewrite (Pos.compare_antisym mx my);
    destruct (mx ?= my)%positive; reflexivity.
Qed.

(** A total that is not NaN is within the closed tolerance if and only
    if it is not flagged. *)
Lemma binary64_valid_iff_unflagged (p : Proportions spec_float) :
  is_nan (total_proportion p) = false ->
  fle (of_decimal 99 2) (total_proportion p)
  && fle (total_proportion p) (of_decimal 101 2)
  = negb (flagged p).
Proof.
  intros Hnan. unfold flagged. cbn [fle Binary64_order flt Binary64.ops].
  unfold SFleb, SFltb.
  rewrite (SFcompare_antisym (total_proportion p) (of_decimal 99 2)).
  rewrite (SFcompare_antisym (of_decimal 101 2) (total_proportion p)).
  destruct (SFcompare (total_proportion p) (of_decimal 99 2)) as [[| |]|] eqn:H1;
    destruct (SFcompare (of_decimal 101 2) (total_proportion p)) as [[| |]|] eqn:H2;
    try reflexivity; exfalso;
    destruct (total_proportion p) as [s|s| |s m e]; try discriminate;
    destruct s; discriminate.
Qed.

Lemma Q_valid_iff_unflagged (p : Proportions Q) :
  fle (of_decimal 99 2) (total_proportion p)
  && fle (total_proportion p) (of_decimal 101 2)
  = negb (flagged p).
Proof.
  unfold flagged. cbn [fle ExactQ_order flt ExactQ]. unfold Q_lt.
  destruct (Qle_bool _ _), (Qle_bool _ _); reflexivity.
Qed.

(** X12.  The verification script and the validator of the run agree: on
    a table of at least one record, [verify_results.py] keeps as valid
    exactly the rows that the validator does not flag, so the two counts
    add up to the number of rows; in exact arithmetic for every table, in
    binary64 when no row total is NaN. *)
Theorem valid_counties_are_the_unflagged_rows :
  (forall results : list (CountyRecord Q),
     results <> [] ->
     exists results_df valid invalid,
       valid_counties (pd_DataFrame results) = Ok (results_df, valid)
       /\ validate (pd_DataFrame results) = Ok (results_df, invalid)
       /\ valid
          = getitem_mask results_df
              (map (fun r => negb (flagged (proportions r))) results)
       /\ invalid
          = getitem_mask results_df
              (map (fun r => flagged (proportions r)) results)
       /\ (len valid + len invalid)%nat = length results)
  /\ (forall results : list (CountyRecord spec_float),
        results <> [] ->
        Forall (fun r => is_nan (total_proportion (proportions r)) = false) results ->
        exists results_df valid invalid,
          valid_counties (pd_DataFrame results) = Ok (results_df, valid)
          /\ validate (pd_DataFrame results) = Ok (results_df, invalid)
          /\ valid
             = getitem_mask results_df
                 (map (fun r => negb (flagged (proportions r))) results)
          /\ invalid
             = getitem_mask results_df
                 (map (fun r => flagged (proportions r)) results)
          /\ (len valid + len invalid)%nat = length results).
Proof.
  split.
  - intros results Hne.
    exists (with_total results),
      (getitem_mask (with_total results)
         (map (fun r => negb (flagged (proportions r))) results)),
      (getitem_mask (with_total results)
         (map (fun r => flagged (proportions r)) results)).
    split; [|split; [apply validate_spec; exact Hne|]].
    + rewrite (valid_counties_spec results Hne). do 3 f_equal.
      apply map_ext. intros r. apply Q_valid_iff_unflagged.
    + split; [reflexivity|]. split; [reflexivity|].
      rewrite Nat.add_comm. apply mask_lengths. exact Hne.
  - intros results Hne Hnan.
    exists (with_total results),
      (getitem_mask (with_total results)
         (map (fun r => negb (flagged (proportions r))) results)),
      (getitem_mask (with_total results)
         (map (fun r => flagged (proportions r)) results)).
    split; [|split; [apply validate_spec; exact Hne|]].
    + rewrite (valid_counties_spec results Hne). do 3 f_equal.
      apply map_ext_in. intros r Hin.
      apply binary64_valid_iff_unflagged.
      rewrite Forall_forall in Hnan. apply Hnan.
      apply list_elem_of_In. exact Hin.
    + split; [reflexivity|]. split; [reflexivity|].
      rewrite Nat.add_comm. apply mask_lengths. exact Hne.
Qed.

(** X12 on the records of the sample batch: the valid and the flagged
    rows are its three rows. *)
Lemma valid_counties_are_the_unflagged_rows_witness :
  loop_results (F:=spec_float) sample_raster 0 sample_counties <> []
  /\ Forall (fun r => is_nan (total_proportion (proportions r)) = false)
       (loop_results (F:=spec_float) sample_raster 0 sample_counties)
  /\ exists results_df valid invalid,
       valid_counties
         (pd_DataFrame (loop_results (F:=spec_float) sample_raster 0 sample_counties))
       = Ok (results_df, valid)
       /\ validate
            (pd_DataFrame (loop_results (F:=spec_float) sample_raster 0 sample_counties))
          = Ok (results_df, invalid)
       /\ (len valid + len invalid)%nat = 3%nat.
Proof.
  assert (Hnan : Forall (fun r => is_nan (total_proportion (proportions r)) = false)
                   (loop_results (F:=spec_float) sample_raster 0 sample_counties)).
  { apply (bool_decide_unpack _). vm_compute. exact I. }
  split; [discriminate|]. split; [exact Hnan|].
  destruct (proj2 valid_counties_are_the_unflagged_rows
              (loop_results (F:=spec_float) sample_raster 0 sample_counties)
              ltac:(discriminate) Hnan)
    as [results_df [valid [invalid [Hvalid [Hinvalid [_ [_ Hlen]]]]]]].
  exists results_df, valid, invalid.
  split; [exact Hvalid|]. split; [exact Hinvalid|exact Hlen].
Defined.

(** ** County identifiers *)

Lemma all_from_spec (k : nat) (n : Z) (f : Z -> bool) :
  all_from k n f = true ->
  forall i, n <= i < n + Z.of_nat k -> f i = true.
Proof.
  revert n. induction k as [|k IH]; intros n Hall i Hi; [lia|].
  cbn [all_from] in Hall. apply andb_true_iff in Hall as [Hn Hrest].
  destruct (Z.eq_dec i n) as [->|Hne]; [exact Hn|].
  apply (IH (n + 1) Hrest). lia.
Qed.

(** Every number below 100000 becomes a text of five characters that
    denotes it. *)
Lemma fips_text_checked :
  all_from (Z.to_nat 100000) 0
    (fun n =>
       let text := zfill 5 (astype_str n) in
       (String.length text =? 5)%nat
       && bool_decide (int_of_digits text = Some n))
  = true.
Proof. vm_cast_no_check (eq_refl true). Qed.

Lemma fips_text_value (n : Z) :
  0 <= n < 100000 ->
  String.length (zfill 5 (astype_str n)) = 5%nat
  /\ int_of_digits (zfill 5 (astype_str n)) = Some n.
Proof.
  intros Hn.
  pose proof (all_from_spec _ _ _ fips_text_checked n ltac:(lia)) as Hcheck.
  cbv beta zeta in Hcheck. apply andb_true_iff in Hcheck as [Hlen Hval].
  split.
  - apply Nat.eqb_eq. exact Hlen.
  - apply bool_decide_eq_true in Hval. exact Hval.
Qed.

Lemma digit_value_spec (c : Ascii.ascii) (d : Z) :
  digit_value c = Some d ->
  0 <= d <= 9 /\ c = Ascii.ascii_of_nat (Z.to_nat (48 + d)).
Proof.
  unfold digit_value. intros Hd.
  destruct (Z.leb_spec 48 (Z.of_nat (Ascii.nat_of_ascii c))) as [Hlo|]; [|discriminate].
  destruct (Z.leb_spec (Z.of_nat (Ascii.nat_of_ascii c)) 57) as [Hhi|]; [|discriminate].
  cbn [andb] in Hd. injection Hd as <-. split; [lia|].
  replace (48 + (Z.of_nat (Ascii.nat_of_ascii c) - 48))
    with (Z.of_nat (Ascii.nat_of_ascii c)) by lia.
  rewrite Nat2Z.id. symmetry. apply Ascii.ascii_nat_embedding.
Qed.

(** A text of five digits is known by its value. *)
Lemma int_of_digits_inj (g g' : string) (n : Z) :
  String.length g = 5%nat -> String.length g' = 5%nat ->
  int_of_digits g = Some n -> int_of_digits g' = Some n ->
  g = g' /\ 0 <= n < 100000.
Proof.
  intros Hlen Hlen' Hg Hg'.
  destruct g as [|c1 [|c2 [|c3 [|c4 [|c5 [|? ?]]]]]]; try discriminate Hlen.
  destruct g' as [|b1 [|b2 [|b3 [|b4 [|b5 [|? ?]]]]]]; try discriminate Hlen'.
  cbn [int_of_digits digits_value] in Hg, Hg'.
  destruct (digit_value c1) as [d1|] eqn:H1; [|discriminate].
  destruct (digit_value c2) as [d2|] eqn:H2; [|discriminate].
  destruct (digit_value c3) as [d3|] eqn:H3; [|discriminate].
  destruct (digit_value c4) as [d4|] eqn:H4; [|discriminate].
  destruct (digit_value c5) as [d5|] eqn:H5; [|discriminate].
  destruct (digit_value b1) as [e1|] eqn:G1; [|discriminate].
  destruct (digit_value b2) as [e2|] eqn:G2; [|discriminate].
  destruct (digit_value b3) as [e3|] eqn:G3; [|discriminate].
  destruct (digit_value b4) as [e4|] eqn:G4; [|discriminate].
  destruct (digit_value b5) as [e5|] eqn:G5; [|discriminate].
  injection Hg as Hn. injection Hg' as Hn'.
  apply digit_value_spec in H1 as [B1 ->], H2 as [B2 ->], H3 as [B3 ->],
    H4 as [B4 ->], H5 as [B5 ->].
  apply digit_value_spec in G1 as [A1 ->], G2 as [A2 ->], G3 as [A3 ->],
    G4 as [A4 ->], G5 as [A5 ->].
  assert (d1 = e1 /\ d2 = e2 /\ d3 = e3 /\ d4 = e4 /\ d5 = e5) as (-> & -> & -> & -> & ->)
    by lia.
  split; [reflexivity|lia].
Qed.

Lemma substring_all (s : string) : String.substring 0 (String.length s) s = s.
Proof.
  induction s as [|c rest IH]; [reflexivity|].
  cbn [String.length String.substring]. rewrite IH. reflexivity.
Qed.

Lemma zfill_full (width : nat) (s : string) :
  (width <= String.length s)%nat -> zfill width s = s.
Proof.
  intros Hlen. unfold zfill.
  replace (width - String.length s)%nat with O by lia. cbn [zeros].
  destruct s as [|c rest]; [reflexivity|].
  destruct (String.prefix "+" (String c rest) || String.prefix "-" (String c rest));
    [|reflexivity].
  change (String.length (String c rest) - 1)%nat with (String.length rest - 0)%nat.
  rewrite Nat.sub_0_r. cbn [String.substring].
  rewrite substring_all. destruct rest; reflexivity.
Qed.

(** X13.  The scripts restore the county identifiers that [read_csv]
    turned into numbers.  A text of five digits (a GEOID) is left as it is
    by [astype(str).str.zfill(5)], and the number it denotes is turned
    back into this text, so the join keys of the two tables agree and
    [state_fips] is the first two digits of the GEOID; conversely every
    number from 0 to 99999 becomes a text of five characters that denotes
    it, so different numbers get different keys. *)
Theorem county_identifiers_are_restored :
  (forall (g : string) (n : Z),
     String.length g = 5%nat ->
     int_of_digits g = Some n ->
     zfill 5 (astype_str n) = g
     /\ zfill 5 g = g
     /\ state_fips n = str_slice_to 2 g)
  /\ (forall n : Z,
        0 <= n < 100000 ->
        String.length (zfill 5 (astype_str n)) = 5%nat
        /\ int_of_digits (zfill 5 (astype_str n)) = Some n).
Proof.
  split; [|exact fips_text_value].
  intros g n Hlen Hg.
  assert (Hbound : 0 <= n < 100000).
  { exact (proj2 (int_of_digits_inj g g n Hlen Hlen Hg Hg)). }
  destruct (fips_text_value n Hbound) as [Hlen' Hval].
  destruct (int_of_digits_inj _ _ n Hlen' Hlen Hval Hg) as [Heq _].
  split; [exact Heq|]. split.
  - apply zfill_full. lia.
  - unfold state_fips. rewrite Heq. reflexivity.
Qed.

(** X13 on the identifier of Autauga County, Alabama. *)
Lemma county_identifiers_are_restored_witness :
  int_of_digits "01001" = Some 1001
  /\ zfill 5 (astype_str 1001) = "01001"
  /\ state_fips 1001 = "01".
Proof.
  split; [reflexivity|].
  destruct (proj1 county_identifiers_are_restored "01001" 1001 eq_refl eq_refl)
    as [Htext [_ Hstate]].
  split; [exact Htext|exact Hstate].
Defined.

(** ** Regions *)

(** The pairs that the loop over [regions] writes, in order. *)
Lemma region_map_pairs :
  region_map
  = list_to_map
      (flat_map (fun '(r, states) => map (fun s : string => (s, r)) states) regions).
Proof. vm_compute. reflexivity. Qed.

Lemma region_map_lookup (s r : string) :
  region_map !! s = Some r
  <-> exists states, In (r, states) regions /\ In s states.
Proof.
  rewrite region_map_pairs, <- elem_of_list_to_map.
  - rewrite list_elem_of_In, in_flat_map. split.
    + intros [[r' states] [Hin Hs]]. apply in_map_iff in Hs as [s' [[= <- <-] Hs']].
      exists states. split; assumption.
    + intros [states [Hin Hs]]. exists (r, states). split; [exact Hin|].
      apply in_map_iff. exists s. split; [reflexivity|exact Hs].
  - apply (bool_decide_unpack _). vm_compute. exact I.
Qed.

Lemma state_names_regions :
  Forall (fun s : string => region s = "Other" <-> s = "05" \/ s = "22")
    (map fst (map_to_list state_names)).
Proof. apply (bool_decide_unpack _). vm_compute. exact I. Qed.

(** X14.  The regions of the analysis scripts.  The loop that inverts
    [regions] gives a state code the region whose list holds it (no code
    is listed twice), and a code that no list holds gets the region
    ['Other']; of the 51 codes of [state_names] this happens to two,
    Arkansas (05) and Louisiana (22), whose counties are therefore
    summarised under ['Other']. *)
Theorem regions_leave_out_two_states :
  (forall s r : string,
     region_map !! s = Some r
     <-> exists states, In (r, states) regions /\ In s states)
  /\ (forall s : string,
        (forall r states, In (r, states) regions -> ~ In s states) ->
        region s = "Other")
  /\ (forall s : string,
        is_Some (state_names !! s) ->
        (region s = "Other" <-> s = "05" \/ s = "22"))
  /\ state_names !! "05" = Some "Arkansas"
  /\ state_names !! "22" = Some "Louisiana".
Proof.
  split; [exact region_map_lookup|]. split; [|split].
  - intros s Hnone. unfold region.
    destruct (region_map !! s) as [r|] eqn:Hlook; [|reflexivity].
    apply region_map_lookup in Hlook as [states [Hin Hs]].
    exfalso. exact (Hnone r states Hin Hs).
  - intros s [name Hname].
    pose proof state_names_regions as Hall. rewrite Forall_forall in Hall.
    apply Hall. apply list_elem_of_fmap. exists (s, name). split; [reflexivity|].
    apply elem_of_map_to_list. exact Hname.
  - split; reflexivity.
Qed.
